(** * Prompt optimisation: generation client, refinement loop, benchmark harness

    A shallow embedding of

    - [src/models/ollama_api.py]: [OllamaAPI.generate_response];
    - [src/optimization/core/optimizer.py]: [OptimizationLoop.optimize_prompt]
      and its scorer;
    - [src/optimization/pipeline.py]: the scorer of the single-pass pipeline;
    - [src/data_structures/schemas.py]: [OptimizationResult];
    - [src/optimization/prompt_engineer.py]:
      [PromptEngineer.detect_task_type];
    - [src/logging/monitor.py]: the counters and the summary of
      [PerformanceMonitor];
    - [advanced_model_testing.py]: [AdvancedModelTester.generate_response],
      the quality metrics, and the category, concurrent and parameter
      summaries;
    - [tests/integration/model_memory_test.py]:
      [ModelTester.test_model_loading] and
      [ModelTester.test_concurrent_models].

    Python values are dynamically typed, and several of the properties below
    are about which exception an ill-shaped value provokes, so values are
    modelled by one inductive type and every operation that can raise
    returns an [outcome].  Text is modelled by [string], one element per
    character, which covers the characters of code below 256.  A finite
    floating-point number is modelled by its value, a rational.  The
    refinement loop and the two scorers, whose comparisons depend on how
    the arithmetic rounds, round as binary64 does (module [Float]); the
    statistics of the benchmark harness are computed exactly. *)

From Stdlib Require Import ZArith QArith Qround Qpower String Ascii List Bool Lia Lqa.
From Stdlib Require Import DecimalString.
Import ListNotations.
Local Close Scope Q_scope.
Local Open Scope nat_scope.
Local Open Scope string_scope.
Set Warnings "-register-all,-notation-for-abbreviation".

(** ** Python runtime fragment *)

Module Py.

(** The exceptions the modelled code can meet.  All of them derive from
    Python's [Exception]. *)
Inductive exn : Type :=
| TypeError
| KeyError
| AttributeError
| ZeroDivisionError
| UnboundLocalError
| StatisticsError
| ValueError
| JSONDecodeError
| RecursionError
| OverflowError
| ConnectionError
| Timeout
| OtherException (name : string).

(** A computation either returns a value or raises. *)
Inductive outcome (A : Type) : Type :=
| Return (a : A)
| Raise (e : exn).
Arguments Return {A} a.
Arguments Raise {A} e.

Definition bind {A B} (m : outcome A) (k : A -> outcome B) : outcome B :=
  match m with
  | Return a => k a
  | Raise e => Raise e
  end.

(** [try: m  except Exception: h] *)
Definition try_except {A} (m : outcome A) (h : exn -> outcome A) : outcome A :=
  match m with
  | Return a => Return a
  | Raise e => h e
  end.

Declare Scope py_scope.
Delimit Scope py_scope with py.
Notation "x <- m ;; k" := (bind m (fun x => k))
  (at level 61, m at next level, right associativity) : py_scope.

(** Values: [None], booleans, integers, floats (as rationals), strings,
    lists and dictionaries (insertion-ordered, keyed by strings, which is
    all that JSON decoding produces). *)
Inductive value : Type :=
| VNone
| VBool (b : bool)
| VInt (z : Z)
| VFloat (q : Q)
| VStr (s : string)
| VList (l : list value)
| VDict (d : list (string * value)).

(** Truth value testing, as used by [if x], [not x], [x and y], [x or y]. *)
Definition truthy (v : value) : bool :=
  match v with
  | VNone => false
  | VBool b => b
  | VInt z => negb (z =? 0)%Z
  | VFloat q => negb (Qeq_bool q 0)
  | VStr s => negb (String.eqb s EmptyString)
  | VList l => match l with [] => false | _ => true end
  | VDict d => match d with [] => false | _ => true end
  end.

Fixpoint assoc (k : string) (d : list (string * value)) : option value :=
  match d with
  | [] => None
  | (k', v) :: d' => if String.eqb k k' then Some v else assoc k d'
  end.

(** [d[k] = v] on a dictionary: an existing key keeps its position. *)
Fixpoint dict_set (k : string) (v : value) (d : list (string * value))
  : list (string * value) :=
  match d with
  | [] => [(k, v)]
  | (k', v') :: d' =>
      if String.eqb k k' then (k', v) :: d' else (k', v') :: dict_set k v d'
  end.

(** [v[k]] with a string key [k]. *)
Definition subscript (v : value) (k : string) : outcome value :=
  match v with
  | VDict d => match assoc k d with
               | Some x => Return x
               | None => Raise KeyError
               end
  | _ => Raise TypeError
  end.

(** [v.get(k, default)]: only dictionaries have a [get] method. *)
Definition get (v : value) (k : string) (default : value) : outcome value :=
  match v with
  | VDict d => match assoc k d with
               | Some x => Return x
               | None => Return default
               end
  | _ => Raise AttributeError
  end.

(** [len(v)] *)
Definition len (v : value) : outcome nat :=
  match v with
  | VStr s => Return (String.length s)
  | VList l => Return (List.length l)
  | VDict d => Return (List.length d)
  | _ => Raise TypeError
  end.

(** [a / b] on numbers obtained from [len]: true division. *)
Definition truediv (a b : nat) : outcome Q :=
  match b with
  | O => Raise ZeroDivisionError
  | S _ => Return (inject_Z (Z.of_nat a) / inject_Z (Z.of_nat b))%Q
  end.

(** [sep.join(items)] with the empty separator: every item must be a
    string. *)
Fixpoint join_empty (items : list value) : outcome string :=
  match items with
  | [] => Return EmptyString
  | VStr s :: rest => (r <- join_empty rest ;; Return (s ++ r))%py
  | _ :: _ => Raise TypeError
  end.

(** Evaluate [f] on every element, left to right, stopping at the first
    exception (a generator expression consumed to its end). *)
Fixpoint for_each {A B} (f : A -> outcome B) (l : list A) : outcome (list B) :=
  match l with
  | [] => Return []
  | a :: l' => (b <- f a ;; bs <- for_each f l' ;; Return (b :: bs))%py
  end.

(** *** Text *)

Definition newline : ascii := ascii_of_nat 10.
Definition dquote : ascii := ascii_of_nat 34.

(** [str.isspace] on one character of code below 256. *)
Definition isspace (c : ascii) : bool :=
  let n := nat_of_ascii c in
  (((9 <=? n) && (n <=? 13)) || ((28 <=? n) && (n <=? 32))
   || (n =? 133) || (n =? 160))%nat.

Fixpoint lstrip (s : string) : string :=
  match s with
  | String c s' => if isspace c then lstrip s' else s
  | EmptyString => EmptyString
  end.

Fixpoint rstrip (s : string) : string :=
  match s with
  | EmptyString => EmptyString
  | String c s' =>
      match rstrip s' with
      | EmptyString => if isspace c then EmptyString else String c EmptyString
      | r => String c r
      end
  end.

(** [s.strip()] *)
Definition strip (s : string) : string := rstrip (lstrip s).

(** [s.split(sep)] for a one-character separator: always at least one
    piece. *)
Fixpoint split (sep : ascii) (s : string) : list string :=
  match s with
  | EmptyString => [EmptyString]
  | String c s' =>
      if Ascii.eqb c sep then EmptyString :: split sep s'
      else match split sep s' with
           | piece :: rest => String c piece :: rest
           | [] => [String c EmptyString]
           end
  end.

(** [len(s.split())]: the number of maximal runs of characters that are
    not blank. *)
Fixpoint words_from (inside : bool) (s : string) : nat :=
  match s with
  | EmptyString => 0
  | String c s' =>
      if isspace c then words_from false s'
      else if inside then words_from true s'
           else S (words_from true s')
  end.

Definition count_words (s : string) : nat := words_from false s.

(** [s.count(sub)] for a non-empty [sub]: occurrences that do not
    overlap, found from left to right. *)
Fixpoint count_from (sub : string) (skip : nat) (s : string) : nat :=
  match s with
  | EmptyString => 0
  | String c s' =>
      match skip with
      | S k => count_from sub k s'
      | O =>
          if String.prefix sub (String c s')
          then S (count_from sub (String.length sub - 1) s')
          else count_from sub 0 s'
      end
  end.

Definition count (s sub : string) : nat := count_from sub 0 s.

(** [min(a, b)] and [max(a, b)] on two numbers: the first argument
    unless the second is strictly smaller (greater). *)
Definition min2 (a b : Q) : Q := if negb (Qle_bool a b) then b else a.

Definition max2 (a b : Q) : Q := if negb (Qle_bool b a) then b else a.

(** [c.lower()] on one character of code below 256: the ASCII capitals
    and the accented capitals of Latin-1 (the multiplication sign, code
    215, is not a letter). *)
Definition lower_char (c : ascii) : ascii :=
  let n := nat_of_ascii c in
  if (((65 <=? n) && (n <=? 90))
      || ((192 <=? n) && (n <=? 222) && negb (n =? 215)))%nat
  then ascii_of_nat (n + 32)
  else c.

(** [s.lower()] *)
Fixpoint lower (s : string) : string :=
  match s with
  | EmptyString => EmptyString
  | String c s' => String (lower_char c) (lower s')
  end.

(** [sub in s] on strings. *)
Fixpoint contains (sub s : string) : bool :=
  if String.prefix sub s then true
  else match s with
       | EmptyString => false
       | String _ s' => contains sub s'
       end.

(** [str(n)] on an integer. *)
Definition str_int (n : Z) : string := NilZero.string_of_int (Z.to_int n).

End Py.

(** ** Floating-point arithmetic

    Python's [float] is the binary64 format of IEEE 754: 53 bits of
    significand, exponents of the last place from -1074 up.  An
    operation computes the exact result and rounds it to the nearest
    float, a tie going to the float whose significand is even.
    Infinities and NaNs are not modelled: the quotients below are
    quotients of lengths, which stay below 2^63, and a sum of such a
    quotient with a finite threshold stays within the range of the
    format. *)

Module Float.
Import Py.

Definition pow2 (e : Z) : Q := Qpower 2 e.

(** For [q > 0], the integer [k] with [2^k <= q < 2^(k+1)]. *)
Definition ilog2 (q : Q) : Z :=
  let k := (Z.log2 (Qnum q) - Z.log2 (Zpos (Qden q)))%Z in
  if Qle_bool (pow2 k) q then k else (k - 1)%Z.

(** The exponent of the last place of the floats next to [q > 0]. *)
Definition ulp_exponent (q : Q) : Z := Z.max (ilog2 q - 52) (-1074).

(** The nearest integer, a tie going to the even one. *)
Definition nearest_even (q : Q) : Z :=
  let f := Qfloor q in
  match (q - inject_Z f ?= 1 # 2)%Q with
  | Lt => f
  | Gt => (f + 1)%Z
  | Eq => if Z.even f then f else (f + 1)%Z
  end.

Definition round_pos (q : Q) : Q :=
  let e := ulp_exponent q in
  Qred (inject_Z (nearest_even (q / pow2 e)) * pow2 e)%Q.

(** The float nearest to [q]. *)
Definition round64 (q : Q) : Q :=
  match (q ?= 0)%Q with
  | Eq => 0%Q
  | Gt => round_pos q
  | Lt => (- round_pos (- q))%Q
  end.

(** [a + b] on floats. *)
Definition add (a b : Q) : Q := round64 (a + b).

(** [a / b] on numbers obtained from [len]: true division of integers,
    which is correctly rounded. *)
Definition truediv (a b : nat) : outcome Q :=
  match b with
  | O => Raise ZeroDivisionError
  | S _ => Return (round64 (inject_Z (Z.of_nat a) / inject_Z (Z.of_nat b)))%Q
  end.

(** [float(z)] raises [OverflowError] on an integer that rounds to
    2^1024 or beyond. *)
Definition int_overflows (z : Z) : bool := (2 ^ 1024 - 2 ^ 970 <=? Z.abs z)%Z.

End Float.

(** ** JSON decoding

    [json.loads] belongs to Python's standard library, not to the
    repository.  The client below is therefore parameterised by the
    decoder, and every general statement holds for any decoder.  The
    concrete decoder of this module is used to run the client on concrete
    payloads; it follows the grammar of [json.decoder] for objects,
    arrays, strings, numbers and the literals [null], [true], [false]
    (the non-standard literals [NaN] and [Infinity], and [\u] escapes
    above code 255, are not covered).  A decoder raises
    [JSONDecodeError] on text that is not JSON; it can raise other
    exceptions as well ([RecursionError] on text nested deeper than the
    interpreter's stack allows), which the concrete decoder never does:
    the statements about the client cover them through the parameter. *)

Module Json.
Import Py.

Definition is_ws (c : ascii) : bool :=
  ((c =? " ") || (c =? ascii_of_nat 9) || (c =? ascii_of_nat 10)
   || (c =? ascii_of_nat 13))%char.

Fixpoint skip_ws (s : string) : string :=
  match s with
  | String c s' => if is_ws c then skip_ws s' else s
  | EmptyString => EmptyString
  end.

Definition is_digit (c : ascii) : bool :=
  let n := nat_of_ascii c in ((48 <=? n) && (n <=? 57))%nat.

Definition digit_val (c : ascii) : Z := Z.of_nat (nat_of_ascii c - 48).

Fixpoint scan_digits (acc : Z) (n : nat) (s : string) : Z * nat * string :=
  match s with
  | String c s' =>
      if is_digit c then scan_digits (10 * acc + digit_val c) (S n) s'
      else (acc, n, s)
  | EmptyString => (acc, n, s)
  end.

Definition hex_val (c : ascii) : option nat :=
  let n := nat_of_ascii c in
  if ((48 <=? n) && (n <=? 57))%nat then Some (n - 48)
  else if ((65 <=? n) && (n <=? 70))%nat then Some (n - 55)
  else if ((97 <=? n) && (n <=? 102))%nat then Some (n - 87)
  else None.

Definition escape (c : ascii) : option ascii :=
  if (c =? dquote)%char then Some dquote
  else if (c =? "\")%char then Some "\"%char
  else if (c =? "/")%char then Some "/"%char
  else if (c =? "b")%char then Some (ascii_of_nat 8)
  else if (c =? "f")%char then Some (ascii_of_nat 12)
  else if (c =? "n")%char then Some (ascii_of_nat 10)
  else if (c =? "r")%char then Some (ascii_of_nat 13)
  else if (c =? "t")%char then Some (ascii_of_nat 9)
  else None.

Definition cons_to (c : ascii) (r : option (string * string))
  : option (string * string) :=
  match r with
  | Some (body, rest) => Some (String c body, rest)
  | None => None
  end.

(** The text of a string literal, scanned from just after its opening
    quote; control characters are refused (strict mode). *)
Fixpoint scan_string (s : string) : option (string * string) :=
  match s with
  | EmptyString => None
  | String c s' =>
      if (c =? dquote)%char then Some (EmptyString, s')
      else if (c =? "\")%char then
        match s' with
        | String e s'' =>
            match escape e with
            | Some ch => cons_to ch (scan_string s'')
            | None =>
                if (e =? "u")%char then
                  match s'' with
                  | String h1 (String h2 (String h3 (String h4 rest))) =>
                      match hex_val h1, hex_val h2, hex_val h3, hex_val h4 with
                      | Some a, Some b, Some c', Some d =>
                          let code := ((a * 16 + b) * 16 + c') * 16 + d in
                          if (code <? 256)%nat
                          then cons_to (ascii_of_nat code) (scan_string rest)
                          else None
                      | _, _, _, _ => None
                      end
                  | _ => None
                  end
                else None
            end
        | EmptyString => None
        end
      else if (nat_of_ascii c <? 32)%nat then None
      else cons_to c (scan_string s')
  end.

Definition strip_prefix (p s : string) : option string :=
  if String.prefix p s
  then Some (String.substring (String.length p) (String.length s - String.length p) s)
  else None.

(** A number: an optional minus sign, then either a single zero or a
    non-zero digit followed by digits, then an optional fraction (a dot and
    at least one digit) and an optional exponent (e or E, an optional sign,
    at least one digit).  The value is an integer unless a fraction or an
    exponent is present, and then the float nearest to the number
    written. *)
Definition scan_number (s : string) : option (value * string) :=
  let '(neg, s1) :=
    match s with
    | String c s' => if (c =? "-")%char then (true, s') else (false, s)
    | EmptyString => (false, s)
    end in
  match s1 with
  | EmptyString => None
  | String c s2 =>
      if is_digit c then
        let '(ip, rest) :=
          if (c =? "0")%char then (0%Z, s2)
          else let '(v, _, r) := scan_digits 0 0 s1 in (v, r) in
        let '(frac, rest1) :=
          match rest with
          | String dot r =>
              if (dot =? ".")%char then
                let '(fv, fn, r') := scan_digits 0 0 r in
                match fn with
                | O => (None, rest)
                | S _ => (Some (fv, fn), r')
                end
              else (None, rest)
          | EmptyString => (None, rest)
          end in
        let '(ex, rest2) :=
          match rest1 with
          | String e r =>
              if ((e =? "e") || (e =? "E"))%char then
                let '(eneg, r1) :=
                  match r with
                  | String sg r' =>
                      if (sg =? "-")%char then (true, r')
                      else if (sg =? "+")%char then (false, r')
                      else (false, r)
                  | EmptyString => (false, r)
                  end in
                let '(ev, en, r2) := scan_digits 0 0 r1 in
                match en with
                | O => (None, rest1)
                | S _ => (Some (if eneg then (- ev)%Z else ev), r2)
                end
              else (None, rest1)
          | EmptyString => (None, rest1)
          end in
        let sign (q : Q) : Q := if neg then (- q)%Q else q in
        match frac, ex with
        | None, None => Some (VInt (if neg then (- ip)%Z else ip), rest2)
        | _, _ =>
            let m : Q :=
              match frac with
              | Some (fv, fn) =>
                  (inject_Z ip + Qmake fv (Z.to_pos (10 ^ Z.of_nat fn)))%Q
              | None => inject_Z ip
              end in
            let e : Z := match ex with Some z => z | None => 0%Z end in
            Some (VFloat (Float.round64 (sign (m * Qpower (inject_Z 10) e)%Q)),
                  rest2)
        end
      else None
  end.

(** One JSON value at the head of [s] (after optional blanks), and the
    text that follows it.  [fuel] bounds the nesting of the calls. *)
Fixpoint parse_value (fuel : nat) (s : string) : option (value * string) :=
  match fuel with
  | O => None
  | S f =>
      match skip_ws s with
      | EmptyString => None
      | String c rest =>
          if (c =? "{")%char then
            match skip_ws rest with
            | String c' r =>
                if (c' =? "}")%char then Some (VDict [], r)
                else parse_members f (String c' r) []
            | EmptyString => None
            end
          else if (c =? "[")%char then
            match skip_ws rest with
            | String c' r =>
                if (c' =? "]")%char then Some (VList [], r)
                else parse_elements f (String c' r) []
            | EmptyString => None
            end
          else if (c =? dquote)%char then
            match scan_string rest with
            | Some (body, r) => Some (VStr body, r)
            | None => None
            end
          else if (c =? "n")%char then
            option_map (fun r => (VNone, r)) (strip_prefix "ull" rest)
          else if (c =? "t")%char then
            option_map (fun r => (VBool true, r)) (strip_prefix "rue" rest)
          else if (c =? "f")%char then
            option_map (fun r => (VBool false, r)) (strip_prefix "alse" rest)
          else scan_number (String c rest)
      end
  end

with parse_members (fuel : nat) (s : string) (acc : list (string * value))
  : option (value * string) :=
  match fuel with
  | O => None
  | S f =>
      match s with
      | EmptyString => None
      | String c rest =>
          if (c =? dquote)%char then
            match scan_string rest with
            | None => None
            | Some (key, r1) =>
                match skip_ws r1 with
                | String colon r2 =>
                    if (colon =? ":")%char then
                      match parse_value f r2 with
                      | None => None
                      | Some (v, r3) =>
                          let acc' := dict_set key v acc in
                          match skip_ws r3 with
                          | String d r4 =>
                              if (d =? ",")%char
                              then parse_members f (skip_ws r4) acc'
                              else if (d =? "}")%char
                                   then Some (VDict acc', r4)
                                   else None
                          | EmptyString => None
                          end
                      end
                    else None
                | EmptyString => None
                end
            end
          else None
      end
  end

with parse_elements (fuel : nat) (s : string) (acc : list value)
  : option (value * string) :=
  match fuel with
  | O => None
  | S f =>
      match parse_value f s with
      | None => None
      | Some (v, r1) =>
          let acc' := (acc ++ [v])%list in
          match skip_ws r1 with
          | String d r2 =>
              if (d =? ",")%char then parse_elements f r2 acc'
              else if (d =? "]")%char then Some (VList acc', r2)
                   else None
          | EmptyString => None
          end
      end
  end.

(** [json.loads(s)] *)
Definition json_loads (s : string) : outcome value :=
  match parse_value (S (String.length s)) s with
  | Some (v, rest) =>
      match skip_ws rest with
      | EmptyString => Return v
      | String _ _ => Raise JSONDecodeError
      end
  | None => Raise JSONDecodeError
  end.

(** Building JSON text without writing quote characters in literals. *)
Definition quoted (s : string) : string := String dquote (s ++ String dquote EmptyString).

Definition member (k v : string) : string := quoted k ++ ":" ++ v.

Definition object1 (k v : string) : string := "{" ++ member k v ++ "}".

End Json.

(** ** The generation client: [src/models/ollama_api.py] *)

Module OllamaAPI.
Import Py.
Local Open Scope py_scope.

(** What [requests.post] does with a request: it raises (connection
    refused, timeout, ...) or delivers a status code and a body. *)
Inductive post_result : Type :=
| PostRaises (e : exn)
| PostResponse (status_code : Z) (text : string).

Section Client.

(** [json.loads]; [response.json()] is [json.loads(response.text)]. *)
Variable loads : string -> outcome value.

(** [requests.post(endpoint, json=payload)] *)
Variable post : value -> post_result.

(** Lines 14-19: the request payload.  [**(params or {})] needs a
    mapping. *)
Definition payload (model : string) (prompt params : value) : outcome value :=
  let extra := if truthy params then params else VDict [] in
  match extra with
  | VDict d =>
      Return (VDict (fold_left (fun acc kv => dict_set (fst kv) (snd kv) acc) d
                       [("model", VStr model); ("prompt", prompt);
                        ("stream", VBool false)]))
  | _ => Raise TypeError
  end.

(** Lines 28-34: every non-empty line that decodes is kept; a line on
    which the decoder raises [JSONDecodeError] is skipped; any other
    exception leaves the loop. *)
Fixpoint decode_lines (lines : list string) : outcome (list value) :=
  match lines with
  | [] => Return []
  | line :: rest =>
      if String.eqb line EmptyString then decode_lines rest
      else match loads line with
           | Return v => responses <- decode_lines rest ;; Return (v :: responses)
           | Raise JSONDecodeError => decode_lines rest
           | Raise e => Raise e
           end
  end.

(** Lines 38-42: the combined response. *)
Definition combine (model : string) (responses : list value) : outcome value :=
  fragments <- for_each (fun r => get r "response" (VStr EmptyString)) responses ;;
  joined <- join_empty fragments ;;
  created <- match responses with
             | r0 :: _ => get r0 "created_at" (VStr EmptyString)
             | [] => Raise (OtherException "IndexError")
             end ;;
  Return (VDict [("response", VStr joined); ("model", VStr model);
                 ("created_at", created)]).

(** Lines 13-46: the body of the [try] block. *)
Definition generate_response_try (model : string) (prompt params : value)
  : outcome value :=
  request <- payload model prompt params ;;
  match post request with
  | PostRaises e => Raise e
  | PostResponse status_code text =>
      if (status_code =? 200)%Z then
        match loads text with
        | Return v => Return v
        | Raise JSONDecodeError =>
            responses <- decode_lines (split newline (strip text)) ;;
            match responses with
            | [] => Return VNone
            | r0 :: rs => combine model (r0 :: rs)
            end
        | Raise e => Raise e
        end
      else Return VNone
  end.

(** Lines 10-50: [except Exception] turns every exception into [None]. *)
Definition generate_response (model : string) (prompt params : value)
  : outcome value :=
  try_except (generate_response_try model prompt params)
             (fun _ => Return VNone).

End Client.

End OllamaAPI.

(** ** The scorer of the single-pass pipeline: [src/optimization/pipeline.py] *)

Module PromptOptimizationPipeline.
Import Py.

(** Lines 111-123.  The guard returns the integer [0], which Python
    compares equal to [0.0]. *)
Definition _calculate_improvement (initial final : value) : outcome Q :=
  (d <- len initial ;;
   if (0 <? d)%nat
   then (n <- len final ;; d' <- len initial ;; Float.truediv n d')
   else Return 0%Q)%py.

End PromptOptimizationPipeline.

(** ** The refinement loop: [src/optimization/core/optimizer.py] *)

Module OptimizationLoop.
Import Py.

(** [self.config["models"][...]["name"]] for the two roles; a
    configuration without these entries is not modelled. *)
Record config : Type := {
  model1_name : string;
  model2_name : string
}.

(** The [metadata] dictionary: [{"iterations": n, "duration": d}] for an
    accepted round, [{"iterations": 0}] for the fallback result. *)
Record Metadata : Type := {
  iterations : Z;
  duration : option Q
}.

(** [src/data_structures/schemas.py], lines 15-23.  Times are in
    microseconds since the epoch. *)
Record OptimizationResult : Type := {
  original_prompt : value;
  optimized_prompt : value;
  initial_response : value;
  final_response : value;
  improvement_score : Q;
  created_at : Z;
  metadata : Metadata
}.

(** The part of the outside world the loop acts on: how many requests
    have been sent to the generation service, and how many times the
    clock has been read. *)
Record world : Type := {
  requests : nat;
  clock_reads : nat
}.

(** Computations that act on the world and may raise. *)
Definition M (A : Type) : Type := world -> outcome A * world.

Definition ret {A} (a : A) : M A := fun w => (Return a, w).

Definition lift {A} (o : outcome A) : M A := fun w => (o, w).

Definition mbind {A B} (m : M A) (k : A -> M B) : M B :=
  fun w =>
    match m w with
    | (Return a, w') => k a w'
    | (Raise e, w') => (Raise e, w')
    end.

Declare Scope loop_scope.
Delimit Scope loop_scope with loop.
Notation "x <- m ;; k" := (mbind m (fun x => k))
  (at level 61, m at next level, right associativity) : loop_scope.
Local Open Scope loop_scope.

(** The local variables of [optimize_prompt] that outlive one round.
    [response] is unbound until the first round has assigned it. *)
Record locals : Type := {
  current_prompt : value;
  best_score : Q;
  best_result : option OptimizationResult;
  response : option value
}.

(** How a round leaves the [for] loop. *)
Inductive ctrl : Type := Continue | Break.

(** What a round has in hand when it reaches line 69: the executor's
    reply, the candidate prompt, the executor's reply to the candidate,
    and the score. *)
Record candidate : Type := {
  c_response : value;
  c_new_prompt : value;
  c_new_response : value;
  c_score : Q
}.

(** Lines 104-108: [len(new_response) / len(original_response)]. *)
Definition _calculate_improvement (original_response new_response : value)
  : outcome Q :=
  (n <- len new_response ;; d <- len original_response ;; Float.truediv n d)%py.

(** [a > b] on floats. *)
Definition gt (a b : Q) : bool := negb (Qle_bool a b).

Section Loop.

Variable loads : string -> outcome value.

(** The generation service: the outcome of the [n]-th request of the
    process, given its payload. *)
Variable service : nat -> value -> OllamaAPI.post_result.

(** The [n]-th reading of [datetime.now()]. *)
Variable clock : nat -> Z.

(** [PromptEngineer.enhance_prompt(original_prompt, task_type=None,
    model_response)]: the rendering of a template read from a YAML file
    outside the repository's code. *)
Variable enhance_prompt : value -> value -> outcome value.

Variable cfg : config.

(** [OllamaAPI.generate_response(model, prompt)], one request. *)
Definition generate_response (model : string) (prompt : value) : M value :=
  fun w =>
    (OllamaAPI.generate_response loads (service (requests w)) model prompt VNone,
     {| requests := S (requests w); clock_reads := clock_reads w |}).

(** [datetime.now()] *)
Definition now : M Z :=
  fun w =>
    (Return (clock (clock_reads w)),
     {| requests := requests w; clock_reads := S (clock_reads w) |}).

(** Lines 97-102. *)
Definition _create_optimization_prompt (prompt response : value) : outcome value :=
  enhance_prompt prompt response.

(** Reading a local variable that may still be unbound. *)
Definition read_local (v : option value) : outcome value :=
  match v with
  | Some x => Return x
  | None => Raise UnboundLocalError
  end.

(** [(t1 - t0).total_seconds()]: the microseconds of the difference,
    divided by 10^6. *)
Definition total_seconds (t1 t0 : Z) : Q :=
  Float.round64 (Qmake (t1 - t0) 1000000).

(** Lines 35-66: the three calls of a round and the score of the
    candidate.  The first component is the value assigned to [response];
    the second is [None] when a falsy reply makes the round [break]. *)
Definition attempt (st : locals) : M (value * option candidate) :=
  response <- generate_response (model1_name cfg) (current_prompt st) ;;
  if negb (truthy response) then ret (response, None) else
  text <- lift (subscript response "response") ;;
  optimization_prompt <- lift (_create_optimization_prompt (current_prompt st) text) ;;
  optimization_result <- generate_response (model2_name cfg) optimization_prompt ;;
  if negb (truthy optimization_result) then ret (response, None) else
  new_prompt <- lift (subscript optimization_result "response") ;;
  new_response <- generate_response (model1_name cfg) new_prompt ;;
  original_text <- lift (subscript response "response") ;;
  new_text <- lift (subscript new_response "response") ;;
  score <- lift (_calculate_improvement original_text new_text) ;;
  ret (response,
       Some {| c_response := response;
               c_new_prompt := new_prompt;
               c_new_response := new_response;
               c_score := score |}).

(** Lines 69-85: accept the candidate or leave the loop. *)
Definition evaluate (prompt : value) (start_time : Z) (improvement_threshold : Q)
  (iteration : nat) (st : locals) (c : candidate) : M (ctrl * locals) :=
  if gt (c_score c) (Float.add (best_score st) improvement_threshold) then
    initial <- lift (subscript (c_response c) "response") ;;
    final <- lift (subscript (c_new_response c) "response") ;;
    created <- now ;;
    finished <- now ;;
    ret (Continue,
         {| current_prompt := c_new_prompt c;
            best_score := c_score c;
            best_result := Some
              {| original_prompt := prompt;
                 optimized_prompt := c_new_prompt c;
                 initial_response := initial;
                 final_response := final;
                 improvement_score := c_score c;
                 created_at := created;
                 metadata := {| iterations := Z.of_nat iteration + 1;
                                duration := Some (total_seconds finished start_time) |} |};
            response := response st |})
  else ret (Break, st).

(** Lines 32-85: one round of the [for] loop. *)
Definition round (prompt : value) (start_time : Z) (improvement_threshold : Q)
  (iteration : nat) (st : locals) : M (ctrl * locals) :=
  rc <- attempt st ;;
  let st1 := {| current_prompt := current_prompt st;
                best_score := best_score st;
                best_result := best_result st;
                response := Some (fst rc) |} in
  match snd rc with
  | None => ret (Break, st1)
  | Some c => evaluate prompt start_time improvement_threshold iteration st1 c
  end.

(** Line 31: [for iteration in range(max_iterations)], with [n] rounds
    left to run. *)
Fixpoint for_range (prompt : value) (start_time : Z) (improvement_threshold : Q)
  (n : nat) (iteration : nat) (st : locals) : M locals :=
  match n with
  | O => ret st
  | S n' =>
      cs <- round prompt start_time improvement_threshold iteration st ;;
      match fst cs with
      | Break => ret (snd cs)
      | Continue =>
          for_range prompt start_time improvement_threshold n' (S iteration) (snd cs)
      end
  end.

(** Lines 87-95: the result when no round was accepted. *)
Definition fallback (prompt : value) (st : locals) : M OptimizationResult :=
  r <- lift (read_local (response st)) ;;
  initial <- lift (subscript r "response") ;;
  r' <- lift (read_local (response st)) ;;
  final <- lift (subscript r' "response") ;;
  created <- now ;;
  ret {| original_prompt := prompt;
         optimized_prompt := prompt;
         initial_response := initial;
         final_response := final;
         improvement_score := 0;
         created_at := created;
         metadata := {| iterations := 0; duration := None |} |}.

(** Lines 19-95.  The parameter [task_type] is never read and is left
    out; [improvement_threshold] is the value of a finite float. *)
Definition optimize_prompt (prompt : string) (max_iterations : Z)
  (improvement_threshold : Q) : M OptimizationResult :=
  start_time <- now ;;
  st <- for_range (VStr prompt) start_time improvement_threshold
          (Z.to_nat max_iterations) 0
          {| current_prompt := VStr prompt;
             best_score := 0;
             best_result := None;
             response := None |} ;;
  match best_result st with
  | Some result => ret result
  | None => fallback (VStr prompt) st
  end.

End Loop.

End OptimizationLoop.

(** ** The benchmark harness: [advanced_model_testing.py] *)

Module AdvancedModelTester.
Import Py.
Import OllamaAPI.
Local Open Scope py_scope.

(** The [error] entry of a failed result: ["HTTP <status>"] or [str(e)]. *)
Inductive error : Type :=
| HttpStatus (status_code : Z)
| Exception (e : exn).

(** The dictionary returned by [generate_response]: with [success: True]
    (lines 77-85) or with [success: False] (lines 87-91 and 94-98). *)
Inductive result : Type :=
| Succeeded (response : value) (response_time total_duration load_duration : Q)
            (prompt_eval_count eval_count : value)
| Failed (err : error) (response_time : Q).

(** [r["success"]] *)
Definition success (r : result) : bool :=
  match r with
  | Succeeded _ _ _ _ _ _ => true
  | Failed _ _ => false
  end.

(** [r["response_time"]] *)
Definition response_time (r : result) : Q :=
  match r with
  | Succeeded _ t _ _ _ _ => t
  | Failed _ t => t
  end.

(** The left operand of [x / 1e9] must be a number; an integer is
    converted to a float, which fails on an integer beyond the range of
    the format. *)
Definition to_number (v : value) : outcome Q :=
  match v with
  | VInt z =>
      if Float.int_overflows z then Raise OverflowError
      else Return (Float.round64 (inject_Z z))
  | VFloat q => Return q
  | VBool b => Return (if b then 1 else 0)%Q
  | _ => Raise TypeError
  end.

(** [x / 1e9] *)
Definition nanoseconds (v : value) : outcome Q :=
  q <- to_number v ;; Return (Float.round64 (q / inject_Z 1000000000)).

Section Harness.

Variable loads : string -> outcome value.

(** Lines 61-91.  [posted] is what [requests.post] did, [elapsed] the
    value of [time.time() - start_time] on line 73. *)
Definition generate_response_try (posted : post_result) (elapsed : Q)
  : outcome result :=
  match posted with
  | PostRaises e => Raise e
  | PostResponse status_code text =>
      if (status_code =? 200)%Z then
        data <- loads text ;;
        response <- get data "response" (VStr EmptyString) ;;
        td <- get data "total_duration" (VInt 0) ;;
        total_duration <- nanoseconds td ;;
        ld <- get data "load_duration" (VInt 0) ;;
        load_duration <- nanoseconds ld ;;
        prompt_eval_count <- get data "prompt_eval_count" (VInt 0) ;;
        eval_count <- get data "eval_count" (VInt 0) ;;
        Return (Succeeded response elapsed total_duration load_duration
                  prompt_eval_count eval_count)
      else Return (Failed (HttpStatus status_code) elapsed)
  end.

(** Lines 54-98.  [elapsed'] is [time.time() - start_time] as read in the
    handler on line 97. *)
Definition generate_response (posted : post_result) (elapsed elapsed' : Q)
  : result :=
  match generate_response_try posted elapsed with
  | Return r => r
  | Raise e => Failed (Exception e) elapsed'
  end.

End Harness.

(** What one call of [generate_response] meets: the outcome of the
    request and the two clock differences it may report. *)
Record call : Type := {
  posted : post_result;
  elapsed : Q;
  elapsed_in_handler : Q
}.

Definition perform (loads : string -> outcome value) (c : call) : result :=
  generate_response loads (posted c) (elapsed c) (elapsed_in_handler c).

(** *** Concurrent profiling, lines 158-213 *)

(** An entry of [concurrent_results], lines 183-191. *)
Record concurrent_run : Type := {
  iteration : nat;
  total_time : Q;
  model1_success : bool;
  model2_success : bool;
  model1_time : Q;
  model2_time : Q;
  both_successful : bool
}.

(** Lines 174-191: both futures are awaited, then the entry is built.
    The two calls share no state: each returns its own dictionary. *)
Definition record_run (i : nat) (wall : Q) (result1 result2 : result)
  : concurrent_run :=
  {| iteration := i + 1;
     total_time := wall;
     model1_success := success result1;
     model2_success := success result2;
     model1_time := response_time result1;
     model2_time := response_time result2;
     both_successful := success result1 && success result2 |}.

(** [statistics.mean] *)
Definition mean (data : list Q) : outcome Q :=
  match data with
  | [] => Raise StatisticsError
  | _ :: _ =>
      Return (fold_left Qplus data 0 / inject_Z (Z.of_nat (List.length data)))%Q
  end.

(** [max] and [min] of a list. *)
Definition py_max (data : list Q) : outcome Q :=
  match data with
  | [] => Raise ValueError
  | x :: rest =>
      Return (fold_left (fun m y => if negb (Qle_bool y m) then y else m) rest x)
  end.

Definition py_min (data : list Q) : outcome Q :=
  match data with
  | [] => Raise ValueError
  | x :: rest =>
      Return (fold_left (fun m y => if negb (Qle_bool m y) then y else m) rest x)
  end.

(** The [summary] dictionary; an absent key is [None]. *)
Record ConcurrentSummary : Type := {
  success_rate : Q;
  avg_total_time : option Q;
  avg_model1_time : option Q;
  avg_model2_time : option Q;
  max_total_time : option Q;
  min_total_time : option Q
}.

(** Lines 196-208. *)
Definition concurrent_summary (concurrent_results : list concurrent_run)
  : outcome ConcurrentSummary :=
  let successful_runs := filter both_successful concurrent_results in
  match successful_runs with
  | _ :: _ =>
      rate <- truediv (List.length successful_runs)
                      (List.length concurrent_results) ;;
      att <- mean (map total_time successful_runs) ;;
      a1 <- mean (map model1_time successful_runs) ;;
      a2 <- mean (map model2_time successful_runs) ;;
      mx <- py_max (map total_time successful_runs) ;;
      mn <- py_min (map total_time successful_runs) ;;
      Return {| success_rate := rate;
                avg_total_time := Some att;
                avg_model1_time := Some a1;
                avg_model2_time := Some a2;
                max_total_time := Some mx;
                min_total_time := Some mn |}
  | [] =>
      Return {| success_rate := 0;
                avg_total_time := None;
                avg_model1_time := None;
                avg_model2_time := None;
                max_total_time := None;
                min_total_time := None |}
  end.

(** Lines 164-193: one entry per iteration, numbered from [start + 1];
    every iteration meets two calls and a wall-clock duration. *)
Fixpoint run_iterations (loads : string -> outcome value) (start : nat)
  (met : list (call * call * Q)) : list concurrent_run :=
  match met with
  | [] => []
  | (c1, c2, wall) :: rest =>
      record_run start wall (perform loads c1) (perform loads c2)
      :: run_iterations loads (S start) rest
  end.

(** Lines 158-213. *)
Definition test_concurrent_performance (loads : string -> outcome value)
  (met : list (call * call * Q))
  : outcome (list concurrent_run * ConcurrentSummary) :=
  let concurrent_results := run_iterations loads 0 met in
  summary <- concurrent_summary concurrent_results ;;
  Return (concurrent_results, summary).

(** *** Category testing, lines 100-138 *)

(** The dictionary of [calculate_quality_metrics], lines 152-156. *)
Record quality_metrics : Type := {
  response_length : nat;
  word_count : nat;
  quality_score : Q
}.

(** An entry of [category_results[category]], lines 111-118: the result
    of the call, updated with its quality metrics when it succeeded. *)
Inductive category_result : Type :=
| Scored (r : result) (m : quality_metrics)
| Unscored (r : result).

Definition result_of (c : category_result) : result :=
  match c with
  | Scored r _ => r
  | Unscored r => r
  end.

(** Lines 140-156.  A response that is not a string has no length, or
    no [split] method. *)
Definition calculate_quality_metrics (prompt : string) (response : value)
  : outcome quality_metrics :=
  response_length <- len response ;;
  match response with
  | VStr text =>
      let word_count := count_words text in
      let relevance_score : Q := 1%Q in
      let completeness_score : Q :=
        min2 1%Q (inject_Z (Z.of_nat word_count) / inject_Z 50)%Q in
      let clarity_score : Q :=
        (1 - inject_Z (Z.of_nat (count text "unclear"
                                 + count text "I don't know")) * (2 # 10))%Q in
      let quality_score : Q :=
        ((relevance_score + completeness_score + clarity_score) / inject_Z 3)%Q in
      Return {| response_length := response_length;
                word_count := word_count;
                quality_score := max2 0%Q (min2 1%Q quality_score) |}
  | _ => Raise AttributeError
  end.

(** Lines 111-118: a successful result is updated with the metrics of
    its response. *)
Definition score_result (prompt : string) (r : result) : outcome category_result :=
  match r with
  | Succeeded response _ _ _ _ _ =>
      m <- calculate_quality_metrics prompt response ;; Return (Scored r m)
  | Failed _ _ => Return (Unscored r)
  end.

(** [r["response_length"]], [r["quality_score"]]: keys that only the
    update of line 116 adds. *)
Definition response_length_of (c : category_result) : outcome Q :=
  match c with
  | Scored _ m => Return (inject_Z (Z.of_nat (response_length m)))
  | Unscored _ => Raise KeyError
  end.

Definition quality_score_of (c : category_result) : outcome Q :=
  match c with
  | Scored _ m => Return (quality_score m)
  | Unscored _ => Raise KeyError
  end.

(** A value of [category_summaries]; an absent key is [None]. *)
Record CategorySummary : Type := {
  cat_success_rate : Q;
  avg_response_time : option Q;
  avg_response_length : option Q;
  avg_quality_score : option Q
}.

(** Lines 124-133. *)
Definition category_summary (results : list category_result)
  : outcome CategorySummary :=
  let successful_results := filter (fun r => success (result_of r)) results in
  match successful_results with
  | _ :: _ =>
      rate <- truediv (List.length successful_results) (List.length results) ;;
      art <- mean (map (fun r => response_time (result_of r)) successful_results) ;;
      lengths <- for_each response_length_of successful_results ;;
      arl <- mean lengths ;;
      scores <- for_each quality_score_of successful_results ;;
      aqs <- mean scores ;;
      Return {| cat_success_rate := rate;
                avg_response_time := Some art;
                avg_response_length := Some arl;
                avg_quality_score := Some aqs |}
  | [] =>
      Return {| cat_success_rate := 0;
                avg_response_time := None;
                avg_response_length := None;
                avg_quality_score := None |}
  end.

(** Lines 110-118 for one category: every prompt meets one call, whose
    result is scored. *)
Definition collect (loads : string -> outcome value)
  (met : list (string * call)) : outcome (list category_result) :=
  for_each (fun pc => score_result (fst pc) (perform loads (snd pc))) met.

(** Lines 100-138 for one category. *)
Definition test_model_category (loads : string -> outcome value)
  (met : list (string * call))
  : outcome (list category_result * CategorySummary) :=
  results <- collect loads met ;;
  summary <- category_summary results ;;
  Return (results, summary).

(** *** Parameter sweep, lines 215-253 *)

(** A value of [parameter_results]. *)
Record ParameterSummary : Type := {
  par_success_rate : Q;
  par_avg_response_time : Q;
  par_avg_quality : Q;
  par_avg_length : Q;
  sample_response : string
}.

(** [r["response"][:200] + "..."] *)
Definition sample_of (c : category_result) : outcome string :=
  match result_of c with
  | Succeeded (VStr text) _ _ _ _ _ =>
      Return (String.substring 0 200 text ++ "...")
  | Succeeded _ _ _ _ _ _ => Raise TypeError
  | Failed _ _ => Raise KeyError
  end.

(** Lines 243-251: the entry recorded for one parameter set, if any. *)
Definition parameter_summary (results : list category_result)
  : outcome (option ParameterSummary) :=
  let successful_results := filter (fun r => success (result_of r)) results in
  match successful_results with
  | first :: _ =>
      rate <- truediv (List.length successful_results) (List.length results) ;;
      art <- mean (map (fun r => response_time (result_of r)) successful_results) ;;
      scores <- for_each quality_score_of successful_results ;;
      aq <- mean scores ;;
      lengths <- for_each response_length_of successful_results ;;
      al <- mean lengths ;;
      sample <- sample_of first ;;
      Return (Some {| par_success_rate := rate;
                      par_avg_response_time := art;
                      par_avg_quality := aq;
                      par_avg_length := al;
                      sample_response := sample |})
  | [] => Return None
  end.

End AdvancedModelTester.

(** ** Concurrent memory benchmark: [tests/integration/model_memory_test.py] *)

Module ModelTester.
Import Py.
Import OllamaAPI.
Local Open Scope py_scope.

(** What a thread stores under its key: [{'success': True, 'response': r}]
    or [{'success': False, 'error': e}]. *)
Inductive entry : Type :=
| EntryOk (response : value)
| EntryError (err : AdvancedModelTester.error).

Definition entry_success (e : entry) : bool :=
  match e with
  | EntryOk _ => true
  | EntryError _ => false
  end.

(** The shared dictionary [results], line 109. *)
Record store : Type := {
  model1 : option entry;
  model2 : option entry;
  success : bool
}.

Definition initial : store :=
  {| model1 := None; model2 := None; success := false |}.

Inductive key : Type := Model1 | Model2.

(** [results[result_key] = e] *)
Definition assign (k : key) (e : entry) (s : store) : store :=
  match k with
  | Model1 => {| model1 := Some e; model2 := model2 s; success := success s |}
  | Model2 => {| model1 := model1 s; model2 := Some e; success := success s |}
  end.

(** [v[:n]]: strings and lists can be sliced.  Slicing a dictionary
    raises as well ([TypeError], or [KeyError] in recent versions of
    Python); the kind of the exception only shows in the error text. *)
Definition slice_to (n : nat) (v : value) : outcome value :=
  match v with
  | VStr s => Return (VStr (String.substring 0 n s))
  | VList l => Return (VList (firstn n l))
  | _ => Raise TypeError
  end.

Section Threads.

Variable loads : string -> outcome value.

(** Lines 112-127: what the thread is about to store. *)
Definition run_model_try (posted : post_result) : outcome entry :=
  match posted with
  | PostRaises e => Raise e
  | PostResponse status_code text =>
      if (status_code =? 200)%Z then
        data <- loads text ;;
        r <- get data "response" (VStr EmptyString) ;;
        head <- slice_to 50 r ;;
        Return (EntryOk head)
      else Return (EntryError (AdvancedModelTester.HttpStatus status_code))
  end.

Definition outcome_entry (posted : post_result) : entry :=
  match run_model_try posted with
  | Return e => e
  | Raise e => EntryError (AdvancedModelTester.Exception e)
  end.

(** Lines 111-130: the thread's only access to the shared dictionary is
    one store under its own key. *)
Definition run_model (posted : post_result) (result_key : key) (s : store)
  : store :=
  assign result_key (outcome_entry posted) s.

(** The two threads are started and joined (lines 135-142); their stores
    land in one of two orders. *)
Inductive schedule : Type := Thread1First | Thread2First.

Definition run_threads (sched : schedule) (posted1 posted2 : post_result)
  (s : store) : store :=
  match sched with
  | Thread1First => run_model posted2 Model2 (run_model posted1 Model1 s)
  | Thread2First => run_model posted1 Model1 (run_model posted2 Model2 s)
  end.

(** The measurements of lines 144-146 and 106-107. *)
Record measurements : Type := {
  m_total_time : Q;
  m_gpu_usage : Q;
  m_ram_usage : Q;
  m_total_gpu : Q;
  m_total_ram : Q
}.

(** [concurrent_result], lines 148-158. *)
Record concurrent_result : Type := {
  measured : measurements;
  model1_success : bool;
  model2_success : bool;
  overall_success : value
}.

(** [results[k]['success'] if results[k] else False] *)
Definition flag (e : option entry) : bool :=
  match e with
  | Some x => entry_success x
  | None => false
  end.

(** Lines 156-157: a chain of [and] yields its first falsy operand, or
    its last operand. *)
Definition overall (s : store) : value :=
  match model1 s with
  | None => VNone
  | Some e1 =>
      if entry_success e1 then
        match model2 s with
        | None => VNone
        | Some e2 => VBool (entry_success e2)
        end
      else VBool false
  end.

(** Lines 102-167. *)
Definition test_concurrent_models (sched : schedule)
  (posted1 posted2 : post_result) (m : measurements) : concurrent_result :=
  let results := run_threads sched posted1 posted2 initial in
  {| measured := m;
     model1_success := flag (model1 results);
     model2_success := flag (model2 results);
     overall_success := overall results |}.

End Threads.

End ModelTester.

(** ** Task detection: [src/optimization/prompt_engineer.py] *)

Module PromptEngineer.
Import Py.

(** Lines 9-14: [self.task_patterns], in insertion order. *)
Definition task_patterns : list (string * list string) :=
  [("general", ["what is"; "tell me about"; "explain"]);
   ("technical", ["how does"; "implement"; "architecture"]);
   ("creative", ["write"; "create"; "design"; "story"]);
   ("analytical", ["compare"; "analyze"; "evaluate"])].

(** [any(pattern in prompt_lower for pattern in patterns)] *)
Definition matches (prompt_lower : string) (patterns : list string) : bool :=
  existsb (fun pattern => contains pattern prompt_lower) patterns.

(** Lines 28-32: the first task type one of whose patterns occurs. *)
Fixpoint first_match (prompt_lower : string)
  (table : list (string * list string)) : string :=
  match table with
  | [] => "general"
  | (task_type, patterns) :: rest =>
      if matches prompt_lower patterns then task_type
      else first_match prompt_lower rest
  end.

(** Lines 24-32. *)
Definition detect_task_type (prompt : string) : string :=
  first_match (lower prompt) task_patterns.

End PromptEngineer.

(** ** The performance monitor: [src/logging/monitor.py] *)

Module PerformanceMonitor.
Import Py.
Local Open Scope py_scope.

(** [self.stats], lines 22-28. *)
Record stats : Type := {
  gpu_usage : list Q;
  memory_usage : list Z;
  response_times : list Q;
  optimization_success : nat;
  optimization_failure : nat
}.

Definition initial : stats :=
  {| gpu_usage := [];
     memory_usage := [];
     response_times := [];
     optimization_success := 0;
     optimization_failure := 0 |}.

(** What the GPU probe of lines 38-44 does when the [nvidia_smi] module
    could be imported: it yields the used and the total memory, or
    raises. *)
Definition gpu_probe : Type := outcome (Q * Q).

(** [info.used / info.total] *)
Definition used_share (info : Q * Q) : outcome Q :=
  if Qeq_bool (snd info) 0 then Raise ZeroDivisionError
  else Return (fst info / snd info)%Q.

(** Lines 30-44.  [gpu] is [None] when [GPU_AVAILABLE] is false;
    a failing probe is logged and ignored. *)
Definition log_optimization (gpu : option gpu_probe)
  (result : option OptimizationLoop.OptimizationResult) (s : stats) : stats :=
  let counted :=
    match result with
    | Some r =>
        if OptimizationLoop.gt (OptimizationLoop.improvement_score r) 0
        then (S (optimization_success s), optimization_failure s)
        else (optimization_success s, S (optimization_failure s))
    | None => (optimization_success s, S (optimization_failure s))
    end in
  let usage :=
    match gpu with
    | Some probe =>
        match (info <- probe ;; used_share info) with
        | Return share => (gpu_usage s ++ [share])%list
        | Raise _ => gpu_usage s
        end
    | None => gpu_usage s
    end in
  {| gpu_usage := usage;
     memory_usage := memory_usage s;
     response_times := response_times s;
     optimization_success := fst counted;
     optimization_failure := snd counted |}.

(** Lines 46-49. *)
Definition log_performance (duration : Q) (memory_used : Z) (s : stats) : stats :=
  {| gpu_usage := gpu_usage s;
     memory_usage := (memory_usage s ++ [memory_used])%list;
     response_times := (response_times s ++ [duration])%list;
     optimization_success := optimization_success s;
     optimization_failure := optimization_failure s |}.

(** [sum(l) / len(l)] *)
Definition sum_over_len (l : list Q) : outcome Q :=
  match l with
  | [] => Raise ZeroDivisionError
  | _ :: _ =>
      Return (fold_left Qplus l 0 / inject_Z (Z.of_nat (List.length l)))%Q
  end.

(** [max] of a list of integers. *)
Definition max_int (l : list Z) : outcome Z :=
  match l with
  | [] => Raise ValueError
  | x :: rest => Return (fold_left (fun m y => if (m <? y)%Z then y else m) rest x)
  end.

(** The dictionary of [get_summary]; an absent key is [None]. *)
Record Summary : Type := {
  avg_response_time : Q;
  max_memory_usage : Z;
  success_rate : Q;
  avg_gpu_usage : option Q;
  max_gpu_usage : option Q
}.

(** Lines 59-71. *)
Definition get_summary (gpu_available : bool) (s : stats) : outcome Summary :=
  art <- match response_times s with
         | [] => Return 0%Q
         | _ :: _ => sum_over_len (response_times s)
         end ;;
  mmu <- match memory_usage s with
         | [] => Return 0%Z
         | _ :: _ => max_int (memory_usage s)
         end ;;
  rate <- (if (0 <? optimization_success s + optimization_failure s)%nat
           then truediv (optimization_success s)
                        (optimization_success s + optimization_failure s)
           else Return 0%Q) ;;
  if gpu_available && match gpu_usage s with [] => false | _ :: _ => true end
  then
    avg <- sum_over_len (gpu_usage s) ;;
    mx <- AdvancedModelTester.py_max (gpu_usage s) ;;
    Return {| avg_response_time := art;
              max_memory_usage := mmu;
              success_rate := rate;
              avg_gpu_usage := Some avg;
              max_gpu_usage := Some mx |}
  else
    Return {| avg_response_time := art;
              max_memory_usage := mmu;
              success_rate := rate;
              avg_gpu_usage := None;
              max_gpu_usage := None |}.

End PerformanceMonitor.

(** ** Model loading benchmark: [tests/integration/model_memory_test.py] *)

Module ModelLoading.
Import Py.
Import OllamaAPI.
Local Open Scope py_scope.

(** The memory readings and clock differences of lines 38-64 and 99. *)
Record readings : Type := {
  baseline_gpu : Q;
  baseline_ram : Q;
  loaded_gpu : Q;
  loaded_ram : Q;
  load_time : Q;
  load_time_in_handler : Q
}.

(** The dictionary returned by [test_model_loading]: the one of lines
    75-84, or the one of lines 96-100. *)
Inductive loading_result : Type :=
| Loaded (success : bool)
         (load_time gpu_memory_mb ram_memory_mb total_gpu_mb total_ram_mb : Q)
         (response_length : nat) (sample_response : value)
| LoadFailed (err : AdvancedModelTester.error) (load_time : Q).

(** [text[:100] + "..." if len(text) > 100 else text], given the length. *)
Definition sample (response_text : value) : outcome value :=
  n <- len response_text ;;
  if (100 <? n)%nat then
    head <- ModelTester.slice_to 100 response_text ;;
    match head with
    | VStr h => Return (VStr (h ++ "..."))
    | _ => Raise TypeError
    end
  else Return response_text.

Section Loading.

Variable loads : string -> outcome value.

(** Lines 48-92: the body of the [try] block. *)
Definition test_model_loading_try (posted : post_result) (m : readings)
  : outcome loading_result :=
  match posted with
  | PostRaises e => Raise e
  | PostResponse status_code text =>
      ts <- (if (status_code =? 200)%Z then
               response_data <- loads text ;;
               response_text <- get response_data "response" (VStr EmptyString) ;;
               Return (response_text, true)
             else Return (VStr ("Error: " ++ str_int status_code), false)) ;;
      response_length <- len (fst ts) ;;
      sample_response <- sample (fst ts) ;;
      Return (Loaded (snd ts) (load_time m)
                (loaded_gpu m - baseline_gpu m)%Q
                (loaded_ram m - baseline_ram m)%Q
                (loaded_gpu m) (loaded_ram m)
                response_length sample_response)
  end.

(** Lines 33-100. *)
Definition test_model_loading (posted : post_result) (m : readings)
  : loading_result :=
  match test_model_loading_try posted m with
  | Return r => r
  | Raise e => LoadFailed (AdvancedModelTester.Exception e) (load_time_in_handler m)
  end.

End Loading.

End ModelLoading.

(** ** A concrete scenario

    The scenario of the repository's unit test: the prompt
    ["Tell me about AI"], an executor that answers it in 19 characters
    and answers anything else in 57, and an optimizer that always
    proposes ["Explain AI in depth"]. *)

Module Scenario.
Import Py.

Definition short_answer : string := "AI is a technology.".

Definition long_answer : string :=
  "Artificial intelligence is the study of machine reasoning".

Definition reply (s : string) : OllamaAPI.post_result :=
  OllamaAPI.PostResponse 200 (Json.object1 "response" (Json.quoted s)).

(** A service that answers by the request alone. *)
Definition stub (n : nat) (request : value) : OllamaAPI.post_result :=
  match subscript request "model", subscript request "prompt" with
  | Return (VStr m), Return (VStr p) =>
      if String.eqb m "llama3.2:3b" then reply "Explain AI in depth"
      else if String.eqb p "Tell me about AI" then reply short_answer
      else reply long_answer
  | _, _ => OllamaAPI.PostResponse 500 EmptyString
  end.

(** Two streamed lines, the second one carrying [null] as its text. *)
Definition two_lines_null : string :=
  Json.object1 "response" (Json.quoted "a")
  ++ String newline (Json.object1 "response" "null").

(** Three streamed fragments around a line that does not decode. *)
Definition three_lines : string :=
  Json.object1 "response" (Json.quoted "AI is ")
  ++ String newline "oops"
  ++ String newline (Json.object1 "response" (Json.quoted "a technology."))
  ++ String newline (Json.object1 "done" "true").

(** A service that cannot be reached. *)
Definition unreachable (n : nat) (request : value) : OllamaAPI.post_result :=
  OllamaAPI.PostRaises ConnectionError.

(** The stub, except that its [k]-th request is refused. *)
Definition failing_at (k n : nat) (request : value) : OllamaAPI.post_result :=
  if Nat.eqb n k then OllamaAPI.PostRaises ConnectionError else stub n request.

(** A service whose executor generates nothing. *)
Definition silent (n : nat) (request : value) : OllamaAPI.post_result :=
  reply EmptyString.

(** A clock that advances by one microsecond per reading. *)
Definition ticking (n : nat) : Z := Z.of_nat n.

(** A template that puts the prompt before the response. *)
Definition render (prompt response : value) : outcome value :=
  match prompt, response with
  | VStr p, VStr r => Return (VStr ("Improve: " ++ p ++ " / " ++ r))
  | _, _ => Raise AttributeError
  end.

Definition cfg : OptimizationLoop.config :=
  {| OptimizationLoop.model1_name := "mistral:7b";
     OptimizationLoop.model2_name := "llama3.2:3b" |}.

Definition w0 : OptimizationLoop.world :=
  {| OptimizationLoop.requests := 0; OptimizationLoop.clock_reads := 0 |}.

(** The default threshold: the float written [0.1]. *)
Definition threshold : Q := Float.round64 (1 # 10).

(** One call of [optimize_prompt] on the scenario's prompt. *)
Definition run (service : nat -> value -> OllamaAPI.post_result)
  (max_iterations : Z) (w : OptimizationLoop.world)
  : outcome OptimizationLoop.OptimizationResult * OptimizationLoop.world :=
  OptimizationLoop.optimize_prompt Json.json_loads service ticking render cfg
    "Tell me about AI" max_iterations threshold w.

(** The result of the first call, with three rounds allowed. *)
Definition first_result : OptimizationLoop.OptimizationResult :=
  {| OptimizationLoop.original_prompt := VStr "Tell me about AI";
     OptimizationLoop.optimized_prompt := VStr "Explain AI in depth";
     OptimizationLoop.initial_response := VStr short_answer;
     OptimizationLoop.final_response := VStr long_answer;
     OptimizationLoop.improvement_score := 3;
     OptimizationLoop.created_at := 1;
     OptimizationLoop.metadata :=
       {| OptimizationLoop.iterations := 1;
          OptimizationLoop.duration := Some (Float.round64 (2 # 1000000)) |} |}.

Definition w1 : OptimizationLoop.world :=
  {| OptimizationLoop.requests := 6; OptimizationLoop.clock_reads := 3 |}.

(** The result of a second, identical call made right after the first. *)
Definition second_result : OptimizationLoop.OptimizationResult :=
  {| OptimizationLoop.original_prompt := VStr "Tell me about AI";
     OptimizationLoop.optimized_prompt := VStr "Explain AI in depth";
     OptimizationLoop.initial_response := VStr short_answer;
     OptimizationLoop.final_response := VStr long_answer;
     OptimizationLoop.improvement_score := 3;
     OptimizationLoop.created_at := 4;
     OptimizationLoop.metadata :=
       {| OptimizationLoop.iterations := 1;
          OptimizationLoop.duration := Some (Float.round64 (2 # 1000000)) |} |}.

Definition w2 : OptimizationLoop.world :=
  {| OptimizationLoop.requests := 12; OptimizationLoop.clock_reads := 6 |}.

(** A service that answers its requests from a list, in order, and
    cannot be reached once the list is used up. *)
Definition scripted (answers : list string) (n : nat) (request : value)
  : OllamaAPI.post_result :=
  match nth_error answers n with
  | Some text => reply text
  | None => OllamaAPI.PostRaises ConnectionError
  end.

(** Two rounds whose executor replies have 10, 7, 5 and 4 characters:
    the scores are [7 / 10] and [4 / 5]. *)
Definition close_scores : list string :=
  ["0123456789"; "P1"; "0123456"; "01234"; "P2"; "0123"].

(** The result of two rounds against [close_scores]. *)
Definition close_result : OptimizationLoop.OptimizationResult :=
  {| OptimizationLoop.original_prompt := VStr "Tell me about AI";
     OptimizationLoop.optimized_prompt := VStr "P2";
     OptimizationLoop.initial_response := VStr "01234";
     OptimizationLoop.final_response := VStr "0123";
     OptimizationLoop.improvement_score := Float.round64 (4 # 5);
     OptimizationLoop.created_at := 3;
     OptimizationLoop.metadata :=
       {| OptimizationLoop.iterations := 2;
          OptimizationLoop.duration := Some (Float.round64 (4 # 1000000)) |} |}.

(** A text that opens [n] arrays and closes none. *)
Fixpoint brackets (n : nat) : string :=
  match n with
  | O => EmptyString
  | S n' => String "[" (brackets n')
  end.

Fixpoint leading_brackets (s : string) : nat :=
  match s with
  | String c s' => if (c =? "[")%char then S (leading_brackets s') else 0
  | EmptyString => 0
  end.

(** A decoder that runs out of stack, as the recursion limit of the
    interpreter makes [json.loads] do, on a text that opens more than a
    thousand arrays in a row. *)
Definition bounded_loads (s : string) : outcome value :=
  if (1000 <? leading_brackets s)%nat then Raise RecursionError
  else Json.json_loads s.

(** Two streamed lines, the second one nested too deeply to decode. *)
Definition two_lines_deep : string :=
  Json.object1 "response" (Json.quoted "a") ++ String newline (brackets 2000).

(** Calls met by the benchmark harness: two that succeed, one that
    times out, one that is answered with status 500. *)
Definition hedging_call : AdvancedModelTester.call :=
  {| AdvancedModelTester.posted := reply "It is unclear, I don't know.";
     AdvancedModelTester.elapsed := 2;
     AdvancedModelTester.elapsed_in_handler := 3 |}.

Definition fluent_call : AdvancedModelTester.call :=
  {| AdvancedModelTester.posted := reply long_answer;
     AdvancedModelTester.elapsed := 4;
     AdvancedModelTester.elapsed_in_handler := 5 |}.

Definition timed_out_call : AdvancedModelTester.call :=
  {| AdvancedModelTester.posted := OllamaAPI.PostRaises Timeout;
     AdvancedModelTester.elapsed := 2;
     AdvancedModelTester.elapsed_in_handler := 120 |}.

Definition refused_call : AdvancedModelTester.call :=
  {| AdvancedModelTester.posted := OllamaAPI.PostResponse 500 "overloaded";
     AdvancedModelTester.elapsed := 1;
     AdvancedModelTester.elapsed_in_handler := 1 |}.

Definition no_measurements : ModelTester.measurements :=
  {| ModelTester.m_total_time := 60;
     ModelTester.m_gpu_usage := 0;
     ModelTester.m_ram_usage := 0;
     ModelTester.m_total_gpu := 0;
     ModelTester.m_total_ram := 0 |}.

End Scenario.

(** ** Vocabulary of the properties *)

Module Vocabulary.
Import Py.

(** The error kinds of the interface description. *)
Definition error_kinds : list string :=
  ["network_error"; "bad_status"; "decode_error"; "timeout"].

(** A value that reports a failure as data: a dictionary whose [success]
    entry is false and which holds one of the error kinds under some key. *)
Definition failure_record (v : value) : Prop :=
  exists d field kind,
    v = VDict d /\ assoc "success" d = Some (VBool false)
    /\ assoc field d = Some (VStr kind) /\ In kind error_kinds.

(** The values of the lines of a body that decode, in order. *)
Definition decoded_lines (loads : string -> outcome value) (text : string)
  : list value :=
  flat_map (fun line =>
              if String.eqb line EmptyString then []
              else match loads line with
                   | Return v => [v]
                   | Raise _ => []
                   end)
           (split newline (strip text)).

(** The exception that the client's two inner handlers catch. *)
Definition is_decode_error (e : exn) : bool :=
  match e with
  | JSONDecodeError => true
  | _ => false
  end.

(** An outcome of the decoder that the client's line loop goes past: a
    value, or a decode error. *)
Definition value_or_decode_error (o : outcome value) : bool :=
  match o with
  | Return _ => true
  | Raise e => is_decode_error e
  end.

(** On no line of the body does the decoder raise anything but a decode
    error. *)
Definition only_decode_errors (loads : string -> outcome value) (text : string)
  : bool :=
  forallb (fun line =>
             String.eqb line EmptyString || value_or_decode_error (loads line))
          (split newline (strip text)).

(** A decoded line that can contribute to the combined text: an object
    whose [response] entry, when present, is a string. *)
Definition fragment_ok (v : value) : bool :=
  match v with
  | VDict d => match assoc "response" d with
               | None => true
               | Some (VStr _) => true
               | Some _ => false
               end
  | _ => false
  end.

Definition fragment (v : value) : string :=
  match v with
  | VDict d => match assoc "response" d with
               | Some (VStr s) => s
               | _ => EmptyString
               end
  | _ => EmptyString
  end.

Definition created_at_of (v : value) : value :=
  match v with
  | VDict d => match assoc "created_at" d with
               | Some x => x
               | None => VStr EmptyString
               end
  | _ => VStr EmptyString
  end.

Definition concat_all (l : list string) : string :=
  fold_right String.append EmptyString l.

(** The combined result the client builds from decoded lines. *)
Definition combined (model : string) (r0 : value) (rs : list value) : value :=
  VDict [("response", VStr (concat_all (map fragment (r0 :: rs))));
         ("model", VStr model);
         ("created_at", created_at_of r0)].

(** *** The benchmark harness *)

(** The arithmetic mean of a list of numbers. *)
Definition average (l : list Q) : Q :=
  (fold_left Qplus l 0 / inject_Z (Z.of_nat (List.length l)))%Q.

(** The ratio of two counts. *)
Definition ratio (n d : nat) : Q :=
  (inject_Z (Z.of_nat n) / inject_Z (Z.of_nat d))%Q.

(** The length and the quality recorded with a scored sample. *)
Definition length_of (c : AdvancedModelTester.category_result) : Q :=
  match c with
  | AdvancedModelTester.Scored _ m =>
      inject_Z (Z.of_nat (AdvancedModelTester.response_length m))
  | AdvancedModelTester.Unscored _ => 0
  end.

Definition quality_of (c : AdvancedModelTester.category_result) : Q :=
  match c with
  | AdvancedModelTester.Scored _ m => AdvancedModelTester.quality_score m
  | AdvancedModelTester.Unscored _ => 0
  end.

Definition time_of (c : AdvancedModelTester.category_result) : Q :=
  AdvancedModelTester.response_time (AdvancedModelTester.result_of c).

Definition succeeded (c : AdvancedModelTester.category_result) : bool :=
  AdvancedModelTester.success (AdvancedModelTester.result_of c).

(** [x] is a greatest (a least) element of [l]. *)
Definition greatest (x : Q) (l : list Q) : Prop :=
  In x l /\ forall y, In y l -> (y <= x)%Q.

Definition least (x : Q) (l : list Q) : Prop :=
  In x l /\ forall y, In y l -> (x <= y)%Q.

(** The summaries that hold a success rate of zero and nothing else. *)
Definition rate_only_category : AdvancedModelTester.CategorySummary :=
  {| AdvancedModelTester.cat_success_rate := 0;
     AdvancedModelTester.avg_response_time := None;
     AdvancedModelTester.avg_response_length := None;
     AdvancedModelTester.avg_quality_score := None |}.

Definition rate_only_concurrent : AdvancedModelTester.ConcurrentSummary :=
  {| AdvancedModelTester.success_rate := 0;
     AdvancedModelTester.avg_total_time := None;
     AdvancedModelTester.avg_model1_time := None;
     AdvancedModelTester.avg_model2_time := None;
     AdvancedModelTester.max_total_time := None;
     AdvancedModelTester.min_total_time := None |}.

(** *** The refinement loop *)

Section LoopVocabulary.
Import OptimizationLoop.

Variable loads : string -> outcome value.
Variable service : nat -> value -> OllamaAPI.post_result.
Variable clock : nat -> Z.
Variable enhance_prompt : value -> value -> outcome value.
Variable cfg : config.

(** The world once [optimize_prompt] has read its start time. *)
Definition started (w : world) : world :=
  {| requests := requests w; clock_reads := S (clock_reads w) |}.

(** The local variables before the first round. *)
Definition first_locals (prompt : string) : locals :=
  {| current_prompt := VStr prompt;
     best_score := 0;
     best_result := None;
     response := None |}.

(** The number of rounds that accept their candidate when [n] rounds at
    most are run from round [iteration] on. *)
Fixpoint accepted_rounds (prompt : value) (start_time : Z) (threshold : Q)
  (n iteration : nat) (st : locals) (w : world) : nat :=
  match n with
  | O => O
  | S n' =>
      match round loads service clock enhance_prompt cfg
              prompt start_time threshold iteration st w with
      | (Return (Continue, st'), w') =>
          S (accepted_rounds prompt start_time threshold n' (S iteration) st' w')
      | _ => O
      end
  end.

(** The number of rounds a call of [optimize_prompt] accepts. *)
Definition accepted_by_call (prompt : string) (max_iterations : Z)
  (threshold : Q) (w : world) : nat :=
  accepted_rounds (VStr prompt) (clock (clock_reads w)) threshold
    (Z.to_nat max_iterations) 0 (first_locals prompt) (started w).

End LoopVocabulary.

(** Two results that differ at most in their time stamps ([created_at]
    and the [duration] of the metadata). *)
Definition same_up_to_time (r1 r2 : OptimizationLoop.OptimizationResult) : Prop :=
  OptimizationLoop.original_prompt r1 = OptimizationLoop.original_prompt r2
  /\ OptimizationLoop.optimized_prompt r1 = OptimizationLoop.optimized_prompt r2
  /\ OptimizationLoop.initial_response r1 = OptimizationLoop.initial_response r2
  /\ OptimizationLoop.final_response r1 = OptimizationLoop.final_response r2
  /\ OptimizationLoop.improvement_score r1 = OptimizationLoop.improvement_score r2
  /\ OptimizationLoop.iterations (OptimizationLoop.metadata r1)
     = OptimizationLoop.iterations (OptimizationLoop.metadata r2).

(** Two outcomes that agree: the same exception, or related values. *)
Definition agree {A} (R : A -> A -> Prop) (o1 o2 : outcome A) : Prop :=
  match o1, o2 with
  | Return a1, Return a2 => R a1 a2
  | Raise e1, Raise e2 => e1 = e2
  | _, _ => False
  end.

(** A generation service whose answer depends on the request only. *)
Definition deterministic (service : nat -> value -> OllamaAPI.post_result) : Prop :=
  forall n m request, service n request = service m request.

(** Two computations whose outcomes agree whatever the worlds they run
    in. *)
Definition similar {A} (R : A -> A -> Prop) (m1 m2 : OptimizationLoop.M A)
  : Prop :=
  forall w1 w2, agree R (fst (m1 w1)) (fst (m2 w2)).

(** The locals of two runs that differ at most in time stamps. *)
Definition similar_locals (st1 st2 : OptimizationLoop.locals) : Prop :=
  OptimizationLoop.current_prompt st1 = OptimizationLoop.current_prompt st2
  /\ OptimizationLoop.best_score st1 = OptimizationLoop.best_score st2
  /\ OptimizationLoop.response st1 = OptimizationLoop.response st2
  /\ match OptimizationLoop.best_result st1, OptimizationLoop.best_result st2 with
     | Some r1, Some r2 => same_up_to_time r1 r2
     | None, None => True
     | _, _ => False
     end.

(** The world after one more request. *)
Definition sent (w : OptimizationLoop.world) : OptimizationLoop.world :=
  {| OptimizationLoop.requests := S (OptimizationLoop.requests w);
     OptimizationLoop.clock_reads := OptimizationLoop.clock_reads w |}.

(** The locals after line 35 of a round. *)
Definition with_response (st : OptimizationLoop.locals) (reply : value)
  : OptimizationLoop.locals :=
  {| OptimizationLoop.current_prompt := OptimizationLoop.current_prompt st;
     OptimizationLoop.best_score := OptimizationLoop.best_score st;
     OptimizationLoop.best_result := OptimizationLoop.best_result st;
     OptimizationLoop.response := Some reply |}.

(** A best result, if any, has a score that is not negative and counts
    at least one round. *)
Definition sound_best (st : OptimizationLoop.locals) : Prop :=
  match OptimizationLoop.best_result st with
  | Some r =>
      (0 <= OptimizationLoop.improvement_score r)%Q
      /\ (1 <= OptimizationLoop.iterations (OptimizationLoop.metadata r))%Z
  | None => True
  end.

(** *** The request payload *)

(** The entries of every payload before the caller's parameters are
    merged in. *)
Definition default_entries (model : string) (prompt : value)
  : list (string * value) :=
  [("model", VStr model); ("prompt", prompt); ("stream", VBool false)].

(** *** Resources spent by a computation of the loop *)

(** Whatever the world it starts in, [m] sends at most [rq] requests and
    reads the clock at most [ck] times, and takes none back. *)
Definition spends {A} (m : OptimizationLoop.M A) (rq ck : nat) : Prop :=
  forall w,
    OptimizationLoop.requests w <= OptimizationLoop.requests (snd (m w))
    /\ OptimizationLoop.requests (snd (m w)) <= OptimizationLoop.requests w + rq
    /\ OptimizationLoop.clock_reads w <= OptimizationLoop.clock_reads (snd (m w))
    /\ OptimizationLoop.clock_reads (snd (m w))
       <= OptimizationLoop.clock_reads w + ck.

(** The best result after [i] accepted rounds: none before the first
    acceptance; afterwards a result for the caller's prompt that counts
    [i] rounds, holds the best score, and whose score exceeds [i] times
    the threshold. *)
Definition grown (prompt : value) (threshold : Q) (i : nat)
  (st : OptimizationLoop.locals) : Prop :=
  match OptimizationLoop.best_result st with
  | None => i = 0 /\ OptimizationLoop.best_score st = 0%Q
  | Some r =>
      OptimizationLoop.iterations (OptimizationLoop.metadata r) = Z.of_nat i
      /\ OptimizationLoop.improvement_score r = OptimizationLoop.best_score st
      /\ OptimizationLoop.original_prompt r = prompt
      /\ (inject_Z (Z.of_nat i) * threshold < OptimizationLoop.best_score st)%Q
  end.

(** A reply that carries a text: a dictionary whose [response] entry is
    a non-empty string. *)
Definition generation (v : value) (text : string) : Prop :=
  exists d, v = VDict d /\ assoc "response" d = Some (VStr text)
            /\ text <> EmptyString.

(** The locals hold a reply whose [response] entry can be read. *)
Definition response_bound (st : OptimizationLoop.locals) : Prop :=
  exists reply text,
    OptimizationLoop.response st = Some reply
    /\ subscript reply "response" = Return text.

(** *** The harness *)

(** An entry that is absent, or a number that [x / 1e9] accepts: a
    float, a boolean, or an integer within the range of floats. *)
Definition numeric_or_absent (o : option value) : bool :=
  match o with
  | None => true
  | Some (VInt z) => negb (Float.int_overflows z)
  | Some (VFloat _) | Some (VBool _) => true
  | Some _ => false
  end.


(** *** The monitor *)

(** A result that the monitor counts as a success. *)
Definition improved (result : option OptimizationLoop.OptimizationResult) : bool :=
  match result with
  | Some r => OptimizationLoop.gt (OptimizationLoop.improvement_score r) 0
  | None => false
  end.

(** A sequence of calls of [log_optimization], each with the state of
    the GPU probe and the result logged. *)
Definition log_all
  (events : list (option PerformanceMonitor.gpu_probe
                  * option OptimizationLoop.OptimizationResult))
  (s : PerformanceMonitor.stats) : PerformanceMonitor.stats :=
  fold_left (fun acc ev =>
               PerformanceMonitor.log_optimization (fst ev) (snd ev) acc)
            events s.

End Vocabulary.

(** ** Properties of the floating-point rounding *)

Module Float_facts.
Import Float.
Local Open Scope Q_scope.

Lemma two_neq_0 : ~ 2 == 0.
Proof. discriminate. Qed.

Lemma pow2_pos (e : Z) : 0 < pow2 e.
Proof. apply Qpower_0_lt. reflexivity. Qed.

Lemma pow2_plus (a b : Z) : pow2 (a + b) == pow2 a * pow2 b.
Proof. apply Qpower_plus. exact two_neq_0. Qed.

Lemma pow2_le (a b : Z) : (a <= b)%Z -> pow2 a <= pow2 b.
Proof. intros H. apply Qpower_le_compat_l; [exact H|discriminate]. Qed.

Lemma pow2_lt_inv (a b : Z) : pow2 a < pow2 b -> (a < b)%Z.
Proof. intros H. apply (Qpower_lt_compat_l_inv 2); [exact H|reflexivity]. Qed.

Lemma pow2_inject (n : Z) : (0 <= n)%Z -> pow2 n == inject_Z (2 ^ n).
Proof. intros H. unfold pow2. rewrite (Zpower_Qpower 2 n H). reflexivity. Qed.

(** Multiplying and dividing by a power of two. *)
Lemma scale_back (q : Q) (e : Z) : q / pow2 e * pow2 e == q.
Proof. field. apply Qpower_not_0. exact two_neq_0. Qed.

Lemma scale_le (p q : Q) (e : Z) : p <= q -> p / pow2 e <= q / pow2 e.
Proof.
  intros H. apply Qmult_le_compat_r; [exact H|].
  apply Qlt_le_weak, Qinv_lt_0_compat, pow2_pos.
Qed.

Lemma ilog2_spec (q : Q) : 0 < q -> pow2 (ilog2 q) <= q /\ q < pow2 (ilog2 q + 1).
Proof.
  intros Hq. destruct q as [a b]. unfold ilog2. cbn [Qnum Qden].
  assert (Ha : (0 < a)%Z).
  { unfold Qlt in Hq. simpl in Hq. lia. }
  set (la := Z.log2 a). set (lb := Z.log2 (Z.pos b)).
  assert (Hla : (2 ^ la <= a < 2 ^ (la + 1))%Z).
  { unfold la. pose proof (Z.log2_spec a Ha). rewrite Z.add_1_r. lia. }
  assert (Hlb : (2 ^ lb <= Z.pos b < 2 ^ (lb + 1))%Z).
  { unfold lb. pose proof (Z.log2_spec (Z.pos b) eq_refl). rewrite Z.add_1_r. lia. }
  assert (Hla0 : (0 <= la)%Z) by apply Z.log2_nonneg.
  assert (Hlb0 : (0 <= lb)%Z) by apply Z.log2_nonneg.
  assert (Hq' : (a # b) * inject_Z (Z.pos b) == inject_Z a).
  { unfold Qeq, Qmult, inject_Z. simpl. lia. }
  assert (Hup : (a # b) < pow2 (la - lb + 1)).
  { replace (la - lb + 1)%Z with ((la + 1) - lb)%Z by lia.
    unfold pow2. rewrite Qpower_minus by exact two_neq_0.
    apply Qlt_shift_div_l; [apply pow2_pos|].
    apply Qle_lt_trans with ((a # b) * inject_Z (Z.pos b)).
    - apply Qmult_le_l; [exact Hq|].
      fold (pow2 lb). rewrite pow2_inject by exact Hlb0.
      rewrite <- Zle_Qle. lia.
    - rewrite Hq'. fold (pow2 (la + 1)). rewrite pow2_inject by lia.
      rewrite <- Zlt_Qlt. lia. }
  assert (Hlow : pow2 (la - lb - 1) <= (a # b)).
  { replace (la - lb - 1)%Z with (la - (lb + 1))%Z by lia.
    unfold pow2. rewrite Qpower_minus by exact two_neq_0.
    apply Qle_shift_div_r; [apply pow2_pos|].
    apply Qle_trans with ((a # b) * inject_Z (Z.pos b)).
    - rewrite Hq'. fold (pow2 la). rewrite pow2_inject by lia.
      rewrite <- Zle_Qle. lia.
    - apply Qmult_le_l; [exact Hq|].
      fold (pow2 (lb + 1)). rewrite pow2_inject by lia.
      rewrite <- Zle_Qle. lia. }
  destruct (Qle_bool (pow2 (la - lb)) (a # b)) eqn:E.
  - apply Qle_bool_iff in E. split; [exact E|exact Hup].
  - split; [exact Hlow|].
    replace (la - lb - 1 + 1)%Z with (la - lb)%Z by lia.
    apply Qnot_le_lt. intros H. apply Qle_bool_iff in H. congruence.
Qed.

Lemma ilog2_unique (q : Q) (k : Z) :
  pow2 k <= q -> q < pow2 (k + 1) -> ilog2 q = k.
Proof.
  intros Hl Hu.
  assert (Hq : 0 < q) by (eapply Qlt_le_trans; [apply (pow2_pos k)|exact Hl]).
  destruct (ilog2_spec q Hq) as [Hl' Hu'].
  assert (k < ilog2 q + 1)%Z.
  { apply pow2_lt_inv. eapply Qle_lt_trans; eassumption. }
  assert (ilog2 q < k + 1)%Z.
  { apply pow2_lt_inv. eapply Qle_lt_trans; eassumption. }
  lia.
Qed.

Lemma ilog2_comp (p q : Q) : 0 < p -> p == q -> ilog2 p = ilog2 q.
Proof.
  intros Hp E. destruct (ilog2_spec p Hp) as [Hl Hu].
  symmetry. apply ilog2_unique; rewrite <- E; assumption.
Qed.

Lemma ilog2_le (p q : Q) : 0 < p -> p <= q -> (ilog2 p <= ilog2 q)%Z.
Proof.
  intros Hp Hpq.
  assert (Hq : 0 < q) by (eapply Qlt_le_trans; eassumption).
  destruct (ilog2_spec p Hp) as [Hl _], (ilog2_spec q Hq) as [_ Hu].
  assert (ilog2 p < ilog2 q + 1)%Z; [|lia].
  apply pow2_lt_inv. eapply Qle_lt_trans; [exact Hl|].
  eapply Qle_lt_trans; eassumption.
Qed.

(** *** Rounding to the nearest integer *)

Lemma nearest_even_comp (p q : Q) : p == q -> nearest_even p = nearest_even q.
Proof.
  intros E. unfold nearest_even. rewrite (Qfloor_comp _ _ E).
  assert (E' : p - inject_Z (Qfloor q) == q - inject_Z (Qfloor q))
    by (rewrite E; reflexivity).
  rewrite (Qcompare_comp _ _ E' (1 # 2) (1 # 2) (Qeq_refl _)). reflexivity.
Qed.

Lemma nearest_even_Z (z : Z) : nearest_even (inject_Z z) = z.
Proof.
  unfold nearest_even. rewrite Qfloor_Z.
  assert (E : inject_Z z - inject_Z z == 0) by ring.
  rewrite (Qcompare_comp _ _ E (1 # 2) (1 # 2) (Qeq_refl _)). reflexivity.
Qed.

Lemma nearest_even_le (p q : Q) : p <= q -> (nearest_even p <= nearest_even q)%Z.
Proof.
  intros H. pose proof (Qfloor_resp_le _ _ H) as Hf.
  unfold nearest_even.
  destruct (Z.eq_dec (Qfloor p) (Qfloor q)) as [E|N].
  - rewrite E.
    destruct (p - inject_Z (Qfloor q) ?= 1 # 2) eqn:Cp;
      destruct (q - inject_Z (Qfloor q) ?= 1 # 2) eqn:Cq;
      try (destruct (Z.even (Qfloor q))); try lia;
      exfalso;
      first [apply Qeq_alt in Cp | apply Qlt_alt in Cp | apply Qgt_alt in Cp];
      first [apply Qeq_alt in Cq | apply Qlt_alt in Cq | apply Qgt_alt in Cq];
      lra.
  - assert (Hlt : (Qfloor p + 1 <= Qfloor q)%Z) by lia.
    destruct (p - inject_Z (Qfloor p) ?= 1 # 2);
      destruct (q - inject_Z (Qfloor q) ?= 1 # 2);
      try (destruct (Z.even (Qfloor p))); try (destruct (Z.even (Qfloor q)));
      lia.
Qed.

Lemma nearest_even_ge_Z (z : Z) (q : Q) :
  inject_Z z <= q -> (z <= nearest_even q)%Z.
Proof.
  intros H. pose proof (nearest_even_le (inject_Z z) q H) as H'.
  rewrite nearest_even_Z in H'. exact H'.
Qed.

Lemma nearest_even_le_Z (z : Z) (q : Q) :
  q <= inject_Z z -> (nearest_even q <= z)%Z.
Proof.
  intros H. pose proof (nearest_even_le q (inject_Z z) H) as H'.
  rewrite nearest_even_Z in H'. exact H'.
Qed.

(** *** Rounding a positive number *)

Lemma ulp_exponent_min (q : Q) : (-1074 <= ulp_exponent q)%Z.
Proof. unfold ulp_exponent. lia. Qed.

Lemma ulp_exponent_le (p q : Q) :
  0 < p -> p <= q -> (ulp_exponent p <= ulp_exponent q)%Z.
Proof.
  intros Hp H. pose proof (ilog2_le p q Hp H). unfold ulp_exponent. lia.
Qed.

Lemma ulp_exponent_comp (p q : Q) :
  0 < p -> p == q -> ulp_exponent p = ulp_exponent q.
Proof.
  intros Hp E. unfold ulp_exponent. rewrite (ilog2_comp p q Hp E). reflexivity.
Qed.

Lemma round_pos_eq (q : Q) :
  round_pos q
  == inject_Z (nearest_even (q / pow2 (ulp_exponent q))) * pow2 (ulp_exponent q).
Proof. unfold round_pos. apply Qred_correct. Qed.

Lemma round_pos_comp (p q : Q) : 0 < p -> p == q -> round_pos p = round_pos q.
Proof.
  intros Hp E. unfold round_pos. rewrite (ulp_exponent_comp p q Hp E).
  apply Qred_complete.
  rewrite (nearest_even_comp (p / pow2 (ulp_exponent q))
             (q / pow2 (ulp_exponent q))) by (rewrite E; reflexivity).
  reflexivity.
Qed.

Lemma scaled_lt (q : Q) : 0 < q -> q / pow2 (ulp_exponent q) < pow2 53.
Proof.
  intros Hq. apply Qlt_shift_div_r; [apply pow2_pos|].
  rewrite <- pow2_plus.
  destruct (ilog2_spec q Hq) as [_ Hu].
  eapply Qlt_le_trans; [exact Hu|]. apply pow2_le.
  unfold ulp_exponent. lia.
Qed.

Lemma scaled_ge (q : Q) :
  0 < q -> (-1074 < ulp_exponent q)%Z -> pow2 52 <= q / pow2 (ulp_exponent q).
Proof.
  intros Hq Hn. apply Qle_shift_div_l; [apply pow2_pos|].
  rewrite <- pow2_plus.
  destruct (ilog2_spec q Hq) as [Hl _].
  eapply Qle_trans; [|exact Hl]. apply pow2_le.
  unfold ulp_exponent in *. lia.
Qed.

Lemma scaled_pos (q : Q) (e : Z) : 0 < q -> 0 < q / pow2 e.
Proof.
  intros Hq. apply Qlt_shift_div_l; [apply pow2_pos|]. rewrite Qmult_0_l. exact Hq.
Qed.

(** The significand of the rounded number. *)
Lemma significand_bounds (q : Q) :
  0 < q ->
  let m := nearest_even (q / pow2 (ulp_exponent q)) in
  (0 <= m <= 2 ^ 53)%Z
  /\ ((-1074 < ulp_exponent q)%Z -> (2 ^ 52 <= m)%Z).
Proof.
  intros Hq m. subst m. split; [split|].
  - apply nearest_even_ge_Z. apply Qlt_le_weak. apply scaled_pos. exact Hq.
  - apply nearest_even_le_Z. rewrite <- pow2_inject by lia.
    apply Qlt_le_weak. apply scaled_lt. exact Hq.
  - intros Hn. apply nearest_even_ge_Z. rewrite <- pow2_inject by lia.
    apply scaled_ge; assumption.
Qed.

Lemma round_pos_nonneg (q : Q) : 0 < q -> 0 <= round_pos q.
Proof.
  intros Hq. rewrite round_pos_eq.
  destruct (significand_bounds q Hq) as [[Hm _] _].
  apply Qmult_le_0_compat; [|apply Qlt_le_weak, pow2_pos].
  change 0 with (inject_Z 0). rewrite <- Zle_Qle. exact Hm.
Qed.

Lemma round_pos_upper (q : Q) :
  0 < q -> round_pos q <= pow2 (ulp_exponent q + 53).
Proof.
  intros Hq. rewrite round_pos_eq.
  destruct (significand_bounds q Hq) as [[_ Hm] _].
  rewrite Z.add_comm, pow2_plus.
  apply Qmult_le_compat_r; [|apply Qlt_le_weak, pow2_pos].
  rewrite (pow2_inject 53) by lia. rewrite <- Zle_Qle. exact Hm.
Qed.

Lemma round_pos_lower (q : Q) :
  0 < q -> (-1074 < ulp_exponent q)%Z ->
  pow2 (ulp_exponent q + 52) <= round_pos q.
Proof.
  intros Hq Hn. rewrite round_pos_eq.
  destruct (significand_bounds q Hq) as [_ Hm].
  rewrite Z.add_comm, pow2_plus.
  apply Qmult_le_compat_r; [|apply Qlt_le_weak, pow2_pos].
  rewrite (pow2_inject 52) by lia. rewrite <- Zle_Qle. apply Hm. exact Hn.
Qed.

Lemma round_pos_le (p q : Q) : 0 < p -> p <= q -> round_pos p <= round_pos q.
Proof.
  intros Hp H.
  assert (Hq : 0 < q) by (eapply Qlt_le_trans; eassumption).
  pose proof (ulp_exponent_le p q Hp H) as He.
  destruct (Z.eq_dec (ulp_exponent p) (ulp_exponent q)) as [E|N].
  - rewrite !round_pos_eq, E.
    apply Qmult_le_compat_r; [|apply Qlt_le_weak, pow2_pos].
    rewrite <- Zle_Qle. apply nearest_even_le. apply scale_le. exact H.
  - pose proof (ulp_exponent_min p).
    eapply Qle_trans; [apply round_pos_upper; exact Hp|].
    eapply Qle_trans; [|apply round_pos_lower; [exact Hq|lia]].
    apply pow2_le. lia.
Qed.

Lemma pow2_lt (a b : Z) : (a < b)%Z -> pow2 a < pow2 b.
Proof. intros H. apply Qpower_lt_compat_l; [exact H|reflexivity]. Qed.

Lemma pow2_neq_0 (e : Z) : ~ pow2 e == 0.
Proof. apply Qpower_not_0. exact two_neq_0. Qed.

(** A number with a significand of at most 53 bits at an exponent that
    the format has is left as it is. *)
Lemma round_pos_fix (m e : Z) :
  (0 < m <= 2 ^ 53)%Z -> (-1074 <= e)%Z -> ((2 ^ 52 <= m)%Z \/ e = (-1074)%Z) ->
  round_pos (inject_Z m * pow2 e) == inject_Z m * pow2 e.
Proof.
  intros Hm He Hn. set (r := inject_Z m * pow2 e).
  assert (Hr : 0 < r).
  { unfold r. apply Qmult_lt_0_compat; [|apply pow2_pos].
    change 0 with (inject_Z 0). rewrite <- Zlt_Qlt. lia. }
  assert (Hsame : ulp_exponent r = e -> round_pos r == r).
  { intros E. rewrite round_pos_eq, E.
    rewrite (nearest_even_comp (r / pow2 e) (inject_Z m)).
    - rewrite nearest_even_Z. reflexivity.
    - unfold r. field. apply pow2_neq_0. }
  assert (Hup : (m < 2 ^ 53)%Z -> r < pow2 (e + 53)).
  { intros Hlt. unfold r. rewrite Z.add_comm, pow2_plus.
    apply Qmult_lt_compat_r; [apply pow2_pos|].
    rewrite (pow2_inject 53) by lia. rewrite <- Zlt_Qlt. exact Hlt. }
  destruct (Z.eq_dec m (2 ^ 53)) as [Etop|Ntop].
  - (* the significand carries into the next binade *)
    assert (Er : r == pow2 (e + 53)).
    { unfold r. rewrite Etop, <- (pow2_inject 53) by lia.
      rewrite Z.add_comm. symmetry. apply pow2_plus. }
    assert (Elog : ilog2 r = (e + 53)%Z).
    { apply ilog2_unique; rewrite Er.
      - apply Qle_refl.
      - apply pow2_lt. lia. }
    assert (Eulp : ulp_exponent r = (e + 1)%Z).
    { unfold ulp_exponent. rewrite Elog. lia. }
    rewrite round_pos_eq, Eulp.
    rewrite (nearest_even_comp (r / pow2 (e + 1)) (inject_Z (2 ^ 52))).
    + rewrite nearest_even_Z, Er, <- (pow2_inject 52) by lia.
      rewrite <- pow2_plus. apply Qpower_comp; [reflexivity|lia].
    + rewrite Er, <- (pow2_inject 52) by lia.
      replace (e + 53)%Z with (52 + (e + 1))%Z by lia.
      rewrite pow2_plus. field. apply pow2_neq_0.
  - apply Hsame.
    assert (Hlt : (m < 2 ^ 53)%Z) by lia. specialize (Hup Hlt).
    assert (Hcases : (2 ^ 52 <= m)%Z \/ ((m < 2 ^ 52)%Z /\ e = (-1074)%Z)) by lia.
    destruct Hcases as [Hnorm|[Hsub ->]].
    + assert (Elog : ilog2 r = (e + 52)%Z).
      { apply ilog2_unique.
        - unfold r. rewrite Z.add_comm, pow2_plus.
          apply Qmult_le_compat_r; [|apply Qlt_le_weak, pow2_pos].
          rewrite (pow2_inject 52) by lia. rewrite <- Zle_Qle. exact Hnorm.
        - replace (e + 52 + 1)%Z with (e + 53)%Z by lia. exact Hup. }
      unfold ulp_exponent. rewrite Elog. lia.
    + assert (Hlow : r < pow2 (-1074 + 52)).
      { unfold r. rewrite Z.add_comm, pow2_plus.
        apply Qmult_lt_compat_r; [apply pow2_pos|].
        rewrite (pow2_inject 52) by lia. rewrite <- Zlt_Qlt. exact Hsub. }
      destruct (ilog2_spec r Hr) as [Hl _].
      assert (ilog2 r < -1074 + 52)%Z.
      { apply pow2_lt_inv. eapply Qle_lt_trans; eassumption. }
      unfold ulp_exponent. lia.
Qed.

Lemma round_pos_idem (q : Q) :
  0 < q -> 0 < round_pos q -> round_pos (round_pos q) == round_pos q.
Proof.
  intros Hq Hr.
  destruct (significand_bounds q Hq) as [[Hm0 Hm] Hn].
  set (m := nearest_even (q / pow2 (ulp_exponent q))) in *.
  set (e := ulp_exponent q) in *.
  assert (E : round_pos q == inject_Z m * pow2 e) by apply round_pos_eq.
  assert (Hmpos : (0 < m)%Z).
  { destruct (Z.eq_dec m 0) as [Z0|]; [|lia].
    rewrite E, Z0 in Hr. exfalso.
    rewrite Qmult_0_l in Hr. exact (Qlt_irrefl _ Hr). }
  rewrite (round_pos_comp _ _ Hr E).
  rewrite round_pos_fix.
  - symmetry. exact E.
  - lia.
  - apply ulp_exponent_min.
  - pose proof (ulp_exponent_min q). fold e in H.
    destruct (Z.eq_dec e (-1074)) as [->|N]; [right; reflexivity|].
    left. apply Hn. lia.
Qed.

(** *** Rounding *)

Lemma round64_pos (q : Q) : 0 < q -> round64 q = round_pos q.
Proof.
  intros H. unfold round64.
  destruct (Qcompare_spec q 0) as [E|E|E]; [|lra|reflexivity].
  rewrite E in H. exfalso. exact (Qlt_irrefl _ H).
Qed.

Lemma round64_neg (q : Q) : q < 0 -> round64 q = - round_pos (- q).
Proof.
  intros H. unfold round64.
  destruct (Qcompare_spec q 0) as [E|E|E]; [|reflexivity|lra].
  rewrite E in H. exfalso. exact (Qlt_irrefl _ H).
Qed.

Lemma round64_zero (q : Q) : q == 0 -> round64 q = 0.
Proof.
  intros H. unfold round64.
  destruct (Qcompare_spec q 0) as [E|E|E]; [reflexivity| |];
    rewrite H in E; exfalso; exact (Qlt_irrefl _ E).
Qed.

Lemma round64_nonneg (q : Q) : 0 <= q -> 0 <= round64 q.
Proof.
  intros H. destruct (Qlt_le_dec 0 q) as [Hpos|Hle].
  - rewrite (round64_pos q Hpos). apply round_pos_nonneg. exact Hpos.
  - rewrite (round64_zero q); [apply Qle_refl|]. apply Qle_antisym; assumption.
Qed.

Lemma round64_nonpos (q : Q) : q <= 0 -> round64 q <= 0.
Proof.
  intros H. destruct (Qlt_le_dec q 0) as [Hneg|Hle].
  - rewrite (round64_neg q Hneg).
    assert (Hp : 0 < - q) by lra.
    pose proof (round_pos_nonneg (- q) Hp). lra.
  - rewrite (round64_zero q); [apply Qle_refl|]. apply Qle_antisym; assumption.
Qed.

Lemma round64_le (p q : Q) : p <= q -> round64 p <= round64 q.
Proof.
  intros H.
  destruct (Qlt_le_dec 0 p) as [Hp|Hp].
  - assert (Hq : 0 < q) by lra.
    rewrite (round64_pos p Hp), (round64_pos q Hq).
    apply round_pos_le; assumption.
  - destruct (Qlt_le_dec q 0) as [Hq|Hq].
    + assert (Hp' : p < 0) by lra.
      rewrite (round64_neg p Hp'), (round64_neg q Hq).
      assert (Hle : round_pos (- q) <= round_pos (- p)).
      { apply round_pos_le; lra. }
      lra.
    + pose proof (round64_nonpos p Hp). pose proof (round64_nonneg q Hq). lra.
Qed.

Lemma round64_comp (p q : Q) : p == q -> round64 p = round64 q.
Proof.
  intros E.
  destruct (Qlt_le_dec 0 p) as [Hp|Hp].
  - assert (Hq : 0 < q) by (rewrite <- E; exact Hp).
    rewrite (round64_pos p Hp), (round64_pos q Hq).
    apply round_pos_comp; assumption.
  - destruct (Qlt_le_dec p 0) as [Hn|Hn].
    + assert (Hq : q < 0) by (rewrite <- E; exact Hn).
      rewrite (round64_neg p Hn), (round64_neg q Hq). f_equal.
      apply round_pos_comp; [lra|rewrite E; reflexivity].
    + assert (Ep : p == 0) by (apply Qle_antisym; assumption).
      rewrite (round64_zero p Ep), (round64_zero q); [reflexivity|].
      rewrite <- E. exact Ep.
Qed.

Lemma round64_idem (q : Q) : round64 (round64 q) == round64 q.
Proof.
  destruct (Qlt_le_dec 0 q) as [Hp|Hp].
  - rewrite (round64_pos q Hp).
    pose proof (round_pos_nonneg q Hp) as Hr.
    destruct (Qlt_le_dec 0 (round_pos q)) as [Hr'|Hr'].
    + rewrite (round64_pos _ Hr'). apply round_pos_idem; assumption.
    + assert (E : round_pos q == 0) by (apply Qle_antisym; assumption).
      rewrite (round64_zero _ E). symmetry. exact E.
  - destruct (Qlt_le_dec q 0) as [Hq|Hq].
    + rewrite (round64_neg q Hq).
      assert (Hq' : 0 < - q) by lra.
      pose proof (round_pos_nonneg (- q) Hq') as Hr.
      destruct (Qlt_le_dec 0 (round_pos (- q))) as [Hr'|Hr'].
      * assert (Hn : - round_pos (- q) < 0) by lra.
        rewrite (round64_neg _ Hn).
        assert (E : - - round_pos (- q) == round_pos (- q)) by ring.
        assert (Hpos : 0 < - - round_pos (- q)) by lra.
        rewrite (round_pos_comp _ _ Hpos E).
        rewrite (round_pos_idem (- q) Hq' Hr'). reflexivity.
      * assert (E : round_pos (- q) == 0) by (apply Qle_antisym; assumption).
        assert (E' : - round_pos (- q) == 0) by lra.
        rewrite (round64_zero _ E'). symmetry. exact E'.
    + assert (E : q == 0) by (apply Qle_antisym; assumption).
      rewrite (round64_zero q E). reflexivity.
Qed.

(** A float that does not exceed a number does not exceed the number's
    rounding either. *)
Lemma round64_above (s x : Q) : round64 s == s -> s <= x -> s <= round64 x.
Proof.
  intros Hs H. rewrite <- Hs. apply round64_le. exact H.
Qed.

Lemma round64_gt (y x : Q) : round64 x < round64 y -> x < round64 y.
Proof.
  intros H. apply Qnot_le_lt. intros Hle.
  pose proof (round64_above (round64 y) x (round64_idem y) Hle) as H'.
  exact (Qlt_not_le _ _ H H').
Qed.

(** A float that exceeds the sum of two numbers as the addition
    computes it exceeds their exact sum. *)
Lemma add_gt (a b s : Q) : round64 s == s -> add a b < s -> a + b < s.
Proof.
  intros Hs H. unfold add in H. rewrite <- Hs in H |- *.
  apply round64_gt. exact H.
Qed.

End Float_facts.

(** ** Properties of the generation client *)

Module OllamaAPI_facts.
Import Py OllamaAPI Vocabulary.

Section Facts.

Variable loads : string -> outcome value.

Lemma decode_lines_decoded (lines : list string) :
  forallb (fun line =>
             String.eqb line EmptyString || value_or_decode_error (loads line))
          lines = true ->
  decode_lines loads lines =
  Return (flat_map (fun line =>
                      if String.eqb line EmptyString then []
                      else match loads line with
                           | Return v => [v]
                           | Raise _ => []
                           end) lines).
Proof.
  induction lines as [|line rest IH]; simpl; [reflexivity|].
  intros H. apply andb_prop in H. destruct H as [Hl Hr].
  destruct (String.eqb line EmptyString); [exact (IH Hr)|].
  simpl in Hl. destruct (loads line) as [v|e]; simpl.
  - rewrite (IH Hr). reflexivity.
  - destruct e; simpl in Hl; try discriminate. exact (IH Hr).
Qed.

(** An exception of the decoder that is not a decode error leaves the
    line loop. *)
Lemma decode_lines_raises (lines : list string) :
  forallb (fun line =>
             String.eqb line EmptyString || value_or_decode_error (loads line))
          lines = false ->
  exists e, decode_lines loads lines = Raise e.
Proof.
  induction lines as [|line rest IH]; simpl; [discriminate|].
  intros H. apply andb_false_iff in H.
  destruct (String.eqb line EmptyString).
  - destruct H as [H|H]; [discriminate|exact (IH H)].
  - simpl in H. destruct (loads line) as [v|e]; simpl in *.
    + destruct H as [H|H]; [discriminate|].
      destruct (IH H) as [e He]. rewrite He. simpl. eauto.
    + destruct e; simpl in *; eauto;
        destruct H as [H|H]; [discriminate|exact (IH H)].
Qed.

Lemma get_response_ok (v : value) :
  fragment_ok v = true ->
  get v "response" (VStr EmptyString) = Return (VStr (fragment v)).
Proof.
  destruct v as [| | | | |l|d]; simpl; try discriminate.
  destruct (assoc "response" d) as [[| | | | | |]|]; simpl;
    intros H; try discriminate; reflexivity.
Qed.

Lemma fragments_ok (l : list value) :
  forallb fragment_ok l = true ->
  for_each (fun r => get r "response" (VStr EmptyString)) l
  = Return (map (fun v => VStr (fragment v)) l).
Proof.
  induction l as [|v l IH]; simpl; [reflexivity|].
  intros H. apply andb_prop in H. destruct H as [Hv Hl].
  rewrite (get_response_ok v Hv). simpl. rewrite (IH Hl). reflexivity.
Qed.

Lemma join_fragments (l : list value) :
  join_empty (map (fun v => VStr (fragment v)) l)
  = Return (concat_all (map fragment l)).
Proof.
  induction l as [|v l IH]; simpl; [reflexivity|].
  rewrite IH. reflexivity.
Qed.

(** A decoded line that is not an object, or whose [response] is not a
    string, makes the joining raise. *)
Lemma fragments_bad (l : list value) :
  forallb fragment_ok l = false ->
  exists e,
    bind (for_each (fun r => get r "response" (VStr EmptyString)) l) join_empty
    = Raise e.
Proof.
  induction l as [|v l IH]; simpl; [discriminate|].
  intros H. apply andb_false_iff in H.
  destruct (get v "response" (VStr EmptyString)) as [x|e] eqn:Eg; simpl;
    [|eauto].
  destruct (for_each (fun r => get r "response" (VStr EmptyString)) l)
    as [bs|e] eqn:El; simpl; [|eauto].
  destruct (fragment_ok v) eqn:Ev.
  - destruct H as [H|H]; [discriminate|].
    destruct (IH H) as [e He]. simpl in He.
    rewrite (get_response_ok v Ev) in Eg. inversion Eg; subst x.
    rewrite He. simpl. eauto.
  - destruct v as [| | | | |l'|d]; simpl in Eg; try discriminate.
    simpl in Ev.
    destruct (assoc "response" d) as [[| | | | | |]|];
      inversion Eg; subst; simpl; try discriminate; eauto.
Qed.

Lemma combine_ok (model : string) (r0 : value) (rs : list value) :
  forallb fragment_ok (r0 :: rs) = true ->
  combine model (r0 :: rs) = Return (combined model r0 rs).
Proof.
  intros H. unfold combine. rewrite (fragments_ok _ H).
  cbn [bind]. rewrite join_fragments. cbn [bind].
  simpl in H. apply andb_prop in H. destruct H as [H0 _].
  destruct r0 as [| | | | |l|d]; simpl in H0; try discriminate.
  unfold combined, created_at_of. simpl.
  destruct (assoc "created_at" d); reflexivity.
Qed.

Lemma combine_bad (model : string) (l : list value) :
  forallb fragment_ok l = false -> exists e, combine model l = Raise e.
Proof.
  intros H. destruct (fragments_bad l H) as [e He].
  unfold combine.
  destruct (for_each (fun r => get r "response" (VStr EmptyString)) l)
    as [bs|e'] eqn:El; simpl in *; [|eauto].
  rewrite He. simpl. eauto.
Qed.


Variable post : value -> post_result.

(** C7 (as amended).  A call of [generate_response] never raises: it
    always returns a value.  When the payload cannot be built, when the
    transport raises, when the status is not 200, or when the body of a
    200 reply decodes neither as a whole nor on any of its lines
    (whatever the exception of the decoder), the value returned is
    [None]; no error kind is attached to it. *)
Theorem generate_response_failure_is_None
  (model : string) (prompt params : value) :
  (exists v, generate_response loads post model prompt params = Return v)
  /\ (forall e, payload model prompt params = Raise e ->
        generate_response loads post model prompt params = Return VNone)
  /\ (forall request, payload model prompt params = Return request ->
        (forall e, post request = PostRaises e ->
           generate_response loads post model prompt params = Return VNone)
        /\ (forall status_code text,
              post request = PostResponse status_code text ->
              status_code <> 200%Z ->
              generate_response loads post model prompt params = Return VNone)
        /\ (forall text e,
              post request = PostResponse 200 text ->
              loads text = Raise e ->
              decoded_lines loads text = [] ->
              generate_response loads post model prompt params = Return VNone)).
Proof.
  unfold generate_response, generate_response_try.
  split; [|split].
  - destruct (bind _ _) as [v|e]; simpl; eauto.
  - intros e He. rewrite He. reflexivity.
  - intros request Hp. rewrite Hp. cbn [bind].
    split; [|split].
    + intros e He. rewrite He. reflexivity.
    + intros status_code text He Hs. rewrite He.
      destruct (Z.eqb_spec status_code 200) as [E|_]; [contradiction|].
      reflexivity.
    + intros text e He Hl Hd. rewrite He, Hl. simpl.
      destruct e; try reflexivity.
      destruct (only_decode_errors loads text) eqn:Hok.
      * unfold only_decode_errors in Hok.
        rewrite (decode_lines_decoded _ Hok).
        unfold decoded_lines in Hd. rewrite Hd. reflexivity.
      * destruct (decode_lines_raises _ Hok) as [e' He'].
        rewrite He'. reflexivity.
Qed.

(** C10 (as amended).  For a 200 reply on whose body the decoder
    raises a decode error, and on whose lines it raises nothing but
    decode errors: when no line of the stripped body decodes, the result
    is [None]; when some line decodes and every decoded line is an
    object whose [response] entry, if present, is a string, the result
    is the combined object, whose [response] is the in-order
    concatenation of the decoded lines' [response] texts (lines that
    fail to decode are skipped); when some decoded line is not an object
    or carries a [response] that is not a string, the result is [None].
    When the decoder raises any other exception, on the body or on one
    of its lines, the result is [None] as well. *)
Theorem streamed_lines_are_concatenated
  (model : string) (prompt params request : value) (text : string) (e : exn) :
  payload model prompt params = Return request ->
  post request = PostResponse 200 text ->
  loads text = Raise e ->
  generate_response loads post model prompt params =
  Return (if is_decode_error e && only_decode_errors loads text
          then match decoded_lines loads text with
               | [] => VNone
               | r0 :: rs =>
                   if forallb fragment_ok (r0 :: rs) then combined model r0 rs
                   else VNone
               end
          else VNone).
Proof.
  intros Hp He Hl.
  unfold generate_response, generate_response_try.
  rewrite Hp. cbn [bind]. rewrite He, Hl. simpl.
  destruct e; try reflexivity. cbn [is_decode_error andb].
  destruct (only_decode_errors loads text) eqn:Hlines.
  - unfold only_decode_errors in Hlines.
    rewrite (decode_lines_decoded _ Hlines). cbn [bind].
    fold (decoded_lines loads text).
    destruct (decoded_lines loads text) as [|r0 rs]; [reflexivity|].
    destruct (forallb fragment_ok (r0 :: rs)) eqn:Hok.
    + rewrite (combine_ok model r0 rs Hok).
      simpl in Hok |- *. rewrite Hok. reflexivity.
    + destruct (combine_bad model (r0 :: rs) Hok) as [e Hbad].
      rewrite Hbad. simpl in Hok |- *. rewrite Hok. reflexivity.
  - destruct (decode_lines_raises _ Hlines) as [e He'].
    rewrite He'. reflexivity.
Qed.

End Facts.

(** *** Concrete runs *)

(** C7, counterexample.  With the service unreachable the client returns
    [None], which is not a record with [success] false and an error
    kind. *)
Lemma unreachable_service_yields_None_without_error_kind :
  generate_response Json.json_loads (Scenario.unreachable 0) "mistral:7b"
    (VStr "Tell me about AI") VNone = Return VNone
  /\ ~ failure_record VNone.
Proof.
  split; [reflexivity|].
  intros (d & field & kind & H & _). discriminate.
Qed.

(** C10, counterexample.  Both lines of the body decode as JSON objects,
    the body as a whole does not, and yet the client returns [None]. *)
Lemma streamed_null_fragment_yields_None :
  Json.json_loads Scenario.two_lines_null = Raise JSONDecodeError
  /\ map Json.json_loads (split newline (strip Scenario.two_lines_null))
     = [Return (VDict [("response", VStr "a")]);
        Return (VDict [("response", VNone)])]
  /\ generate_response Json.json_loads (fun _ => PostResponse 200 Scenario.two_lines_null)
       "mistral:7b" (VStr "Tell me about AI") VNone = Return VNone.
Proof. vm_compute. repeat split. Qed.

(** A line on which the decoder raises [RecursionError]: the first line
    decodes, and yet the client returns [None]. *)
Example deeply_nested_line_yields_None :
  Scenario.bounded_loads Scenario.two_lines_deep = Raise JSONDecodeError
  /\ map Scenario.bounded_loads (split newline (strip Scenario.two_lines_deep))
     = [Return (VDict [("response", VStr "a")]); Raise RecursionError]
  /\ generate_response Scenario.bounded_loads
       (fun _ => PostResponse 200 Scenario.two_lines_deep)
       "mistral:7b" (VStr "Tell me about AI") VNone = Return VNone.
Proof. vm_compute. repeat split. Qed.

(** Three fragments, one line that does not decode, one object without
    text: the texts are joined in order. *)
Lemma streamed_lines_are_concatenated_witness :
  generate_response Json.json_loads (fun _ => PostResponse 200 Scenario.three_lines)
    "mistral:7b" (VStr "Tell me about AI") VNone
  = Return (VDict [("response", VStr "AI is a technology.");
                   ("model", VStr "mistral:7b");
                   ("created_at", VStr EmptyString)]).
Proof.
  exact (streamed_lines_are_concatenated Json.json_loads
           (fun _ => PostResponse 200 Scenario.three_lines)
           "mistral:7b" (VStr "Tell me about AI") VNone
           (VDict [("model", VStr "mistral:7b");
                   ("prompt", VStr "Tell me about AI");
                   ("stream", VBool false)])
           Scenario.three_lines JSONDecodeError eq_refl eq_refl eq_refl).
Defined.

End OllamaAPI_facts.

(** ** Properties of the scorers *)

Module Scorer_facts.
Import Py.

Lemma truediv_nonneg (n d : nat) (q : Q) :
  Float.truediv n d = Return q -> (0 <= q)%Q.
Proof.
  destruct d as [|d]; simpl; [discriminate|].
  intros H. inversion H; subst q; clear H.
  apply Float_facts.round64_nonneg.
  apply Qle_shift_div_l.
  - change 0%Q with (inject_Z 0). rewrite <- Zlt_Qlt. lia.
  - rewrite Qmult_0_l. change 0%Q with (inject_Z 0). rewrite <- Zle_Qle. lia.
Qed.

Lemma loop_score_nonneg (original new : value) (q : Q) :
  OptimizationLoop._calculate_improvement original new = Return q -> (0 <= q)%Q.
Proof.
  unfold OptimizationLoop._calculate_improvement.
  destruct (len new) as [n|e]; simpl; [|discriminate].
  destruct (len original) as [d|e]; simpl; [|discriminate].
  apply truediv_nonneg.
Qed.

(** C3.  On every pair of strings the scorer of the pipeline returns
    [len(final) / len(initial)], the float nearest to the ratio of the
    two lengths, when the initial response is not empty and zero when it
    is empty, never raising, and its value is not negative.  The scorer
    of the refinement loop computes the same ratio when the original
    response is not empty, but raises [ZeroDivisionError] when it is
    empty. *)
Theorem scorers_on_strings (original candidate : string) :
  PromptOptimizationPipeline._calculate_improvement (VStr original) (VStr candidate)
  = Return (if Nat.eqb (String.length original) 0 then 0
            else Float.round64
                   (inject_Z (Z.of_nat (String.length candidate))
                    / inject_Z (Z.of_nat (String.length original))))%Q
  /\ (forall q,
        PromptOptimizationPipeline._calculate_improvement
          (VStr original) (VStr candidate) = Return q -> (0 <= q)%Q)
  /\ OptimizationLoop._calculate_improvement (VStr original) (VStr candidate)
     = (if Nat.eqb (String.length original) 0 then Raise ZeroDivisionError
        else Return (Float.round64
                       (inject_Z (Z.of_nat (String.length candidate))
                        / inject_Z (Z.of_nat (String.length original))))%Q).
Proof.
  unfold PromptOptimizationPipeline._calculate_improvement,
    OptimizationLoop._calculate_improvement.
  simpl. destruct (String.length original) as [|d] eqn:E; simpl.
  - repeat split. intros q H. inversion H. apply Qle_refl.
  - repeat split. intros q H.
    apply (truediv_nonneg (String.length candidate) (S d)). exact H.
Qed.

(** C3, at the failing input: an empty original response. *)
Lemma loop_scorer_divides_by_zero :
  OptimizationLoop._calculate_improvement (VStr EmptyString) (VStr "abc")
  = Raise ZeroDivisionError.
Proof. reflexivity. Qed.

End Scorer_facts.

(** ** Properties of the refinement loop *)

Module OptimizationLoop_facts.
Import Py OptimizationLoop Vocabulary.
Local Open Scope loop_scope.

Lemma gt_lt (a b : Q) : gt a b = true <-> (b < a)%Q.
Proof.
  unfold gt. rewrite negb_true_iff. split.
  - intros H. apply Qnot_le_lt. intros Hle.
    apply Qle_bool_iff in Hle. congruence.
  - intros H. destruct (Qle_bool a b) eqn:E; [|reflexivity].
    apply Qle_bool_iff in E. exfalso. exact (Qlt_not_le _ _ H E).
Qed.

Lemma mbind_Return {A B} (m : M A) (k : A -> M B) (w w' : world) (b : B) :
  mbind m k w = (Return b, w') ->
  exists a w1, m w = (Return a, w1) /\ k a w1 = (Return b, w').
Proof.
  unfold mbind. destruct (m w) as [[a|e] w1]; [eauto|discriminate].
Qed.

Lemma mbind_step {A B} (m : M A) (k : A -> M B) (w w1 : world) (a : A) :
  m w = (Return a, w1) -> mbind m k w = k a w1.
Proof. unfold mbind. intros ->. reflexivity. Qed.

Lemma lift_Return {A} (o : outcome A) (w w' : world) (a : A) :
  lift o w = (Return a, w') -> o = Return a /\ w' = w.
Proof. unfold lift. intros H. inversion H. auto. Qed.

(** Inversion of a monadic computation known to return. *)
Ltac invert_run H :=
  repeat match type of H with
         | mbind _ _ _ = (Return _, _) =>
             let a := fresh "a" in
             let w := fresh "w" in
             let E := fresh "E" in
             apply mbind_Return in H; destruct H as (a & w & E & H)
         | (if ?b then _ else _) _ = _ =>
             let T := fresh "T" in destruct b eqn:T
         | ret _ _ = _ => unfold ret in H; inversion H; subst; clear H
         end.

Section Facts.

Variable loads : string -> outcome value.
Variable service : nat -> value -> OllamaAPI.post_result.
Variable clock : nat -> Z.
Variable enhance_prompt : value -> value -> outcome value.
Variable cfg : config.

Notation attempt := (attempt loads service enhance_prompt cfg).
Notation evaluate := (evaluate clock).
Notation round := (round loads service clock enhance_prompt cfg).
Notation for_range := (for_range loads service clock enhance_prompt cfg).
Notation optimize_prompt := (optimize_prompt loads service clock enhance_prompt cfg).
Notation generate_response := (generate_response loads service).

Lemma generate_response_run (model : string) (prompt : value) (w : world) :
  generate_response model prompt w
  = (OllamaAPI.generate_response loads (service (requests w)) model prompt VNone,
     sent w).
Proof. reflexivity. Qed.

Lemma now_run (w : world) :
  now clock w = (Return (clock (clock_reads w)), started w).
Proof. reflexivity. Qed.

(** A falsy reply of the executor ends the round at line 41. *)
Lemma attempt_falsy_reply (st : locals) (w : world) (reply : value) :
  OllamaAPI.generate_response loads (service (requests w)) (model1_name cfg)
    (current_prompt st) VNone = Return reply ->
  truthy reply = false ->
  attempt st w = (Return (reply, None), sent w).
Proof.
  intros Hr Hf. unfold OptimizationLoop.attempt.
  erewrite mbind_step; [|rewrite generate_response_run, Hr; reflexivity].
  rewrite Hf. reflexivity.
Qed.

Lemma round_falsy_reply (prompt : value) (start_time : Z) (threshold : Q)
  (iteration : nat) (st : locals) (w : world) (reply : value) :
  OllamaAPI.generate_response loads (service (requests w)) (model1_name cfg)
    (current_prompt st) VNone = Return reply ->
  truthy reply = false ->
  round prompt start_time threshold iteration st w
  = (Return (Break, {| current_prompt := current_prompt st;
                       best_score := best_score st;
                       best_result := best_result st;
                       response := Some reply |}), sent w).
Proof.
  intros Hr Hf. unfold OptimizationLoop.round.
  erewrite mbind_step; [|apply (attempt_falsy_reply st w reply Hr Hf)].
  reflexivity.
Qed.

(** What a round holds when it reaches the evaluation. *)
Lemma attempt_candidate (st : locals) (w w' : world) (reply : value)
  (c : candidate) :
  attempt st w = (Return (reply, Some c), w') ->
  c_response c = reply
  /\ (exists t, subscript (c_response c) "response" = Return t)
  /\ (exists t, subscript (c_new_response c) "response" = Return t)
  /\ (0 <= c_score c)%Q.
Proof.
  intros H. unfold OptimizationLoop.attempt in H.
  invert_run H.
  repeat match goal with
         | E : lift _ _ = (Return _, _) |- _ =>
             apply lift_Return in E; destruct E as [E ?]; subst
         end.
  simpl. repeat split; eauto.
  eapply Scorer_facts.loop_score_nonneg; eassumption.
Qed.

(** The score of a candidate is a float. *)
Lemma attempt_score_float (st : locals) (w w' : world) (reply : value)
  (c : candidate) :
  attempt st w = (Return (reply, Some c), w') ->
  (Float.round64 (c_score c) == c_score c)%Q.
Proof.
  intros H. unfold OptimizationLoop.attempt in H.
  invert_run H.
  repeat match goal with
         | E : lift _ _ = (Return _, _) |- _ =>
             apply lift_Return in E; destruct E as [E ?]; subst
         end.
  simpl.
  match goal with
  | E : _calculate_improvement _ _ = Return _ |- _ =>
      unfold _calculate_improvement in E;
      destruct (len _) as [n|]; simpl in E; [|discriminate];
      destruct (len _) as [d|]; simpl in E; [|discriminate];
      destruct d; simpl in E; [discriminate|]; inversion E
  end.
  apply Float_facts.round64_idem.
Qed.

(** The evaluation of a candidate whose two replies carry a [response]
    entry: acceptance exactly when the score exceeds the sum of the best
    score and the threshold, as the floating-point addition computes
    it. *)
Lemma evaluate_run (prompt : value) (start_time : Z) (threshold : Q)
  (iteration : nat) (st : locals) (c : candidate) (w : world)
  (initial final : value) :
  subscript (c_response c) "response" = Return initial ->
  subscript (c_new_response c) "response" = Return final ->
  evaluate prompt start_time threshold iteration st c w
  = if gt (c_score c) (Float.add (best_score st) threshold)
    then (Return
            (Continue,
             {| current_prompt := c_new_prompt c;
                best_score := c_score c;
                best_result := Some
                  {| original_prompt := prompt;
                     optimized_prompt := c_new_prompt c;
                     initial_response := initial;
                     final_response := final;
                     improvement_score := c_score c;
                     created_at := clock (clock_reads w);
                     metadata :=
                       {| iterations := Z.of_nat iteration + 1;
                          duration := Some (total_seconds
                                              (clock (S (clock_reads w)))
                                              start_time) |} |};
                response := response st |}),
          started (started w))
    else (Return (Break, st), w).
Proof.
  intros Hi Hf. unfold OptimizationLoop.evaluate.
  destruct (gt (c_score c) (Float.add (best_score st) threshold)); [|reflexivity].
  unfold mbind, lift. rewrite Hi, Hf. reflexivity.
Qed.

(** A round that returns either breaks, leaving the prompt, the best
    score and the best result as they were, or accepts a candidate that
    beats the best score by more than the threshold. *)
Lemma round_returns (prompt : value) (start_time : Z) (threshold : Q)
  (iteration : nat) (st st' : locals) (w w' : world) (ctl : ctrl) :
  round prompt start_time threshold iteration st w = (Return (ctl, st'), w') ->
  (ctl = Break
   /\ exists reply, st' = with_response st reply)
  \/ (ctl = Continue
      /\ exists reply c w1 r,
           attempt st w = (Return (reply, Some c), w1)
           /\ (Float.add (best_score st) threshold < c_score c)%Q
           /\ current_prompt st' = c_new_prompt c
           /\ best_score st' = c_score c
           /\ best_result st' = Some r
           /\ original_prompt r = prompt
           /\ optimized_prompt r = c_new_prompt c
           /\ improvement_score r = c_score c
           /\ iterations (metadata r) = (Z.of_nat iteration + 1)%Z).
Proof.
  intros H. unfold OptimizationLoop.round in H.
  apply mbind_Return in H. destruct H as ([reply oc] & w1 & Ea & H).
  simpl in H. destruct oc as [c|].
  - destruct (attempt_candidate st w w1 reply c Ea)
      as (_ & [initial Hi] & [final Hf] & Hs).
    rewrite (evaluate_run prompt start_time threshold iteration _ c w1
               initial final Hi Hf) in H.
    simpl in H.
    destruct (gt (c_score c) (Float.add (best_score st) threshold)) eqn:G;
      inversion H; subst; clear H.
    + right. split; [reflexivity|].
      exists reply, c, w1. eexists. repeat split; try reflexivity.
      * exact Ea.
      * apply gt_lt. exact G.
    + left. split; [reflexivity|]. exists reply. reflexivity.
  - unfold ret in H. inversion H; subst. left. split; [reflexivity|].
    exists reply. reflexivity.
Qed.

Lemma for_range_step (prompt : value) (start_time : Z) (threshold : Q)
  (n iteration : nat) (st st' : locals) (w w' : world) :
  for_range prompt start_time threshold (S n) iteration st w = (Return st', w') ->
  exists ctl st1 w1,
    round prompt start_time threshold iteration st w = (Return (ctl, st1), w1)
    /\ match ctl with
       | Break => st' = st1 /\ w' = w1
       | Continue =>
           for_range prompt start_time threshold n (S iteration) st1 w1
           = (Return st', w')
       end.
Proof.
  intros H. cbn [OptimizationLoop.for_range] in H.
  apply mbind_Return in H. destruct H as ([ctl st1] & w1 & Er & H).
  exists ctl, st1, w1. split; [exact Er|].
  simpl in H. destruct ctl; [exact H|].
  unfold ret in H. inversion H. auto.
Qed.

(** The fallback result, when it can be built. *)
Lemma fallback_returns (prompt : value) (st : locals) (w w' : world)
  (r : OptimizationResult) :
  fallback clock prompt st w = (Return r, w') ->
  original_prompt r = prompt /\ optimized_prompt r = prompt
  /\ improvement_score r = 0%Q /\ iterations (metadata r) = 0%Z.
Proof.
  intros H. unfold OptimizationLoop.fallback in H. invert_run H.
  simpl. auto.
Qed.

(** What the loop leaves in [best_result]: nothing new when no round
    accepted, else a result whose round count is the number of accepted
    rounds, counted from the first round of the call. *)
Lemma for_range_count (prompt : value) (start_time : Z) (threshold : Q)
  (n : nat) :
  forall (iteration : nat) (st st' : locals) (w w' : world),
    for_range prompt start_time threshold n iteration st w = (Return st', w') ->
    match accepted_rounds loads service clock enhance_prompt cfg
            prompt start_time threshold n iteration st w with
    | O => best_result st' = best_result st
    | S k =>
        exists r, best_result st' = Some r
                  /\ iterations (metadata r) = Z.of_nat (iteration + S k)
    end.
Proof.
  induction n as [|n IH]; intros iteration st st' w w' H.
  - simpl in *. unfold ret in H. inversion H. reflexivity.
  - apply for_range_step in H. destruct H as (ctl & st1 & w1 & Er & H).
    cbn [accepted_rounds]. rewrite Er.
    destruct (round_returns _ _ _ _ _ _ _ _ _ Er)
      as [[-> [reply ->]]|[-> (reply & c & w2 & r & _ & _ & _ & _ & Hb & _ & _ & _ & Hi)]].
    + destruct H as [-> _]. reflexivity.
    + specialize (IH _ _ _ _ _ H).
      destruct (accepted_rounds loads service clock enhance_prompt cfg
                  prompt start_time threshold n (S iteration) st1 w1) as [|k].
      * exists r. rewrite IH. split; [exact Hb|]. rewrite Hi. lia.
      * destruct IH as (r' & Hr' & Hi'). exists r'. split; [exact Hr'|].
        rewrite Hi'. lia.
Qed.

Lemma for_range_sound (prompt : value) (start_time : Z) (threshold : Q)
  (n : nat) :
  forall (iteration : nat) (st st' : locals) (w w' : world),
    sound_best st ->
    for_range prompt start_time threshold n iteration st w = (Return st', w') ->
    sound_best st'.
Proof.
  induction n as [|n IH]; intros iteration st st' w w' Hs H.
  - simpl in H. unfold ret in H. inversion H; subst. exact Hs.
  - apply for_range_step in H. destruct H as (ctl & st1 & w1 & Er & H).
    destruct (round_returns _ _ _ _ _ _ _ _ _ Er)
      as [[-> [reply ->]]|[-> (reply & c & w2 & r & Ha & _ & _ & _ & Hb & _ & _ & Hsc & Hi)]].
    + destruct H as [-> _]. exact Hs.
    + apply (IH _ _ _ _ _) in H; [exact H|].
      unfold sound_best. rewrite Hb, Hsc, Hi. split; [|lia].
      destruct (attempt_candidate _ _ _ _ _ Ha) as (_ & _ & _ & Hpos).
      exact Hpos.
Qed.

(** C2.  Every result that [optimize_prompt] returns has a score that is
    not negative, and a result that reports zero rounds carries the
    original prompt as its optimised prompt. *)
Theorem result_invariant
  (prompt : string) (max_iterations : Z) (improvement_threshold : Q)
  (w w' : world) (r : OptimizationResult) :
  optimize_prompt prompt max_iterations improvement_threshold w = (Return r, w') ->
  (0 <= improvement_score r)%Q
  /\ (iterations (metadata r) = 0%Z -> optimized_prompt r = original_prompt r).
Proof.
  intros H. unfold OptimizationLoop.optimize_prompt in H.
  apply mbind_Return in H. destruct H as (start_time & w1 & _ & H).
  apply mbind_Return in H. destruct H as (st & w2 & Hloop & H).
  apply for_range_sound in Hloop; [|exact I].
  unfold sound_best in Hloop.
  destruct (best_result st) as [result|].
  - unfold ret in H. inversion H; subst. destruct Hloop as [Hs Hi].
    split; [exact Hs|]. intros Hz. lia.
  - apply fallback_returns in H. destruct H as (Ho & Hp & Hs & _).
    rewrite Hs, Ho, Hp. split; [apply Qle_refl|reflexivity].
Qed.

(** C4.  A round that reaches the evaluation with a candidate accepts it
    exactly when its score exceeds the sum of the best score and the
    threshold, the sum being the float that the addition of the two
    floats yields; acceptance makes the score the best score and the
    candidate prompt the current prompt, and the loop goes on with the
    next round; a round that does not accept ends the loop at once, with
    the prompt, the best score and the best result unchanged; and the
    round count of the returned result is the number of rounds that
    accepted a candidate (zero when none did). *)
Theorem acceptance_rule
  (prompt : string) (max_iterations : Z) (threshold : Q) :
  (forall p start_time iteration st w reply c w1,
      attempt st w = (Return (reply, Some c), w1) ->
      ((Float.add (best_score st) threshold < c_score c)%Q ->
         exists st' w',
           round p start_time threshold iteration st w
           = (Return (Continue, st'), w')
           /\ best_score st' = c_score c
           /\ current_prompt st' = c_new_prompt c)
      /\ (~ (Float.add (best_score st) threshold < c_score c)%Q ->
            round p start_time threshold iteration st w
            = (Return (Break, with_response st reply), w1)))
  /\ (forall p start_time iteration st w st' w',
        round p start_time threshold iteration st w
        = (Return (Continue, st'), w') ->
        exists reply c w1,
          attempt st w = (Return (reply, Some c), w1)
          /\ (Float.add (best_score st) threshold < c_score c)%Q
          /\ best_score st' = c_score c
          /\ current_prompt st' = c_new_prompt c)
  /\ (forall p start_time n iteration st w st' w',
        round p start_time threshold iteration st w
        = (Return (Continue, st'), w') ->
        for_range p start_time threshold (S n) iteration st w
        = for_range p start_time threshold n (S iteration) st' w')
  /\ (forall p start_time n iteration st w st' w',
        round p start_time threshold iteration st w
        = (Return (Break, st'), w') ->
        for_range p start_time threshold (S n) iteration st w
        = (Return st', w')
        /\ current_prompt st' = current_prompt st
        /\ best_score st' = best_score st
        /\ best_result st' = best_result st)
  /\ (forall w w' r,
        optimize_prompt prompt max_iterations threshold w = (Return r, w') ->
        iterations (metadata r)
        = Z.of_nat (accepted_by_call loads service clock enhance_prompt cfg
                      prompt max_iterations threshold w)).
Proof.
  split; [|split; [|split; [|split]]].
  - intros p start_time iteration st w reply c w1 Ha.
    destruct (attempt_candidate _ _ _ _ _ Ha)
      as (_ & [initial Hi] & [final Hf] & _).
    assert (Hround :
      round p start_time threshold iteration st w
      = evaluate p start_time threshold iteration (with_response st reply) c w1).
    { unfold OptimizationLoop.round.
      rewrite (mbind_step _ _ _ _ _ Ha). reflexivity. }
    rewrite Hround, (evaluate_run _ _ _ _ _ _ _ initial final Hi Hf).
    simpl best_score.
    split; intros Hlt.
    + apply gt_lt in Hlt. rewrite Hlt.
      eexists. eexists. split; [reflexivity|]. split; reflexivity.
    + destruct (gt (c_score c) (Float.add (best_score st) threshold)) eqn:G;
        [|reflexivity].
      apply gt_lt in G. contradiction.
  - intros p start_time iteration st w st' w' Hr.
    destruct (round_returns _ _ _ _ _ _ _ _ _ Hr)
      as [[Hc _]|[_ (reply & c & w1 & r & Ha & Hlt & Hp & Hs & _)]];
      [discriminate|].
    exists reply, c, w1. auto.
  - intros p start_time n iteration st w st' w' Hr.
    cbn [OptimizationLoop.for_range].
    rewrite (mbind_step _ _ _ _ _ Hr). reflexivity.
  - intros p start_time n iteration st w st' w' Hr.
    split.
    + cbn [OptimizationLoop.for_range].
      rewrite (mbind_step _ _ _ _ _ Hr). reflexivity.
    + destruct (round_returns _ _ _ _ _ _ _ _ _ Hr)
        as [[_ [reply ->]]|[Hc _]]; [|discriminate].
      simpl. auto.
  - intros w w' r H. unfold OptimizationLoop.optimize_prompt in H.
    apply mbind_Return in H. destruct H as (start_time & w1 & Hn & H).
    rewrite now_run in Hn. inversion Hn; subst start_time w1; clear Hn.
    apply mbind_Return in H. destruct H as (st & w2 & Hloop & H).
    apply for_range_count in Hloop.
    unfold accepted_by_call.
    fold (first_locals prompt) in Hloop.
    destruct (accepted_rounds loads service clock enhance_prompt cfg
                (VStr prompt) (clock (clock_reads w)) threshold
                (Z.to_nat max_iterations) 0 (first_locals prompt) (started w))
      as [|k].
    + simpl in Hloop. rewrite Hloop in H.
      apply fallback_returns in H. destruct H as (_ & _ & _ & Hi). exact Hi.
    + destruct Hloop as (r0 & Hb & Hi). rewrite Hb in H.
      unfold ret in H. inversion H; subst r0. rewrite Hi. reflexivity.
Qed.

(** C5, at the failing input.  With [max_iterations = 0] no round runs
    and no request is sent, but the fallback result reads the local
    variable [response], which no round has bound: the call raises
    [UnboundLocalError] instead of returning a zero-round result. *)
Theorem zero_iterations_raises
  (prompt : string) (improvement_threshold : Q) (w : world) :
  optimize_prompt prompt 0 improvement_threshold w
  = (Raise UnboundLocalError,
     {| requests := requests w; clock_reads := S (clock_reads w) |}).
Proof. reflexivity. Qed.

(** C1, at the failing input.  When the first executor call of the first
    round returns [None], the loop breaks, and the fallback result
    subscripts that [None]: the call raises [TypeError] instead of
    returning a zero-score result. *)
Theorem first_executor_failure_raises
  (prompt : string) (max_iterations : Z) (improvement_threshold : Q) (w : world) :
  (0 < max_iterations)%Z ->
  OllamaAPI.generate_response loads (service (requests w)) (model1_name cfg)
    (VStr prompt) VNone = Return VNone ->
  fst (optimize_prompt prompt max_iterations improvement_threshold w)
  = Raise TypeError.
Proof.
  intros Hmax Hnone.
  unfold OptimizationLoop.optimize_prompt.
  destruct (Z.to_nat max_iterations) as [|n] eqn:En; [lia|].
  rewrite (mbind_step _ _ w _ _ (now_run w)).
  erewrite mbind_step.
  2:{ cbn [OptimizationLoop.for_range].
      erewrite mbind_step;
        [|apply round_falsy_reply with (reply := VNone);
          [exact Hnone|reflexivity]].
      reflexivity. }
  reflexivity.
Qed.

(** *** Repeated calls *)

Lemma similar_bind {A B} (RA : A -> A -> Prop) (RB : B -> B -> Prop)
  (m1 m2 : M A) (k1 k2 : A -> M B) :
  similar RA m1 m2 ->
  (forall a1 a2, RA a1 a2 -> similar RB (k1 a1) (k2 a2)) ->
  similar RB (mbind m1 k1) (mbind m2 k2).
Proof.
  intros Hm Hk w1 w2. specialize (Hm w1 w2). unfold mbind.
  destruct (m1 w1) as [[a1|e1] w1'], (m2 w2) as [[a2|e2] w2'];
    simpl in *; try contradiction.
  - apply Hk. exact Hm.
  - exact Hm.
Qed.

Lemma similar_ret {A} (R : A -> A -> Prop) (a1 a2 : A) :
  R a1 a2 -> similar R (ret a1) (ret a2).
Proof. intros H w1 w2. exact H. Qed.

Lemma similar_lift {A} (o : outcome A) : similar eq (lift o) (lift o).
Proof. intros w1 w2. simpl. destruct o; reflexivity. Qed.

Lemma similar_now : similar (fun _ _ => True) (now clock) (now clock).
Proof. intros w1 w2. exact I. Qed.

Hypothesis service_deterministic : deterministic service.

Lemma similar_generate_response (model : string) (prompt : value) :
  similar eq (generate_response model prompt) (generate_response model prompt).
Proof.
  intros w1 w2. rewrite !generate_response_run. simpl.
  unfold OllamaAPI.generate_response, OllamaAPI.generate_response_try.
  destruct (OllamaAPI.payload model prompt VNone) as [request|e];
    simpl; [|reflexivity].
  rewrite (service_deterministic (requests w1) (requests w2) request).
  destruct (try_except _ _); reflexivity.
Qed.

Lemma similar_attempt (st1 st2 : locals) :
  current_prompt st1 = current_prompt st2 ->
  similar eq (attempt st1) (attempt st2).
Proof.
  intros Hp. unfold OptimizationLoop.attempt. rewrite Hp.
  repeat first
    [ apply similar_ret; reflexivity
    | match goal with
      | |- similar _ (if ?b then _ else _) (if ?b then _ else _) =>
          destruct b
      end
    | eapply similar_bind;
      [ first [ apply similar_generate_response | apply similar_lift ]
      | intros ? ? <- ] ].
Qed.

Lemma similar_evaluate (prompt : value) (start1 start2 : Z) (threshold : Q)
  (iteration : nat) (st1 st2 : locals) (c : candidate) :
  similar_locals st1 st2 ->
  similar (fun x y => fst x = fst y /\ similar_locals (snd x) (snd y))
    (evaluate prompt start1 threshold iteration st1 c)
    (evaluate prompt start2 threshold iteration st2 c).
Proof.
  intros (Hp & Hs & Hr & Hb). unfold OptimizationLoop.evaluate. rewrite Hs.
  destruct (gt (c_score c) (Float.add (best_score st2) threshold)).
  - eapply similar_bind; [apply similar_lift|intros initial ? <-].
    eapply similar_bind; [apply similar_lift|intros final ? <-].
    eapply similar_bind; [apply similar_now|intros created1 created2 _].
    eapply similar_bind; [apply similar_now|intros finished1 finished2 _].
    apply similar_ret. simpl. split; [reflexivity|].
    unfold similar_locals, same_up_to_time. simpl. repeat split; auto.
  - apply similar_ret. simpl. split; [reflexivity|].
    unfold similar_locals. auto.
Qed.

Lemma similar_round (prompt : value) (start1 start2 : Z) (threshold : Q)
  (iteration : nat) (st1 st2 : locals) :
  similar_locals st1 st2 ->
  similar (fun x y => fst x = fst y /\ similar_locals (snd x) (snd y))
    (round prompt start1 threshold iteration st1)
    (round prompt start2 threshold iteration st2).
Proof.
  intros Hsim. pose proof Hsim as (Hp & Hs & Hr & Hb).
  unfold OptimizationLoop.round.
  eapply similar_bind; [apply similar_attempt; exact Hp|].
  intros [reply oc] ? <-. simpl.
  assert (Hsim' : similar_locals
            {| current_prompt := current_prompt st1;
               best_score := best_score st1;
               best_result := best_result st1;
               response := Some reply |}
            {| current_prompt := current_prompt st2;
               best_score := best_score st2;
               best_result := best_result st2;
               response := Some reply |}).
  { unfold similar_locals. simpl. auto. }
  destruct oc as [c|].
  - apply similar_evaluate. exact Hsim'.
  - apply similar_ret. simpl. split; [reflexivity|exact Hsim'].
Qed.

Lemma similar_for_range (prompt : value) (start1 start2 : Z) (threshold : Q)
  (n : nat) :
  forall (iteration : nat) (st1 st2 : locals),
    similar_locals st1 st2 ->
    similar similar_locals
      (for_range prompt start1 threshold n iteration st1)
      (for_range prompt start2 threshold n iteration st2).
Proof.
  induction n as [|n IH]; intros iteration st1 st2 Hsim.
  - apply similar_ret. exact Hsim.
  - cbn [OptimizationLoop.for_range].
    eapply similar_bind; [apply similar_round; exact Hsim|].
    intros [ctl1 x1] [ctl2 x2] [Hc Hx]. simpl in Hc, Hx. subst ctl2. simpl.
    destruct ctl1.
    + apply IH. exact Hx.
    + apply similar_ret. exact Hx.
Qed.

Lemma similar_fallback (prompt : value) (st1 st2 : locals) :
  similar_locals st1 st2 ->
  similar same_up_to_time (fallback clock prompt st1) (fallback clock prompt st2).
Proof.
  intros (_ & _ & Hr & _). unfold OptimizationLoop.fallback. rewrite Hr.
  eapply similar_bind; [apply similar_lift|intros r ? <-].
  eapply similar_bind; [apply similar_lift|intros initial ? <-].
  eapply similar_bind; [apply similar_lift|intros r' ? <-].
  eapply similar_bind; [apply similar_lift|intros final ? <-].
  eapply similar_bind; [apply similar_now|intros created1 created2 _].
  apply similar_ret. unfold same_up_to_time. simpl. repeat split.
Qed.

(** C6 (as amended).  Against a generation service whose answers depend
    on the request only, two calls of [optimize_prompt] with the same
    prompt, iteration bound and threshold, started in any two states of
    the world, either raise the same exception or return results that
    agree on the original prompt, the optimised prompt, the two
    responses, the score and the round count; the time stamps
    ([created_at] and the [duration] entry of the metadata) are read
    from the clock and are not covered. *)
Theorem repeated_call_agrees_up_to_time
  (prompt : string) (max_iterations : Z) (improvement_threshold : Q)
  (w1 w2 : world) :
  agree same_up_to_time
    (fst (optimize_prompt prompt max_iterations improvement_threshold w1))
    (fst (optimize_prompt prompt max_iterations improvement_threshold w2)).
Proof.
  revert w1 w2.
  change (similar same_up_to_time
            (optimize_prompt prompt max_iterations improvement_threshold)
            (optimize_prompt prompt max_iterations improvement_threshold)).
  unfold OptimizationLoop.optimize_prompt.
  eapply similar_bind; [apply similar_now|intros start1 start2 _].
  eapply similar_bind.
  - apply similar_for_range. unfold similar_locals. simpl. auto.
  - intros st1 st2 Hsim. pose proof Hsim as (_ & _ & _ & Hb).
    destruct (best_result st1) as [r1|], (best_result st2) as [r2|];
      try contradiction.
    + apply similar_ret. exact Hb.
    + apply similar_fallback. exact Hsim.
Qed.

End Facts.

End OptimizationLoop_facts.

(** ** The scenario, run *)

Module Scenario_facts.
Import Py OptimizationLoop Vocabulary Scenario.

Example first_call : run stub 3 w0 = (Return first_result, w1).
Proof. vm_compute. reflexivity. Qed.

Example second_call : run stub 3 w1 = (Return second_result, w2).
Proof. vm_compute. reflexivity. Qed.

(** Rounding decides the second round: the score [4 / 5] does not exceed
    the exact sum of [7 / 10] and [1 / 10], but it exceeds the sum of the
    floats [0.7] and [0.1], which is [0.7999999999999999]; the round is
    accepted. *)
Example rounded_sum_accepts_second_round :
  OptimizationLoop.optimize_prompt Json.json_loads (scripted close_scores)
    ticking render cfg "Tell me about AI" 2 threshold w0
  = (Return close_result,
     {| requests := 6; clock_reads := 5 |})
  /\ (Float.add (Float.round64 (7 # 10)) threshold < Float.round64 (4 # 5))%Q
  /\ ~ ((7 # 10) + (1 # 10) < 4 # 5)%Q.
Proof.
  split; [vm_compute; reflexivity|].
  split; [vm_compute; reflexivity|].
  intros H. vm_compute in H. discriminate.
Qed.

Example first_call_accepts_one_round :
  accepted_by_call Json.json_loads stub ticking render cfg
    "Tell me about AI" 3 Scenario.threshold w0 = 1.
Proof. vm_compute. reflexivity. Qed.

(** A failure of the optimizer call in the first round: the zero-round
    result is returned. *)
Example optimizer_failure_returns_fallback :
  exists r w,
    run (failing_at 1) 3 w0 = (Return r, w)
    /\ optimized_prompt r = VStr "Tell me about AI"
    /\ iterations (metadata r) = 0%Z.
Proof. eexists. eexists. vm_compute. repeat split. Qed.

(** A failure of the executor call on the candidate prompt: [TypeError]. *)
Example candidate_executor_failure_raises :
  fst (run (failing_at 2) 3 w0) = Raise TypeError.
Proof. vm_compute. reflexivity. Qed.

(** A failure of the executor in the second round: the result of the
    first round is returned. *)
Example later_executor_failure_returns_best :
  fst (run (failing_at 3) 3 w0) = Return first_result.
Proof. vm_compute. reflexivity. Qed.

(** An executor that generates the empty text: [ZeroDivisionError]. *)
Example empty_generation_raises :
  fst (run silent 3 w0) = Raise ZeroDivisionError.
Proof. vm_compute. reflexivity. Qed.

(** The service cannot be reached: the first executor call returns
    [None]. *)
Lemma first_executor_failure_raises_witness :
  fst (run unreachable 3 w0) = Raise TypeError.
Proof.
  apply (OptimizationLoop_facts.first_executor_failure_raises
           Json.json_loads unreachable ticking render cfg
           "Tell me about AI" 3 Scenario.threshold w0).
  - reflexivity.
  - reflexivity.
Defined.

(** The invariant on the result of the scenario's first call. *)
Lemma result_invariant_witness :
  (0 <= improvement_score first_result)%Q
  /\ (iterations (metadata first_result) = 0%Z ->
      optimized_prompt first_result = original_prompt first_result).
Proof.
  apply (OptimizationLoop_facts.result_invariant
           Json.json_loads stub ticking render cfg
           "Tell me about AI" 3 Scenario.threshold w0 w1 first_result).
  vm_compute. reflexivity.
Defined.

(** C6, counterexample.  The stub answers by the request alone, and two
    identical calls made one after the other return results that differ
    in [created_at]. *)
Lemma repeated_call_differs_in_time :
  deterministic stub
  /\ run stub 3 w0 = (Return first_result, w1)
  /\ run stub 3 w1 = (Return second_result, w2)
  /\ created_at first_result <> created_at second_result
  /\ first_result <> second_result.
Proof.
  split; [intros n m request; reflexivity|].
  split; [vm_compute; reflexivity|].
  split; [vm_compute; reflexivity|].
  split; [discriminate|discriminate].
Qed.

(** The two calls of the counterexample agree up to their time stamps. *)
Lemma repeated_call_agrees_up_to_time_witness :
  deterministic stub
  /\ agree same_up_to_time (fst (run stub 3 w0)) (fst (run stub 3 w1)).
Proof.
  split.
  - intros n m request. reflexivity.
  - apply (OptimizationLoop_facts.repeated_call_agrees_up_to_time
             Json.json_loads stub ticking render cfg).
    intros n m request. reflexivity.
Defined.

End Scenario_facts.

(** ** Properties of the benchmark harness *)

Module Harness_facts.
Import Py OllamaAPI Vocabulary.

Lemma for_each_total {A B} (f : A -> outcome B) (g : A -> B) (l : list A) :
  (forall x, In x l -> f x = Return (g x)) ->
  for_each f l = Return (map g l).
Proof.
  induction l as [|a l IH]; intros H; simpl; [reflexivity|].
  rewrite (H a (or_introl eq_refl)). simpl.
  rewrite IH; [reflexivity|]. intros x Hx. apply H. right. exact Hx.
Qed.

Lemma py_max_greatest (l : list Q) (x : Q) :
  AdvancedModelTester.py_max l = Return x -> greatest x l.
Proof.
  destruct l as [|a l]; simpl; [discriminate|].
  intros H. inversion H; subst x; clear H.
  assert (G : forall l m,
             let r := fold_left
                        (fun m y => if negb (Qle_bool y m) then y else m) l m in
             (r = m \/ In r l) /\ (m <= r)%Q /\ forall y, In y l -> (y <= r)%Q).
  { clear. induction l as [|b l IH]; intros m; simpl.
    - split; [left; reflexivity|]. split; [apply Qle_refl|]. intros y [].
    - destruct (Qle_bool b m) eqn:E; simpl.
      + destruct (IH m) as (Hin & Hm & Hall).
        split; [destruct Hin; auto|]. split; [exact Hm|].
        intros y [<-|Hy]; [|apply Hall; exact Hy].
        apply Qle_bool_iff in E. eapply Qle_trans; eassumption.
      + destruct (IH b) as (Hin & Hb & Hall).
        split; [destruct Hin; auto|].
        assert (Hmb : (m <= b)%Q).
        { apply Qlt_le_weak. apply Qnot_le_lt. intros Hle.
          apply Qle_bool_iff in Hle. congruence. }
        split; [eapply Qle_trans; eassumption|].
        intros y [<-|Hy]; [exact Hb|apply Hall; exact Hy]. }
  destruct (G l a) as (Hin & Ha & Hall). split.
  - destruct Hin as [->|Hin]; [left; reflexivity|right; exact Hin].
  - intros y [<-|Hy]; [exact Ha|apply Hall; exact Hy].
Qed.

Lemma py_min_least (l : list Q) (x : Q) :
  AdvancedModelTester.py_min l = Return x -> least x l.
Proof.
  destruct l as [|a l]; simpl; [discriminate|].
  intros H. inversion H; subst x; clear H.
  assert (G : forall l m,
             let r := fold_left
                        (fun m y => if negb (Qle_bool m y) then y else m) l m in
             (r = m \/ In r l) /\ (r <= m)%Q /\ forall y, In y l -> (r <= y)%Q).
  { clear. induction l as [|b l IH]; intros m; simpl.
    - split; [left; reflexivity|]. split; [apply Qle_refl|]. intros y [].
    - destruct (Qle_bool m b) eqn:E; simpl.
      + destruct (IH m) as (Hin & Hm & Hall).
        split; [destruct Hin; auto|]. split; [exact Hm|].
        intros y [<-|Hy]; [|apply Hall; exact Hy].
        apply Qle_bool_iff in E. eapply Qle_trans; eassumption.
      + destruct (IH b) as (Hin & Hb & Hall).
        split; [destruct Hin; auto|].
        assert (Hmb : (b <= m)%Q).
        { apply Qlt_le_weak. apply Qnot_le_lt. intros Hle.
          apply Qle_bool_iff in Hle. congruence. }
        split; [eapply Qle_trans; eassumption|].
        intros y [<-|Hy]; [exact Hb|apply Hall; exact Hy]. }
  destruct (G l a) as (Hin & Ha & Hall). split.
  - destruct Hin as [->|Hin]; [left; reflexivity|right; exact Hin].
  - intros y [<-|Hy]; [exact Ha|apply Hall; exact Hy].
Qed.

Lemma mean_average (l : list Q) :
  l <> [] -> AdvancedModelTester.mean l = Return (average l).
Proof. destruct l; [congruence|reflexivity]. Qed.

Lemma truediv_ratio (n d : nat) :
  d <> 0 -> truediv n d = Return (ratio n d).
Proof. destruct d; [congruence|reflexivity]. Qed.

Lemma filter_nonempty_length {A} (f : A -> bool) (l : list A) :
  filter f l <> [] -> List.length l <> 0.
Proof. destruct l; simpl; congruence. Qed.

Section Facts.

Variable loads : string -> outcome value.

Lemma for_each_In {A B} (f : A -> outcome B) (l : list A) :
  forall l', for_each f l = Return l' ->
  forall y, In y l' -> exists x, In x l /\ f x = Return y.
Proof.
  induction l as [|a l IH]; simpl; intros l' H y Hy.
  - inversion H; subst. destruct Hy.
  - destruct (f a) as [b|e] eqn:Ea; simpl in H; [|discriminate].
    destruct (for_each f l) as [bs|e] eqn:El; simpl in H; [|discriminate].
    inversion H; subst l'; clear H.
    destruct Hy as [<-|Hy].
    + exists a. split; [left; reflexivity|exact Ea].
    + destruct (IH bs eq_refl y Hy) as (x & Hx & Hf).
      exists x. split; [right; exact Hx|exact Hf].
Qed.

(** Every successful sample collected for a category carries metrics. *)
Lemma collected_scored (met : list (string * AdvancedModelTester.call))
  (results : list AdvancedModelTester.category_result)
  (c : AdvancedModelTester.category_result) :
  AdvancedModelTester.collect loads met = Return results ->
  In c (filter succeeded results) ->
  exists r m, c = AdvancedModelTester.Scored r m.
Proof.
  intros Hc H. apply filter_In in H. destruct H as [Hin Hs].
  destruct (for_each_In _ _ _ Hc c Hin) as ([prompt cl] & _ & Hf).
  simpl in Hf. unfold AdvancedModelTester.score_result in Hf.
  destruct (AdvancedModelTester.perform loads cl) as [resp t td ld pec ec|err t].
  - destruct (AdvancedModelTester.calculate_quality_metrics prompt resp)
      as [m|e]; simpl in Hf; [|discriminate].
    inversion Hf. eauto.
  - inversion Hf; subst c. discriminate.
Qed.

(** The parameter sweep aggregates in the same way, but records no entry
    at all for a parameter set none of whose samples succeeded. *)
Remark parameter_summary_without_success
  (results : list AdvancedModelTester.category_result) :
  filter succeeded results = [] ->
  AdvancedModelTester.parameter_summary results = Return None.
Proof.
  intros H. unfold AdvancedModelTester.parameter_summary.
  change (filter (fun r => AdvancedModelTester.success
                             (AdvancedModelTester.result_of r)) results)
    with (filter succeeded results).
  rewrite H. reflexivity.
Qed.

(** C9.  The summary of the samples collected for a category and the
    summary of a concurrent pairing are always produced, without a
    division by zero.  When no
    sample succeeded, the summary holds a success rate of zero and no
    other entry.  Otherwise the success rate is the share of successful
    samples among all samples, and every other entry is computed from
    the successful samples alone: the means of their latencies, lengths
    and quality scores, and the greatest and least of their total
    times. *)
Theorem summaries_over_successful_samples :
  (forall (met : list (string * AdvancedModelTester.call))
          (results : list AdvancedModelTester.category_result),
     AdvancedModelTester.collect loads met = Return results ->
     let successful := filter succeeded results in
     exists s,
       AdvancedModelTester.category_summary results = Return s
       /\ (successful = [] -> s = rate_only_category)
       /\ (successful <> [] ->
           AdvancedModelTester.cat_success_rate s
           = ratio (List.length successful) (List.length results)
           /\ AdvancedModelTester.avg_response_time s
              = Some (average (map time_of successful))
           /\ AdvancedModelTester.avg_response_length s
              = Some (average (map length_of successful))
           /\ AdvancedModelTester.avg_quality_score s
              = Some (average (map quality_of successful))))
  /\ (forall runs : list AdvancedModelTester.concurrent_run,
        let successful := filter AdvancedModelTester.both_successful runs in
        exists s,
          AdvancedModelTester.concurrent_summary runs = Return s
          /\ (successful = [] -> s = rate_only_concurrent)
          /\ (successful <> [] ->
              AdvancedModelTester.success_rate s
              = ratio (List.length successful) (List.length runs)
              /\ AdvancedModelTester.avg_total_time s
                 = Some (average (map AdvancedModelTester.total_time successful))
              /\ AdvancedModelTester.avg_model1_time s
                 = Some (average (map AdvancedModelTester.model1_time successful))
              /\ AdvancedModelTester.avg_model2_time s
                 = Some (average (map AdvancedModelTester.model2_time successful))
              /\ (exists x, AdvancedModelTester.max_total_time s = Some x
                            /\ greatest x (map AdvancedModelTester.total_time
                                             successful))
              /\ (exists x, AdvancedModelTester.min_total_time s = Some x
                            /\ least x (map AdvancedModelTester.total_time
                                          successful)))).
Proof.
  split.
  - intros met results Hcollect successful.
    unfold AdvancedModelTester.category_summary.
    change (filter (fun r => AdvancedModelTester.success
                               (AdvancedModelTester.result_of r)) results)
      with successful.
    pose proof (collected_scored met results) as Hscored.
    fold successful in Hscored.
    assert (Hsc : forall c, In c successful ->
                            exists r m, c = AdvancedModelTester.Scored r m).
    { intros c Hc. apply (Hscored c Hcollect Hc). }
    clear Hscored. rename Hsc into Hscored.
    destruct successful as [|c0 cs] eqn:E.
    + eexists. split; [reflexivity|]. split; [reflexivity|congruence].
    + rewrite <- E in *. assert (Hne : successful <> []) by congruence.
      rewrite (truediv_ratio (List.length successful) (List.length results))
        by (apply (filter_nonempty_length succeeded); exact Hne).
      cbn [bind].
      assert (Hmap : forall (B : Type) (f : _ -> B), map f successful <> []).
      { intros B f Hm. apply map_eq_nil in Hm. contradiction. }
      rewrite (mean_average _ (Hmap _ _)). cbn [bind].
      rewrite (for_each_total _ length_of successful).
      2:{ intros x Hx. destruct (Hscored x Hx) as (r & m & ->). reflexivity. }
      cbn [bind]. rewrite (mean_average _ (Hmap _ _)). cbn [bind].
      rewrite (for_each_total _ quality_of successful).
      2:{ intros x Hx. destruct (Hscored x Hx) as (r & m & ->). reflexivity. }
      cbn [bind]. rewrite (mean_average _ (Hmap _ _)). cbn [bind].
      eexists. split; [reflexivity|]. split; [congruence|].
      intros _. simpl. repeat split; reflexivity.
  - intros runs successful.
    unfold AdvancedModelTester.concurrent_summary. fold successful.
    destruct successful as [|c0 cs] eqn:E.
    + eexists. split; [reflexivity|]. split; [reflexivity|congruence].
    + rewrite <- E in *. assert (Hne : successful <> []) by congruence.
      rewrite (truediv_ratio (List.length successful) (List.length runs))
        by (apply (filter_nonempty_length AdvancedModelTester.both_successful);
            exact Hne).
      cbn [bind].
      assert (Hmap : forall (B : Type) (f : _ -> B), map f successful <> []).
      { intros B f Hm. apply map_eq_nil in Hm. contradiction. }
      rewrite !(mean_average _ (Hmap _ _)). cbn [bind].
      destruct (AdvancedModelTester.py_max
                  (map AdvancedModelTester.total_time successful))
        as [mx|e] eqn:Emax.
      2:{ rewrite E in Emax. discriminate. }
      destruct (AdvancedModelTester.py_min
                  (map AdvancedModelTester.total_time successful))
        as [mn|e] eqn:Emin.
      2:{ rewrite E in Emin. discriminate. }
      cbn [bind].
      eexists. split; [reflexivity|]. split; [congruence|].
      intros _. simpl. repeat split; try reflexivity.
      * exists mx. split; [reflexivity|apply py_max_greatest; exact Emax].
      * exists mn. split; [reflexivity|apply py_min_least; exact Emin].
Qed.

Lemma get_dict (d : list (string * value)) (k : string) (default : value) :
  get (VDict d) k default
  = Return (match assoc k d with Some x => x | None => default end).
Proof. unfold get. destruct (assoc k d); reflexivity. Qed.

Lemma int_overflows_0 : Float.int_overflows 0 = false.
Proof. vm_compute. reflexivity. Qed.

(** [x / 1e9] on an entry read with default [0]. *)
Lemma nanoseconds_numeric (o : option value) :
  match AdvancedModelTester.nanoseconds
          (match o with Some x => x | None => VInt 0 end) with
  | Return _ => numeric_or_absent o = true
  | Raise _ => numeric_or_absent o = false
  end.
Proof.
  unfold AdvancedModelTester.nanoseconds, AdvancedModelTester.to_number.
  destruct o as [v|].
  - destruct v as [| |z| | | |]; try reflexivity.
    cbn [numeric_or_absent]. destruct (Float.int_overflows z); reflexivity.
  - rewrite int_overflows_0. reflexivity.
Qed.


(** What a call of the harness records, case by case. *)
Lemma harness_record (c : AdvancedModelTester.call) :
  match AdvancedModelTester.posted c with
  | PostRaises e =>
      AdvancedModelTester.perform loads c
      = AdvancedModelTester.Failed (AdvancedModelTester.Exception e)
          (AdvancedModelTester.elapsed_in_handler c)
  | PostResponse status_code text =>
      if (status_code =? 200)%Z then
        match loads text with
        | Raise e =>
            AdvancedModelTester.perform loads c
            = AdvancedModelTester.Failed (AdvancedModelTester.Exception e)
                (AdvancedModelTester.elapsed_in_handler c)
        | Return (VDict d) =>
            if numeric_or_absent (assoc "total_duration" d)
               && numeric_or_absent (assoc "load_duration" d)
            then exists td ld,
                AdvancedModelTester.perform loads c
                = AdvancedModelTester.Succeeded
                    (match assoc "response" d with
                     | Some x => x
                     | None => VStr EmptyString
                     end)
                    (AdvancedModelTester.elapsed c) td ld
                    (match assoc "prompt_eval_count" d with
                     | Some x => x
                     | None => VInt 0
                     end)
                    (match assoc "eval_count" d with
                     | Some x => x
                     | None => VInt 0
                     end)
            else exists e,
                AdvancedModelTester.perform loads c
                = AdvancedModelTester.Failed (AdvancedModelTester.Exception e)
                    (AdvancedModelTester.elapsed_in_handler c)
        | Return _ =>
            AdvancedModelTester.perform loads c
            = AdvancedModelTester.Failed
                (AdvancedModelTester.Exception AttributeError)
                (AdvancedModelTester.elapsed_in_handler c)
        end
      else
        AdvancedModelTester.perform loads c
        = AdvancedModelTester.Failed (AdvancedModelTester.HttpStatus status_code)
            (AdvancedModelTester.elapsed c)
  end.
Proof.
  unfold AdvancedModelTester.perform, AdvancedModelTester.generate_response,
    AdvancedModelTester.generate_response_try.
  destruct (AdvancedModelTester.posted c) as [e|status_code text];
    [reflexivity|].
  destruct (status_code =? 200)%Z; [|reflexivity].
  destruct (loads text) as [data|e]; [|reflexivity].
  destruct data as [| | | | | |d]; try reflexivity.
  cbn [bind]. rewrite !get_dict. cbn [bind].
  pose proof (nanoseconds_numeric (assoc "total_duration" d)) as Ht.
  pose proof (nanoseconds_numeric (assoc "load_duration" d)) as Hl.
  destruct (AdvancedModelTester.nanoseconds
              match assoc "total_duration" d with
              | Some x => x
              | None => VInt 0
              end) as [td|e1]; rewrite Ht; cbn [bind andb]; [|eauto].
  destruct (AdvancedModelTester.nanoseconds
              match assoc "load_duration" d with
              | Some x => x
              | None => VInt 0
              end) as [ld|e2]; rewrite Hl; cbn [bind]; eauto.
Qed.

(** A call of the harness counts as successful exactly when the service
    answered 200 with a body that decodes to an object whose duration
    entries, when present, are numbers within the range of floats. *)
Lemma harness_success_exactly (c : AdvancedModelTester.call) :
  AdvancedModelTester.success (AdvancedModelTester.perform loads c) = true
  <-> exists text d,
        AdvancedModelTester.posted c = PostResponse 200 text
        /\ loads text = Return (VDict d)
        /\ numeric_or_absent (assoc "total_duration" d) = true
        /\ numeric_or_absent (assoc "load_duration" d) = true.
Proof.
  pose proof (harness_record c) as H.
  destruct (AdvancedModelTester.posted c) as [e|status_code text].
  - rewrite H. split; [discriminate|]. intros (t & d & E & _). discriminate.
  - destruct (Z.eqb_spec status_code 200) as [->|Hne].
    2:{ rewrite H. split; [discriminate|].
        intros (t & d & E & _). inversion E; subst. contradiction. }
    destruct (loads text) as [data|e] eqn:El.
    2:{ rewrite H. split; [discriminate|].
        intros (t & d & E & Hl & _). inversion E; subst. congruence. }
    destruct data as [| | | | | |d];
      try (rewrite H; split; [discriminate|];
           intros (t & d' & E & Hl & _); inversion E; subst; congruence).
    destruct (numeric_or_absent (assoc "total_duration" d)) eqn:Ht;
      destruct (numeric_or_absent (assoc "load_duration" d)) eqn:Hl;
      cbn [andb] in H.
    + destruct H as (td & ld & ->). split; [|reflexivity].
      intros _. exists text, d. auto.
    + destruct H as (e & ->). split; [discriminate|].
      intros (t & d' & E & El' & _ & Hl').
      inversion E; subst t. rewrite El in El'. inversion El'; subst d'.
      congruence.
    + destruct H as (e & ->). split; [discriminate|].
      intros (t & d' & E & El' & Ht' & _).
      inversion E; subst t. rewrite El in El'. inversion El'; subst d'.
      congruence.
    + destruct H as (e & ->). split; [discriminate|].
      intros (t & d' & E & El' & Ht' & _).
      inversion E; subst t. rewrite El in El'. inversion El'; subst d'.
      congruence.
Qed.





End Facts.

End Harness_facts.

(** ** The harness, run *)

Module Harness_runs.
Import Py Vocabulary Scenario.

(** A category with two successful samples out of three. *)
Example category_with_a_failure :
  exists results,
    AdvancedModelTester.test_model_category Json.json_loads
      [("Describe a futuristic city in vivid detail.", hedging_call);
       ("Create a poem about the ocean at sunset.", timed_out_call);
       ("Write a short story about a robot learning to paint.", fluent_call)]
    = Return (results,
              {| AdvancedModelTester.cat_success_rate := (2 # 3)%Q;
                 AdvancedModelTester.avg_response_time := Some (6 # 2)%Q;
                 AdvancedModelTester.avg_response_length := Some (85 # 2)%Q;
                 AdvancedModelTester.avg_quality_score
                 := Some (2910000 # 4500000)%Q |}).
Proof. eexists. vm_compute. reflexivity. Qed.

(** A category none of whose samples succeeded. *)
Example category_without_success :
  exists results,
    AdvancedModelTester.test_model_category Json.json_loads
      [("Describe a futuristic city in vivid detail.", refused_call);
       ("Create a poem about the ocean at sunset.", timed_out_call)]
    = Return (results, rate_only_category).
Proof. eexists. vm_compute. reflexivity. Qed.

(** A pairing in which the second model always fails. *)
Example pairing_with_a_failing_model :
  exists runs,
    AdvancedModelTester.test_concurrent_performance Json.json_loads
      [(hedging_call, timed_out_call, 120%Q);
       (fluent_call, refused_call, 4%Q)]
    = Return (runs, rate_only_concurrent)
    /\ map AdvancedModelTester.model1_success runs = [true; true]
    /\ map AdvancedModelTester.model2_success runs = [false; false]
    /\ map AdvancedModelTester.both_successful runs = [false; false].
Proof. eexists. vm_compute. repeat split. Qed.

(** The thread-based benchmark with one model that succeeds and one
    that fails, in either order of the two stores. *)
Example threads_with_a_failing_model (sched : ModelTester.schedule) :
  ModelTester.test_concurrent_models Json.json_loads sched
    (reply short_answer) (OllamaAPI.PostRaises Timeout) no_measurements
  = {| ModelTester.measured := no_measurements;
       ModelTester.model1_success := true;
       ModelTester.model2_success := false;
       ModelTester.overall_success := VBool false |}.
Proof. destruct sched; vm_compute; reflexivity. Qed.

End Harness_runs.

(** ** More on the generation client *)

Module Payload_facts.
Import Py OllamaAPI Vocabulary.

Lemma assoc_dict_set (k k' : string) (v : value) (d : list (string * value)) :
  assoc k (dict_set k' v d) = if String.eqb k k' then Some v else assoc k d.
Proof.
  induction d as [|[k0 v0] d IH]; simpl.
  - destruct (String.eqb k k'); reflexivity.
  - destruct (String.eqb_spec k' k0) as [->|Hne]; simpl.
    + destruct (String.eqb k k0); reflexivity.
    + rewrite IH.
      destruct (String.eqb_spec k k0) as [->|Hk]; [|reflexivity].
      destruct (String.eqb_spec k0 k') as [E|_]; [congruence|reflexivity].
Qed.

Lemma assoc_absent (k : string) (d : list (string * value)) :
  ~ In k (map fst d) -> assoc k d = None.
Proof.
  induction d as [|[k0 v0] d IH]; simpl; intros H; [reflexivity|].
  destruct (String.eqb_spec k k0) as [->|_]; [tauto|].
  apply IH. tauto.
Qed.

(** Merging a dictionary into another, entry by entry. *)
Lemma assoc_merged (k : string) (d : list (string * value)) :
  NoDup (map fst d) ->
  forall acc,
    assoc k (fold_left (fun acc kv => dict_set (fst kv) (snd kv) acc) d acc)
    = match assoc k d with
      | Some v => Some v
      | None => assoc k acc
      end.
Proof.
  induction d as [|[k0 v0] d IH]; simpl; intros Hnd acc; [reflexivity|].
  inversion Hnd as [|? ? Hnot Hrest]; subst.
  rewrite (IH Hrest). rewrite assoc_dict_set.
  destruct (String.eqb_spec k k0) as [->|_]; [|reflexivity].
  rewrite (assoc_absent k0 d Hnot). reflexivity.
Qed.

(** X1.  The caller's parameters are merged over the three default
    entries of the payload: every key of [params] is sent with the
    caller's value, even [model], [prompt] and [stream], and every other
    key keeps its default.  Without parameters the payload holds the
    defaults alone, and parameters that are not a mapping make the
    payload fail with [TypeError]. *)
Theorem payload_params_override
  (model : string) (prompt : value) (d : list (string * value)) :
  NoDup (map fst d) ->
  (exists p,
     payload model prompt (VDict d) = Return (VDict p)
     /\ forall k,
          assoc k p = match assoc k d with
                      | Some v => Some v
                      | None => assoc k (default_entries model prompt)
                      end)
  /\ payload model prompt VNone = Return (VDict (default_entries model prompt))
  /\ (forall l, l <> [] -> payload model prompt (VList l) = Raise TypeError)
  /\ (forall t, t <> EmptyString ->
        payload model prompt (VStr t) = Raise TypeError).
Proof.
  intros Hnd. split; [|split; [|split]].
  - unfold payload. destruct d as [|kv d'].
    + simpl. eexists. split; [reflexivity|]. intros k. reflexivity.
    + cbn [truthy]. eexists. split; [reflexivity|].
      intros k. apply (assoc_merged k (kv :: d') Hnd).
  - reflexivity.
  - intros [|x l] H; [congruence|reflexivity].
  - intros [|c t] H; [congruence|reflexivity].
Qed.

(** Parameters that turn streaming on and set a temperature. *)
Lemma payload_params_override_witness :
  payload "mistral:7b" (VStr "Tell me about AI")
    (VDict [("temperature", VFloat (7 # 10)); ("stream", VBool true)])
  = Return (VDict [("model", VStr "mistral:7b");
                   ("prompt", VStr "Tell me about AI");
                   ("stream", VBool true);
                   ("temperature", VFloat (7 # 10))])
  /\ exists p,
       payload "mistral:7b" (VStr "Tell me about AI")
         (VDict [("temperature", VFloat (7 # 10)); ("stream", VBool true)])
       = Return (VDict p)
       /\ forall k,
            assoc k p
            = match assoc k [("temperature", VFloat (7 # 10));
                             ("stream", VBool true)] with
              | Some v => Some v
              | None => assoc k (default_entries "mistral:7b"
                                   (VStr "Tell me about AI"))
              end.
Proof.
  split; [reflexivity|].
  apply (payload_params_override "mistral:7b" (VStr "Tell me about AI")
           [("temperature", VFloat (7 # 10)); ("stream", VBool true)]).
  repeat constructor; simpl; intuition discriminate.
Defined.

End Payload_facts.

(** ** Task detection *)

Module PromptEngineer_facts.
Import Py PromptEngineer.

Lemma lower_app (a b : string) : lower (a ++ b) = lower a ++ lower b.
Proof.
  induction a as [|c a IH]; simpl; [reflexivity|]. rewrite IH. reflexivity.
Qed.

Lemma prefix_app (p y : string) : String.prefix p (p ++ y) = true.
Proof.
  induction p as [|c p IH]; simpl.
  - destruct y; reflexivity.
  - destruct (ascii_dec c c) as [_|H]; [exact IH|congruence].
Qed.

Lemma contains_prefix (sub s : string) :
  String.prefix sub s = true -> contains sub s = true.
Proof. intros H. destruct s; simpl; simpl in H; rewrite H; reflexivity. Qed.

Lemma contains_app (sub x y : string) : contains sub (x ++ sub ++ y) = true.
Proof.
  induction x as [|c x IH].
  - simpl. apply contains_prefix. apply prefix_app.
  - change ((String c x) ++ sub ++ y) with (String c (x ++ sub ++ y)).
    cbn [contains]. rewrite IH.
    destruct (String.prefix sub (String c (x ++ sub ++ y))); reflexivity.
Qed.

Lemma first_match_range (prompt_lower : string)
  (table : list (string * list string)) :
  first_match prompt_lower table = "general"
  \/ In (first_match prompt_lower table) (map fst table).
Proof.
  induction table as [|[t ps] table IH]; simpl; [left; reflexivity|].
  destruct (matches prompt_lower ps); [right; left; reflexivity|].
  destruct IH as [IH|IH]; [left; exact IH|right; right; exact IH].
Qed.

(** X2.  The general patterns are tried first: a prompt in which
    ["what is"], ["tell me about"] or ["explain"] occurs, in any letter
    case and whatever surrounds it, is classified as general, even when
    patterns of other task types occur too.  The detected type is always
    one of the four task types of the table. *)
Theorem general_patterns_dominate :
  (forall (a w b pattern : string),
      In pattern ["what is"; "tell me about"; "explain"] ->
      lower w = pattern ->
      detect_task_type (a ++ w ++ b) = "general")
  /\ (forall prompt,
        In (detect_task_type prompt)
           ["general"; "technical"; "creative"; "analytical"]).
Proof.
  split.
  - intros a w b pattern Hin Hw. unfold detect_task_type.
    rewrite !lower_app, Hw.
    assert (Hm : matches (lower a ++ pattern ++ lower b)
                   ["what is"; "tell me about"; "explain"] = true).
    { unfold matches. apply existsb_exists. exists pattern.
      split; [exact Hin|apply contains_app]. }
    unfold task_patterns. cbn [first_match]. rewrite Hm. reflexivity.
  - intros prompt. unfold detect_task_type.
    destruct (first_match_range (lower prompt) task_patterns) as [H|H].
    + rewrite H. left. reflexivity.
    + exact H.
Qed.

(** The prompts of the repository's unit test, and a prompt in which a
    general pattern wins over two creative ones. *)
Example detect_task_type_examples :
  detect_task_type "What is machine learning" = "general"
  /\ detect_task_type "Write a story about space" = "creative"
  /\ detect_task_type "Compare neural networks" = "analytical"
  /\ detect_task_type "Implement a sorting algorithm" = "technical"
  /\ detect_task_type "EXPLAIN how to write a story" = "general"
  /\ detect_task_type EmptyString = "general".
Proof. vm_compute. repeat split. Qed.

End PromptEngineer_facts.

(** ** The quality metrics *)

Module Quality_facts.
Import Py AdvancedModelTester.

Lemma words_from_le (s : string) :
  forall inside, words_from inside s <= String.length s.
Proof.
  induction s as [|c s IH]; intros inside; simpl; [lia|].
  destruct (isspace c).
  - specialize (IH false). lia.
  - destruct inside; specialize (IH true); lia.
Qed.

Lemma Qle_bool_false (a b : Q) : Qle_bool a b = false -> (b < a)%Q.
Proof.
  intros E. apply Qnot_le_lt. intros H. apply Qle_bool_iff in H. congruence.
Qed.

Lemma clamped (q : Q) : (0 <= max2 0 (min2 1 q) <= 1)%Q.
Proof.
  unfold max2, min2.
  destruct (Qle_bool 1 q) eqn:E1; cbn [negb].
  - change (Qle_bool 1 0) with false. cbn [negb]. split; lra.
  - apply Qle_bool_false in E1.
    destruct (Qle_bool q 0) eqn:E2; cbn [negb].
    + split; lra.
    + apply Qle_bool_false in E2. split; lra.
Qed.

(** X3.  For every response that is a string the quality metrics are
    computed: the length is the number of characters, the word count
    does not exceed it, and the quality score lies between 0 and 1.  A
    response that is not a string makes the computation raise:
    [AttributeError] for a list or a dictionary, [TypeError] for [None],
    a number or a boolean. *)
Theorem quality_metrics_range (prompt : string) :
  (forall text : string,
      exists m,
        calculate_quality_metrics prompt (VStr text) = Return m
        /\ response_length m = String.length text
        /\ word_count m <= String.length text
        /\ (0 <= quality_score m <= 1)%Q)
  /\ (forall l, calculate_quality_metrics prompt (VList l) = Raise AttributeError)
  /\ (forall d, calculate_quality_metrics prompt (VDict d) = Raise AttributeError)
  /\ calculate_quality_metrics prompt VNone = Raise TypeError
  /\ (forall z, calculate_quality_metrics prompt (VInt z) = Raise TypeError)
  /\ (forall q, calculate_quality_metrics prompt (VFloat q) = Raise TypeError)
  /\ (forall b, calculate_quality_metrics prompt (VBool b) = Raise TypeError).
Proof.
  split; [|repeat split].
  intros text. unfold calculate_quality_metrics. cbn [len bind].
  eexists. split; [reflexivity|]. cbn [response_length word_count quality_score].
  split; [reflexivity|]. split; [apply words_from_le|apply clamped].
Qed.

(** A response that hedges twice in six words. *)
Example hedging_response_metrics :
  calculate_quality_metrics "How do you troubleshoot a computer that won't start?"
    (VStr "It is unclear, I don't know.")
  = Return {| response_length := 28;
              word_count := 6;
              quality_score := (860 # 1500)%Q |}.
Proof. vm_compute. reflexivity. Qed.

End Quality_facts.

(** ** More on the benchmark harness *)

Module Harness_more_facts.
Import Py OllamaAPI Vocabulary.

Lemma length_app_string (a b : string) :
  String.length (a ++ b) = String.length a + String.length b.
Proof. induction a as [|c a IH]; simpl; [reflexivity|]. rewrite IH. reflexivity. Qed.

Lemma length_substring_le (n : nat) :
  forall s, String.length (String.substring 0 n s) <= n.
Proof.
  induction n as [|n IH]; intros s.
  - destruct s; simpl; lia.
  - destruct s as [|c s]; simpl; [lia|]. specialize (IH s). lia.
Qed.

Lemma ratio_bounds (a b : nat) : a <= b -> b <> 0 -> (0 <= ratio a b <= 1)%Q.
Proof.
  intros Hab Hb. unfold ratio.
  assert (Hpos : (0 < inject_Z (Z.of_nat b))%Q).
  { change 0%Q with (inject_Z 0). rewrite <- Zlt_Qlt. lia. }
  split.
  - apply Qle_shift_div_l; [exact Hpos|].
    rewrite Qmult_0_l. change 0%Q with (inject_Z 0). rewrite <- Zle_Qle. lia.
  - apply Qle_shift_div_r; [exact Hpos|].
    rewrite Qmult_1_l. rewrite <- Zle_Qle. lia.
Qed.

Lemma inject_succ (n : nat) :
  (inject_Z (Z.of_nat (S n)) == inject_Z (Z.of_nat n) + 1)%Q.
Proof.
  rewrite Nat2Z.inj_succ. unfold Z.succ. rewrite inject_Z_plus. reflexivity.
Qed.

Lemma sum_lower (lo : Q) (l : list Q) :
  (forall y, In y l -> (lo <= y)%Q) ->
  forall acc,
    (acc + inject_Z (Z.of_nat (List.length l)) * lo <= fold_left Qplus l acc)%Q.
Proof.
  induction l as [|a l IH]; intros H acc; simpl fold_left.
  - change (inject_Z (Z.of_nat (List.length (@nil Q)))) with 0%Q. lra.
  - assert (Ha : (lo <= a)%Q) by (apply H; left; reflexivity).
    assert (Hl : forall y, In y l -> (lo <= y)%Q)
      by (intros y Hy; apply H; right; exact Hy).
    specialize (IH Hl (acc + a)%Q).
    change (List.length (a :: l)) with (S (List.length l)).
    rewrite inject_succ.
    setoid_replace ((inject_Z (Z.of_nat (List.length l)) + 1) * lo)%Q
      with (inject_Z (Z.of_nat (List.length l)) * lo + lo)%Q by ring.
    set (P := (inject_Z (Z.of_nat (List.length l)) * lo)%Q) in *. lra.
Qed.

Lemma sum_upper (hi : Q) (l : list Q) :
  (forall y, In y l -> (y <= hi)%Q) ->
  forall acc,
    (fold_left Qplus l acc <= acc + inject_Z (Z.of_nat (List.length l)) * hi)%Q.
Proof.
  induction l as [|a l IH]; intros H acc; simpl fold_left.
  - change (inject_Z (Z.of_nat (List.length (@nil Q)))) with 0%Q. lra.
  - assert (Ha : (a <= hi)%Q) by (apply H; left; reflexivity).
    assert (Hl : forall y, In y l -> (y <= hi)%Q)
      by (intros y Hy; apply H; right; exact Hy).
    specialize (IH Hl (acc + a)%Q).
    change (List.length (a :: l)) with (S (List.length l)).
    rewrite inject_succ.
    setoid_replace ((inject_Z (Z.of_nat (List.length l)) + 1) * hi)%Q
      with (inject_Z (Z.of_nat (List.length l)) * hi + hi)%Q by ring.
    set (P := (inject_Z (Z.of_nat (List.length l)) * hi)%Q) in *. lra.
Qed.

(** The mean of a non-empty list lies between any lower and any upper
    bound of its elements. *)
Lemma average_between (lo hi : Q) (l : list Q) :
  l <> [] ->
  (forall y, In y l -> (lo <= y)%Q) ->
  (forall y, In y l -> (y <= hi)%Q) ->
  (lo <= average l <= hi)%Q.
Proof.
  intros Hne Hlo Hhi. unfold average.
  assert (Hpos : (0 < inject_Z (Z.of_nat (List.length l)))%Q).
  { change 0%Q with (inject_Z 0). rewrite <- Zlt_Qlt.
    destruct l; [congruence|simpl; lia]. }
  pose proof (sum_lower lo l Hlo 0%Q) as H1.
  pose proof (sum_upper hi l Hhi 0%Q) as H2.
  split.
  - apply Qle_shift_div_l; [exact Hpos|]. lra.
  - apply Qle_shift_div_r; [exact Hpos|]. lra.
Qed.

(** X4.  The success rate of a category summary and of a concurrent
    summary lies between 0 and 1, and in a concurrent summary that
    reports them the mean total time lies between the least and the
    greatest total time. *)
Theorem summary_bounds :
  (forall (runs : list AdvancedModelTester.concurrent_run)
          (s : AdvancedModelTester.ConcurrentSummary),
      AdvancedModelTester.concurrent_summary runs = Return s ->
      (0 <= AdvancedModelTester.success_rate s <= 1)%Q
      /\ forall mn av mx,
           AdvancedModelTester.min_total_time s = Some mn ->
           AdvancedModelTester.avg_total_time s = Some av ->
           AdvancedModelTester.max_total_time s = Some mx ->
           (mn <= av <= mx)%Q)
  /\ (forall (results : list AdvancedModelTester.category_result)
             (s : AdvancedModelTester.CategorySummary),
        AdvancedModelTester.category_summary results = Return s ->
        (0 <= AdvancedModelTester.cat_success_rate s <= 1)%Q).
Proof.
  split.
  - intros runs s H. unfold AdvancedModelTester.concurrent_summary in H.
    set (successful := filter AdvancedModelTester.both_successful runs) in *.
    destruct successful as [|c0 cs] eqn:E.
    + inversion H; subst s; simpl. split; [lra|]. intros; discriminate.
    + rewrite <- E in *. assert (Hne : successful <> []) by congruence.
      assert (Hlen : List.length runs <> 0)
        by (apply (Harness_facts.filter_nonempty_length
                     AdvancedModelTester.both_successful); exact Hne).
      rewrite (Harness_facts.truediv_ratio _ _ Hlen) in H. cbn [bind] in H.
      assert (Hmap : map AdvancedModelTester.total_time successful <> []).
      { intros Hm. apply map_eq_nil in Hm. contradiction. }
      rewrite (Harness_facts.mean_average _ Hmap) in H. cbn [bind] in H.
      destruct (AdvancedModelTester.mean
                  (map AdvancedModelTester.model1_time successful))
        as [a1|e]; cbn [bind] in H; [|discriminate].
      destruct (AdvancedModelTester.mean
                  (map AdvancedModelTester.model2_time successful))
        as [a2|e]; cbn [bind] in H; [|discriminate].
      destruct (AdvancedModelTester.py_max
                  (map AdvancedModelTester.total_time successful))
        as [mx'|e] eqn:Emax; cbn [bind] in H; [|discriminate].
      destruct (AdvancedModelTester.py_min
                  (map AdvancedModelTester.total_time successful))
        as [mn'|e] eqn:Emin; cbn [bind] in H; [|discriminate].
      inversion H; subst s; simpl. split.
      * apply ratio_bounds; [apply filter_length_le|exact Hlen].
      * intros mn av mx Hmn Hav Hmx.
        inversion Hmn; inversion Hav; inversion Hmx; subst.
        destruct (Harness_facts.py_max_greatest _ _ Emax) as [_ Hg].
        destruct (Harness_facts.py_min_least _ _ Emin) as [_ Hl].
        apply average_between; assumption.
  - intros results s H. unfold AdvancedModelTester.category_summary in H.
    set (successful := filter (fun r => AdvancedModelTester.success
                                          (AdvancedModelTester.result_of r))
                              results) in *.
    destruct successful as [|c0 cs] eqn:E.
    + inversion H; subst s; simpl. lra.
    + rewrite <- E in *. assert (Hne : successful <> []) by congruence.
      assert (Hlen : List.length results <> 0)
        by (apply (Harness_facts.filter_nonempty_length
                     (fun r => AdvancedModelTester.success
                                 (AdvancedModelTester.result_of r)));
            exact Hne).
      rewrite (Harness_facts.truediv_ratio _ _ Hlen) in H. cbn [bind] in H.
      repeat match type of H with
             | bind ?m _ = Return _ =>
                 destruct m; cbn [bind] in H; [|discriminate]
             end.
      inversion H; subst s; simpl.
      apply ratio_bounds; [apply filter_length_le|exact Hlen].
Qed.

Section Facts.

Variable loads : string -> outcome value.

(** X5.  A call of the harness is recorded as successful exactly when
    the service answered 200 with a body that decodes to an object whose
    [total_duration] and [load_duration] entries, when present, are
    numbers within the range of floats.  The successful record carries
    the [response] entry of the reply (the empty text when absent), the
    time measured before decoding, and the two counts (zero when
    absent).  A reply of another status is recorded as a failure with
    that status and the same time; an exception of the request or of
    the decoder is recorded as a failure with the exception and the time
    read in the handler. *)
Theorem harness_success_iff (c : AdvancedModelTester.call) :
  (AdvancedModelTester.success (AdvancedModelTester.perform loads c) = true
   <-> exists text d,
         AdvancedModelTester.posted c = PostResponse 200 text
         /\ loads text = Return (VDict d)
         /\ numeric_or_absent (assoc "total_duration" d) = true
         /\ numeric_or_absent (assoc "load_duration" d) = true)
  /\ (forall text d,
        AdvancedModelTester.posted c = PostResponse 200 text ->
        loads text = Return (VDict d) ->
        numeric_or_absent (assoc "total_duration" d) = true ->
        numeric_or_absent (assoc "load_duration" d) = true ->
        exists td ld,
          AdvancedModelTester.perform loads c
          = AdvancedModelTester.Succeeded
              (match assoc "response" d with
               | Some x => x
               | None => VStr EmptyString
               end)
              (AdvancedModelTester.elapsed c) td ld
              (match assoc "prompt_eval_count" d with
               | Some x => x
               | None => VInt 0
               end)
              (match assoc "eval_count" d with
               | Some x => x
               | None => VInt 0
               end))
  /\ (forall status_code text,
        AdvancedModelTester.posted c = PostResponse status_code text ->
        status_code <> 200%Z ->
        AdvancedModelTester.perform loads c
        = AdvancedModelTester.Failed (AdvancedModelTester.HttpStatus status_code)
            (AdvancedModelTester.elapsed c))
  /\ (forall e,
        AdvancedModelTester.posted c = PostRaises e ->
        AdvancedModelTester.perform loads c
        = AdvancedModelTester.Failed (AdvancedModelTester.Exception e)
            (AdvancedModelTester.elapsed_in_handler c))
  /\ (forall text e,
        AdvancedModelTester.posted c = PostResponse 200 text ->
        loads text = Raise e ->
        AdvancedModelTester.perform loads c
        = AdvancedModelTester.Failed (AdvancedModelTester.Exception e)
            (AdvancedModelTester.elapsed_in_handler c)).
Proof.
  pose proof (Harness_facts.harness_record loads c) as H.
  split; [apply Harness_facts.harness_success_exactly|].
  split; [|split; [|split]].
  - intros text d E El Ht Hl. rewrite E in H. cbn [Z.eqb Pos.eqb] in H.
    rewrite El, Ht, Hl in H. exact H.
  - intros status_code text E Hne. rewrite E in H.
    destruct (Z.eqb_spec status_code 200) as [->|_]; [contradiction|].
    exact H.
  - intros e E. rewrite E in H. exact H.
  - intros text e E El. rewrite E in H. cbn [Z.eqb Pos.eqb] in H.
    rewrite El in H. exact H.
Qed.

End Facts.

End Harness_more_facts.

(** ** The parameter sweep *)

Module Parameter_facts.
Import Py OllamaAPI Vocabulary.

Section Facts.

Variable loads : string -> outcome value.

Lemma metrics_need_text (prompt : string) (response : value)
  (m : AdvancedModelTester.quality_metrics) :
  AdvancedModelTester.calculate_quality_metrics prompt response = Return m ->
  exists text, response = VStr text.
Proof.
  unfold AdvancedModelTester.calculate_quality_metrics.
  destruct response; simpl; try discriminate. eauto.
Qed.

(** Every successful sample that was scored holds a string. *)
Lemma collected_text (met : list (string * AdvancedModelTester.call))
  (results : list AdvancedModelTester.category_result)
  (c : AdvancedModelTester.category_result) :
  AdvancedModelTester.collect loads met = Return results ->
  In c (filter succeeded results) ->
  exists text t td ld pec ec m,
    c = AdvancedModelTester.Scored
          (AdvancedModelTester.Succeeded (VStr text) t td ld pec ec) m.
Proof.
  intros Hc H. apply filter_In in H. destruct H as [Hin Hs].
  destruct (Harness_facts.for_each_In _ _ _ Hc c Hin) as ([prompt cl] & _ & Hf).
  simpl in Hf. unfold AdvancedModelTester.score_result in Hf.
  destruct (AdvancedModelTester.perform loads cl) as [resp t td ld pec ec|err t].
  - destruct (AdvancedModelTester.calculate_quality_metrics prompt resp)
      as [m|e] eqn:Em; simpl in Hf; [|discriminate].
    destruct (metrics_need_text _ _ _ Em) as [text ->].
    inversion Hf. eauto 10.
  - inversion Hf; subst c. discriminate.
Qed.

(** X6.  For the samples of one parameter set, scored as lines 236-240
    score them, the sweep records an entry exactly when at least one
    sample succeeded.  The entry holds the share of successful samples,
    the means of the latencies, quality scores and lengths of the
    successful samples alone, and a sample response of at most 203
    characters. *)
Theorem parameter_entry
  (met : list (string * AdvancedModelTester.call))
  (results : list AdvancedModelTester.category_result) :
  AdvancedModelTester.collect loads met = Return results ->
  let successful := filter succeeded results in
  exists entry,
    AdvancedModelTester.parameter_summary results = Return entry
    /\ (successful = [] -> entry = None)
    /\ (successful <> [] ->
        exists s,
          entry = Some s
          /\ AdvancedModelTester.par_success_rate s
             = ratio (List.length successful) (List.length results)
          /\ AdvancedModelTester.par_avg_response_time s
             = average (map time_of successful)
          /\ AdvancedModelTester.par_avg_quality s
             = average (map quality_of successful)
          /\ AdvancedModelTester.par_avg_length s
             = average (map length_of successful)
          /\ String.length (AdvancedModelTester.sample_response s) <= 203).
Proof.
  intros Hcollect successful.
  unfold AdvancedModelTester.parameter_summary.
  change (filter (fun r => AdvancedModelTester.success
                             (AdvancedModelTester.result_of r)) results)
    with successful.
  assert (Htext : forall c, In c successful ->
            exists text t td ld pec ec m,
              c = AdvancedModelTester.Scored
                    (AdvancedModelTester.Succeeded (VStr text) t td ld pec ec) m).
  { intros c Hc. apply (collected_text met results c Hcollect Hc). }
  destruct successful as [|c0 cs] eqn:E.
  - eexists. split; [reflexivity|]. split; [reflexivity|congruence].
  - rewrite <- E in *. assert (Hne : successful <> []) by congruence.
    rewrite (Harness_facts.truediv_ratio
               (List.length successful) (List.length results))
      by (apply (Harness_facts.filter_nonempty_length succeeded); exact Hne).
    cbn [bind].
    assert (Hmap : forall (B : Type) (f : _ -> B), map f successful <> []).
    { intros B f Hm. apply map_eq_nil in Hm. contradiction. }
    rewrite (Harness_facts.mean_average _ (Hmap _ _)). cbn [bind].
    rewrite (Harness_facts.for_each_total _ quality_of successful).
    2:{ intros x Hx.
        destruct (Htext x Hx) as (text & t & td & ld & pec & ec & m & ->).
        reflexivity. }
    cbn [bind]. rewrite (Harness_facts.mean_average _ (Hmap _ _)). cbn [bind].
    rewrite (Harness_facts.for_each_total _ length_of successful).
    2:{ intros x Hx.
        destruct (Htext x Hx) as (text & t & td & ld & pec & ec & m & ->).
        reflexivity. }
    cbn [bind]. rewrite (Harness_facts.mean_average _ (Hmap _ _)). cbn [bind].
    assert (H0 : In c0 successful) by (rewrite E; left; reflexivity).
    destruct (Htext c0 H0) as (text & t & td & ld & pec & ec & m & ->).
    cbn [AdvancedModelTester.sample_of AdvancedModelTester.result_of bind].
    eexists. split; [reflexivity|]. split; [congruence|].
    intros _. eexists. split; [reflexivity|]. simpl.
    repeat split; try reflexivity.
    rewrite Harness_more_facts.length_app_string.
    pose proof (Harness_more_facts.length_substring_le 200 text). simpl. lia.
Qed.

End Facts.

(** A parameter set with one successful sample out of three. *)
Lemma parameter_entry_witness :
  exists results entry s,
    AdvancedModelTester.collect Json.json_loads
      [("Explain the concept of machine learning.", Scenario.refused_call);
       ("Explain the concept of machine learning.", Scenario.fluent_call);
       ("Explain the concept of machine learning.", Scenario.timed_out_call)]
    = Return results
    /\ AdvancedModelTester.parameter_summary results = Return entry
    /\ entry = Some s
    /\ AdvancedModelTester.par_success_rate s = ratio 1 3
    /\ String.length (AdvancedModelTester.sample_response s) <= 203.
Proof.
  eexists.
  destruct (parameter_entry Json.json_loads
              [("Explain the concept of machine learning.", Scenario.refused_call);
               ("Explain the concept of machine learning.", Scenario.fluent_call);
               ("Explain the concept of machine learning.", Scenario.timed_out_call)]
              _ ltac:(vm_compute; reflexivity))
    as (entry & He & _ & Hsome).
  destruct Hsome as (s & Hs & Hrate & _ & _ & _ & Hlen).
  { vm_compute. discriminate. }
  exists entry, s.
  split; [vm_compute; reflexivity|].
  split; [exact He|]. split; [exact Hs|]. split; [exact Hrate|exact Hlen].
Defined.

End Parameter_facts.

(** ** Model loading *)

Module ModelLoading_facts.
Import Py OllamaAPI ModelLoading.


Section Facts.

Variable loads : string -> outcome value.


End Facts.

(** A long answer is cut to 100 characters and three dots; a refusal is
    reported without failing. *)
Example loading_examples (m : readings) :
  (exists lt g r tg tr smp,
     test_model_loading Json.json_loads
       (Scenario.reply (Scenario.long_answer ++ Scenario.long_answer)) m
     = Loaded true lt g r tg tr 114 (VStr smp)
     /\ String.length smp = 103)
  /\ exists lt g r tg tr,
       test_model_loading Json.json_loads (PostResponse 503 "busy") m
       = Loaded false lt g r tg tr 10 (VStr "Error: 503").
Proof.
  split.
  - do 6 eexists. split; [vm_compute; reflexivity|reflexivity].
  - do 5 eexists. vm_compute. reflexivity.
Qed.

End ModelLoading_facts.

(** ** The performance monitor *)

Module Monitor_facts.
Import Py Vocabulary PerformanceMonitor.

Lemma log_optimization_counts (gpu : option gpu_probe)
  (result : option OptimizationLoop.OptimizationResult) (s : stats) :
  optimization_success (log_optimization gpu result s)
  = optimization_success s + (if improved result then 1 else 0)
  /\ optimization_failure (log_optimization gpu result s)
     = optimization_failure s + (if improved result then 0 else 1).
Proof.
  unfold log_optimization, improved. destruct result as [r|]; simpl.
  - destruct (OptimizationLoop.gt (OptimizationLoop.improvement_score r) 0);
      simpl; lia.
  - lia.
Qed.

Lemma log_all_counts events :
  forall s,
    optimization_success (log_all events s)
    = optimization_success s + List.length (filter improved (map snd events))
    /\ optimization_failure (log_all events s)
       = optimization_failure s
         + (List.length events - List.length (filter improved (map snd events))).
Proof.
  induction events as [|[gpu result] events IH]; intros s; cbn -[Nat.sub].
  - lia.
  - unfold log_all in *. cbn -[Nat.sub].
    destruct (IH (log_optimization gpu result s)) as [H1 H2].
    destruct (log_optimization_counts gpu result s) as [C1 C2].
    rewrite H1, H2, C1, C2.
    pose proof (filter_length_le improved (map snd events)) as Hle.
    rewrite length_map in Hle.
    destruct (improved result); cbn -[Nat.sub]; lia.
Qed.

(** The summary can always be computed. *)
Lemma get_summary_rate (gpu_available : bool) (s : stats) :
  exists sm,
    get_summary gpu_available s = Return sm
    /\ success_rate sm
       = match optimization_success s + optimization_failure s with
         | O => 0%Q
         | S _ => ratio (optimization_success s)
                        (optimization_success s + optimization_failure s)
         end.
Proof.
  unfold get_summary.
  assert (Hart : exists art,
             match response_times s with
             | [] => Return 0%Q
             | _ :: _ => sum_over_len (response_times s)
             end = Return art).
  { destruct (response_times s); simpl; eauto. }
  destruct Hart as [art ->]. cbn [bind].
  assert (Hmmu : exists mmu,
             match memory_usage s with
             | [] => Return 0%Z
             | _ :: _ => max_int (memory_usage s)
             end = Return mmu).
  { destruct (memory_usage s); simpl; eauto. }
  destruct Hmmu as [mmu ->]. cbn [bind].
  destruct (optimization_success s + optimization_failure s) as [|n] eqn:En;
    simpl Nat.ltb; cbn [truediv bind];
    destruct gpu_available, (gpu_usage s); simpl; eauto.
Qed.

(** X8.  After any sequence of calls of [log_optimization] on a fresh
    monitor, the two counters add up to the number of calls, and the
    success counter is the number of results logged with a positive
    score ([None] and a zero-score result count as failures).  The
    summary is then always produced, and its success rate is the share
    of successes among the calls, between 0 and 1, or 0 when nothing was
    logged. *)
Theorem monitor_counts_and_rate
  (events : list (option gpu_probe * option OptimizationLoop.OptimizationResult))
  (gpu_available : bool) :
  let s := log_all events initial in
  let successes := List.length (filter improved (map snd events)) in
  optimization_success s = successes
  /\ optimization_success s + optimization_failure s = List.length events
  /\ exists sm,
       get_summary gpu_available s = Return sm
       /\ success_rate sm
          = match events with
            | [] => 0%Q
            | _ :: _ => ratio successes (List.length events)
            end
       /\ (0 <= success_rate sm <= 1)%Q.
Proof.
  intros s successes.
  destruct (log_all_counts events initial) as [H1 H2].
  fold s in H1, H2. fold successes in H1, H2. simpl in H1, H2.
  pose proof (filter_length_le improved (map snd events)) as Hle.
  rewrite length_map in Hle. fold successes in Hle.
  assert (Hsum : optimization_success s + optimization_failure s
                 = List.length events) by lia.
  split; [exact H1|]. split; [exact Hsum|].
  destruct (get_summary_rate gpu_available s) as (sm & Hsm & Hrate).
  exists sm. split; [exact Hsm|].
  rewrite Hsum, H1 in Hrate.
  destruct events as [|ev events'].
  - simpl in Hrate. split; [exact Hrate|]. rewrite Hrate. lra.
  - simpl List.length in Hrate. split; [exact Hrate|]. rewrite Hrate.
    apply Harness_more_facts.ratio_bounds; [exact Hle|simpl; lia].
Qed.

End Monitor_facts.

(** ** More on the refinement loop *)

Module OptimizationLoop_more_facts.
Import Py OptimizationLoop Vocabulary.
Local Open Scope loop_scope.

Lemma spends_ret {A} (a : A) (rq ck : nat) : spends (ret a) rq ck.
Proof. intros w. simpl. lia. Qed.

Lemma spends_lift {A} (o : outcome A) (rq ck : nat) : spends (lift o) rq ck.
Proof. intros w. simpl. lia. Qed.

Lemma spends_bind {A B} (m : M A) (k : A -> M B) (a b c d rq ck : nat) :
  spends m a b -> (forall x, spends (k x) c d) ->
  a + c <= rq -> b + d <= ck ->
  spends (mbind m k) rq ck.
Proof.
  intros Hm Hk Hrq Hck w. specialize (Hm w). unfold mbind.
  destruct (m w) as [[x|e] w1]; simpl in *.
  - specialize (Hk x w1). lia.
  - lia.
Qed.

Ltac spend_step gen_rule now_rule :=
  lazymatch goal with
  | |- spends (ret _) _ _ => apply spends_ret
  | |- spends (if ?b then _ else _) _ _ => destruct b
  | |- spends (mbind (lift _) _) ?r ?c =>
      apply (spends_bind _ _ 0 0 r c);
      [apply spends_lift | intros ? | lia | lia]
  | |- spends (mbind (OptimizationLoop.generate_response _ _ _ _) _) (S ?r) ?c =>
      apply (spends_bind _ _ 1 0 r c); [apply gen_rule | intros ? | lia | lia]
  | |- spends (mbind (OptimizationLoop.now _) _) ?r (S ?c) =>
      apply (spends_bind _ _ 0 1 r c); [apply now_rule | intros ? | lia | lia]
  end.

Section Facts.

Variable loads : string -> outcome value.
Variable service : nat -> value -> OllamaAPI.post_result.
Variable clock : nat -> Z.
Variable enhance_prompt : value -> value -> outcome value.
Variable cfg : config.

Notation attempt := (attempt loads service enhance_prompt cfg).
Notation evaluate := (evaluate clock).
Notation round := (round loads service clock enhance_prompt cfg).
Notation for_range := (for_range loads service clock enhance_prompt cfg).
Notation optimize_prompt := (optimize_prompt loads service clock enhance_prompt cfg).
Notation generate_response := (generate_response loads service).

Lemma spends_generate_response (model : string) (prompt : value) :
  spends (generate_response model prompt) 1 0.
Proof. intros w. simpl. lia. Qed.

Lemma spends_now : spends (now clock) 0 1.
Proof. intros w. simpl. lia. Qed.

Lemma spends_attempt (st : locals) : spends (attempt st) 3 0.
Proof.
  unfold OptimizationLoop.attempt.
  repeat spend_step spends_generate_response spends_now.
Qed.

Lemma spends_evaluate (prompt : value) (start_time : Z) (threshold : Q)
  (iteration : nat) (st : locals) (c : candidate) :
  spends (evaluate prompt start_time threshold iteration st c) 0 2.
Proof.
  unfold OptimizationLoop.evaluate.
  repeat spend_step spends_generate_response spends_now.
Qed.

Lemma spends_round (prompt : value) (start_time : Z) (threshold : Q)
  (iteration : nat) (st : locals) :
  spends (round prompt start_time threshold iteration st) 3 2.
Proof.
  unfold OptimizationLoop.round.
  apply (spends_bind _ _ 3 0 0 2); [apply spends_attempt| |lia|lia].
  intros [reply oc]. simpl. destruct oc as [c|].
  - apply spends_evaluate.
  - apply spends_ret.
Qed.

Lemma spends_for_range (prompt : value) (start_time : Z) (threshold : Q)
  (n : nat) :
  forall (iteration : nat) (st : locals),
    spends (for_range prompt start_time threshold n iteration st) (3 * n) (2 * n).
Proof.
  induction n as [|n IH]; intros iteration st.
  - apply spends_ret.
  - cbn [OptimizationLoop.for_range].
    apply (spends_bind _ _ 3 2 (3 * n) (2 * n)); [apply spends_round| |lia|lia].
    intros [ctl st1]. simpl. destruct ctl.
    + apply IH.
    + apply spends_ret.
Qed.

Lemma spends_fallback (prompt : value) (st : locals) :
  spends (fallback clock prompt st) 0 1.
Proof.
  unfold OptimizationLoop.fallback.
  repeat spend_step spends_generate_response spends_now.
Qed.

(** X9.  Whether it returns or raises, a call of [optimize_prompt] sends
    at most three requests per allowed round and takes none back, and it
    reads the clock at least once and at most twice per allowed round
    plus twice. *)
Theorem request_bound
  (prompt : string) (max_iterations : Z) (improvement_threshold : Q) (w : world) :
  let w' := snd (optimize_prompt prompt max_iterations improvement_threshold w) in
  requests w <= requests w' <= requests w + 3 * Z.to_nat max_iterations
  /\ clock_reads w < clock_reads w'
     <= clock_reads w + 2 * Z.to_nat max_iterations + 2.
Proof.
  intros w'. subst w'. unfold OptimizationLoop.optimize_prompt.
  rewrite (OptimizationLoop_facts.mbind_step _ _ w _ _
             (OptimizationLoop_facts.now_run clock w)).
  match goal with
  | |- context [snd (mbind ?m ?k ?w1)] =>
      assert (Hrest : spends (mbind m k)
                        (3 * Z.to_nat max_iterations)
                        (2 * Z.to_nat max_iterations + 1))
  end.
  { apply (spends_bind _ _ (3 * Z.to_nat max_iterations)
             (2 * Z.to_nat max_iterations) 0 1);
      [apply spends_for_range| |lia|lia].
    intros st. destruct (best_result st).
    - apply spends_ret.
    - apply spends_fallback. }
  specialize (Hrest (started w)). simpl in Hrest. simpl. lia.
Qed.

(** A breaking round keeps what has grown; an accepting round makes it
    grow by one round. *)
Lemma round_grown (prompt : value) (start_time : Z) (threshold : Q)
  (i : nat) (st st' : locals) (w w' : world) (ctl : ctrl) :
  grown prompt threshold i st ->
  round prompt start_time threshold i st w = (Return (ctl, st'), w') ->
  match ctl with
  | Break => grown prompt threshold i st'
  | Continue => grown prompt threshold (S i) st'
  end.
Proof.
  intros Hg Er.
  destruct (OptimizationLoop_facts.round_returns _ _ _ _ _ _ _ _ _ _ _ _ _ _ Er)
    as [[-> [reply ->]]|[-> (reply & c & w1 & r & Ha & Hlt & _ & Hbs & Hbr & Ho & _ & Hsc & Hit)]].
  - exact Hg.
  - apply (Float_facts.add_gt _ _ _
             (OptimizationLoop_facts.attempt_score_float _ _ _ _ _ _ _ _ _ Ha))
      in Hlt.
    unfold grown in *. rewrite Hbr, Hbs.
    split; [rewrite Hit; lia|]. split; [exact Hsc|]. split; [exact Ho|].
    rewrite Harness_more_facts.inject_succ.
    setoid_replace ((inject_Z (Z.of_nat i) + 1) * threshold)%Q
      with (inject_Z (Z.of_nat i) * threshold + threshold)%Q by ring.
    destruct (best_result st) as [r0|].
    + destruct Hg as (_ & _ & _ & Hgrow).
      set (P := (inject_Z (Z.of_nat i) * threshold)%Q) in *. lra.
    + destruct Hg as [-> Hzero]. rewrite Hzero in Hlt.
      change (inject_Z (Z.of_nat 0)) with 0%Q. lra.
Qed.

Lemma for_range_grown (prompt : value) (start_time : Z) (threshold : Q)
  (n : nat) :
  forall (i : nat) (st st' : locals) (w w' : world),
    grown prompt threshold i st ->
    for_range prompt start_time threshold n i st w = (Return st', w') ->
    exists j, i <= j <= i + n /\ grown prompt threshold j st'.
Proof.
  induction n as [|n IH]; intros i st st' w w' Hg H.
  - simpl in H. unfold ret in H. inversion H; subst.
    exists i. split; [lia|exact Hg].
  - apply OptimizationLoop_facts.for_range_step in H.
    destruct H as (ctl & st1 & w1 & Er & H).
    pose proof (round_grown _ _ _ _ _ _ _ _ _ Hg Er) as Hg1.
    destruct ctl.
    + destruct (IH _ _ _ _ _ Hg1 H) as (j & Hj & Hgj).
      exists j. split; [lia|exact Hgj].
    + destruct H as [-> _]. exists i. split; [lia|exact Hg1].
Qed.

(** X10.  Every result that [optimize_prompt] returns names the caller's
    prompt as its original prompt and counts between 0 and
    [max_iterations] rounds; when it counts at least one round, its
    score exceeds the round count times the threshold. *)
Theorem result_growth
  (prompt : string) (max_iterations : Z) (improvement_threshold : Q)
  (w w' : world) (r : OptimizationResult) :
  optimize_prompt prompt max_iterations improvement_threshold w = (Return r, w') ->
  original_prompt r = VStr prompt
  /\ (0 <= iterations (metadata r) <= max_iterations)%Z
  /\ ((0 < iterations (metadata r))%Z ->
      (inject_Z (iterations (metadata r)) * improvement_threshold
       < improvement_score r)%Q).
Proof.
  intros H. unfold OptimizationLoop.optimize_prompt in H.
  apply OptimizationLoop_facts.mbind_Return in H.
  destruct H as (start_time & w1 & _ & H).
  apply OptimizationLoop_facts.mbind_Return in H.
  destruct H as (st & w2 & Hloop & H).
  destruct (Z.to_nat max_iterations) as [|k] eqn:Ek.
  { simpl in Hloop. unfold ret in Hloop. inversion Hloop; subst st.
    simpl in H. discriminate. }
  assert (Hmax : Z.of_nat (S k) = max_iterations) by lia.
  apply for_range_grown in Hloop; [|unfold grown; simpl; auto].
  destruct Hloop as (j & Hj & Hg). unfold grown in Hg.
  destruct (best_result st) as [result|].
  - unfold ret in H. inversion H; subst result.
    destruct Hg as (Hit & Hsc & Ho & Hgrow).
    split; [exact Ho|]. split; [lia|].
    intros _. rewrite Hit, Hsc. exact Hgrow.
  - apply OptimizationLoop_facts.fallback_returns in H.
    destruct H as (Ho & _ & _ & Hit).
    split; [exact Ho|]. split; [lia|]. intros Hpos. lia.
Qed.

(** X11.  When the first executor call of a call of [optimize_prompt]
    returns a reply with a [response] entry and the optimizer call that
    follows returns a falsy reply, the call returns the zero-round
    result after exactly two requests: the original prompt as optimised
    prompt, the executor's response as initial and final response, and
    score zero. *)
Theorem falsy_optimizer_reply_returns_fallback
  (prompt : string) (max_iterations : Z) (improvement_threshold : Q) (w : world)
  (reply text optimization_prompt refusal : value) :
  (0 < max_iterations)%Z ->
  OllamaAPI.generate_response loads (service (requests w)) (model1_name cfg)
    (VStr prompt) VNone = Return reply ->
  truthy reply = true ->
  subscript reply "response" = Return text ->
  enhance_prompt (VStr prompt) text = Return optimization_prompt ->
  OllamaAPI.generate_response loads (service (S (requests w))) (model2_name cfg)
    optimization_prompt VNone = Return refusal ->
  truthy refusal = false ->
  optimize_prompt prompt max_iterations improvement_threshold w
  = (Return {| original_prompt := VStr prompt;
               optimized_prompt := VStr prompt;
               initial_response := text;
               final_response := text;
               improvement_score := 0;
               created_at := clock (S (clock_reads w));
               metadata := {| iterations := 0; duration := None |} |},
     {| requests := S (S (requests w));
        clock_reads := S (S (clock_reads w)) |}).
Proof.
  intros Hmax H1 Ht Hs He H2 Hf.
  assert (Ha : attempt (first_locals prompt) (started w)
               = (Return (reply, None), sent (sent (started w)))).
  { unfold OptimizationLoop.attempt.
    erewrite OptimizationLoop_facts.mbind_step;
      [|rewrite OptimizationLoop_facts.generate_response_run; simpl;
        rewrite H1; reflexivity].
    rewrite Ht. cbn [negb].
    erewrite OptimizationLoop_facts.mbind_step;
      [|unfold lift; rewrite Hs; reflexivity].
    erewrite OptimizationLoop_facts.mbind_step;
      [|unfold lift, OptimizationLoop._create_optimization_prompt; simpl;
        rewrite He; reflexivity].
    erewrite OptimizationLoop_facts.mbind_step;
      [|rewrite OptimizationLoop_facts.generate_response_run; simpl;
        rewrite H2; reflexivity].
    rewrite Hf. reflexivity. }
  unfold OptimizationLoop.optimize_prompt.
  destruct (Z.to_nat max_iterations) as [|n] eqn:En; [lia|].
  rewrite (OptimizationLoop_facts.mbind_step _ _ w _ _
             (OptimizationLoop_facts.now_run clock w)).
  erewrite OptimizationLoop_facts.mbind_step.
  2:{ cbn [OptimizationLoop.for_range].
      erewrite OptimizationLoop_facts.mbind_step.
      2:{ unfold OptimizationLoop.round.
          erewrite OptimizationLoop_facts.mbind_step; [|exact Ha].
          reflexivity. }
      reflexivity. }
  cbn [snd fst best_result].
  unfold OptimizationLoop.fallback, mbind, lift, read_local; simpl.
  rewrite Hs. reflexivity.
Qed.

(** X12.  Against a service every reply of which carries a non-empty
    text, and with a template that renders every pair of texts to a
    text, a call of [optimize_prompt] that allows at least one round
    returns a result: none of the exceptions of the loop can occur. *)
Theorem healthy_service_returns
  (prompt : string) (max_iterations : Z) (improvement_threshold : Q) (w : world) :
  (0 < max_iterations)%Z ->
  (forall n model (p : string),
      exists v text,
        OllamaAPI.generate_response loads (service n) model (VStr p) VNone
        = Return v
        /\ generation v text) ->
  (forall p r : string,
      exists q : string, enhance_prompt (VStr p) (VStr r) = Return (VStr q)) ->
  exists r w',
    optimize_prompt prompt max_iterations improvement_threshold w = (Return r, w').
Proof.
  intros Hmax Hclient Hrender.
  assert (Hgen : forall v text,
             generation v text ->
             truthy v = true /\ subscript v "response" = Return (VStr text)).
  { intros v text (d & -> & Hd & _). split.
    - destruct d; [discriminate|reflexivity].
    - unfold subscript. rewrite Hd. reflexivity. }
  assert (Hattempt : forall st p w0,
             current_prompt st = VStr p ->
             exists reply c w1,
               attempt st w0 = (Return (reply, Some c), w1)
               /\ c_response c = reply
               /\ (exists q, c_new_prompt c = VStr q)
               /\ (exists t, subscript reply "response" = Return t)
               /\ (exists t, subscript (c_new_response c) "response" = Return t)).
  { intros st p w0 Hp.
    destruct (Hclient (requests w0) (model1_name cfg) p)
      as (v1 & t1 & E1 & G1).
    destruct (Hgen _ _ G1) as [T1 S1].
    destruct (Hrender p t1) as [q1 R1].
    destruct (Hclient (S (requests w0)) (model2_name cfg) q1)
      as (v2 & t2 & E2 & G2).
    destruct (Hgen _ _ G2) as [T2 S2].
    destruct (Hclient (S (S (requests w0))) (model1_name cfg) t2)
      as (v3 & t3 & E3 & G3).
    destruct (Hgen _ _ G3) as [T3 S3].
    assert (Hscore : exists q,
               _calculate_improvement (VStr t1) (VStr t3) = Return q).
    { unfold _calculate_improvement. simpl.
      destruct G1 as (d & _ & _ & Hne).
      destruct t1 as [|c t1']; [congruence|]. simpl. eauto. }
    destruct Hscore as [score Hscore].
    unfold OptimizationLoop.attempt. rewrite Hp.
    erewrite OptimizationLoop_facts.mbind_step;
      [|rewrite OptimizationLoop_facts.generate_response_run; simpl;
        rewrite E1; reflexivity].
    rewrite T1. cbn [negb].
    erewrite OptimizationLoop_facts.mbind_step;
      [|unfold lift; rewrite S1; reflexivity].
    erewrite OptimizationLoop_facts.mbind_step;
      [|unfold lift, OptimizationLoop._create_optimization_prompt; simpl;
        rewrite R1; reflexivity].
    erewrite OptimizationLoop_facts.mbind_step;
      [|rewrite OptimizationLoop_facts.generate_response_run; simpl;
        rewrite E2; reflexivity].
    rewrite T2. cbn [negb].
    erewrite OptimizationLoop_facts.mbind_step;
      [|unfold lift; rewrite S2; reflexivity].
    erewrite OptimizationLoop_facts.mbind_step;
      [|rewrite OptimizationLoop_facts.generate_response_run; simpl;
        rewrite E3; reflexivity].
    erewrite OptimizationLoop_facts.mbind_step;
      [|unfold lift; rewrite S1; reflexivity].
    erewrite OptimizationLoop_facts.mbind_step;
      [|unfold lift; rewrite S3; reflexivity].
    erewrite OptimizationLoop_facts.mbind_step;
      [|unfold lift; rewrite Hscore; reflexivity].
    eexists. eexists. eexists. split; [reflexivity|]. simpl.
    split; [reflexivity|]. split; [eauto|]. split; eauto. }
  assert (Hround : forall start_time i st p w0,
             current_prompt st = VStr p ->
             exists ctl st1 w1,
               round (VStr prompt) start_time improvement_threshold i st w0
               = (Return (ctl, st1), w1)
               /\ (exists q, current_prompt st1 = VStr q)
               /\ response_bound st1).
  { intros start_time i st p w0 Hp.
    destruct (Hattempt st p w0 Hp)
      as (reply & c & w1 & Ea & Hr & [q Hq] & [t Hs] & [t' Hs']).
    unfold OptimizationLoop.round.
    rewrite (OptimizationLoop_facts.mbind_step _ _ _ _ _ Ea). simpl.
    rewrite <- Hr in Hs.
    rewrite (OptimizationLoop_facts.evaluate_run clock _ _ _ _ _ c w1 t t' Hs Hs').
    simpl.
    destruct (gt (c_score c) (Float.add (best_score st) improvement_threshold)).
    - eexists. eexists. eexists. split; [reflexivity|]. simpl.
      split; [eauto|]. rewrite Hr in Hs.
      exists reply, t. simpl. auto.
    - eexists. eexists. eexists. split; [reflexivity|]. simpl.
      split; [eauto|]. rewrite Hr in Hs.
      exists reply, t. simpl. auto. }
  assert (Hloop : forall start_time n i st p w0,
             current_prompt st = VStr p ->
             (n = 0 -> response_bound st) ->
             exists st1 w1,
               for_range (VStr prompt) start_time improvement_threshold n i st w0
               = (Return st1, w1)
               /\ response_bound st1).
  { intros start_time n. induction n as [|n IH]; intros i st p w0 Hp Hb.
    - eexists. eexists. split; [reflexivity|]. apply Hb. reflexivity.
    - destruct (Hround start_time i st p w0 Hp)
        as (ctl & st1 & w1 & Er & [q Hq] & Hb1).
      cbn [OptimizationLoop.for_range].
      rewrite (OptimizationLoop_facts.mbind_step _ _ _ _ _ Er). simpl.
      destruct ctl.
      + apply (IH (S i) st1 q w1 Hq). intros _. exact Hb1.
      + eexists. eexists. split; [reflexivity|exact Hb1]. }
  unfold OptimizationLoop.optimize_prompt.
  rewrite (OptimizationLoop_facts.mbind_step _ _ w _ _
             (OptimizationLoop_facts.now_run clock w)).
  destruct (Hloop (clock (clock_reads w)) (Z.to_nat max_iterations) 0
              (first_locals prompt) prompt (started w) eq_refl)
    as (st1 & w1 & Ef & (reply & t & Hresp & Hsub)).
  { intros Hz. lia. }
  unfold first_locals in Ef.
  rewrite (OptimizationLoop_facts.mbind_step _ _ _ _ _ Ef).
  destruct (best_result st1) as [result|].
  - eexists. eexists. reflexivity.
  - unfold OptimizationLoop.fallback, mbind, lift, read_local.
    rewrite Hresp, Hsub. simpl. eexists. eexists. reflexivity.
Qed.

End Facts.

End OptimizationLoop_more_facts.

(** ** Runs of the refinement loop against the scenario *)

Module Loop_runs.
Import Py OptimizationLoop Vocabulary.

(** The growth of the result of the scenario's first call. *)
Lemma result_growth_witness :
  Scenario.run Scenario.stub 3 Scenario.w0
  = (Return Scenario.first_result, Scenario.w1)
  /\ original_prompt Scenario.first_result = VStr "Tell me about AI"
  /\ (0 <= iterations (metadata Scenario.first_result) <= 3)%Z
  /\ ((0 < iterations (metadata Scenario.first_result))%Z ->
      (inject_Z (iterations (metadata Scenario.first_result)) * Scenario.threshold
       < improvement_score Scenario.first_result)%Q).
Proof.
  assert (H : Scenario.run Scenario.stub 3 Scenario.w0
              = (Return Scenario.first_result, Scenario.w1))
    by (vm_compute; reflexivity).
  split; [exact H|].
  exact (OptimizationLoop_more_facts.result_growth
           Json.json_loads Scenario.stub Scenario.ticking Scenario.render
           Scenario.cfg "Tell me about AI" 3 Scenario.threshold
           Scenario.w0 Scenario.w1 Scenario.first_result H).
Defined.

(** The optimizer's request is refused: the zero-round result. *)
Lemma falsy_optimizer_reply_returns_fallback_witness :
  Scenario.run (Scenario.failing_at 1) 3 Scenario.w0
  = (Return {| original_prompt := VStr "Tell me about AI";
               optimized_prompt := VStr "Tell me about AI";
               initial_response := VStr Scenario.short_answer;
               final_response := VStr Scenario.short_answer;
               improvement_score := 0;
               created_at := 1;
               metadata := {| iterations := 0; duration := None |} |},
     {| requests := 2; clock_reads := 2 |}).
Proof.
  apply (OptimizationLoop_more_facts.falsy_optimizer_reply_returns_fallback
           Json.json_loads (Scenario.failing_at 1) Scenario.ticking
           Scenario.render Scenario.cfg "Tell me about AI" 3 Scenario.threshold
           Scenario.w0
           (VDict [("response", VStr Scenario.short_answer)])
           (VStr Scenario.short_answer)
           (VStr ("Improve: " ++ "Tell me about AI" ++ " / " ++ Scenario.short_answer))
           VNone).
  - lia.
  - vm_compute; reflexivity.
  - reflexivity.
  - reflexivity.
  - reflexivity.
  - vm_compute; reflexivity.
  - reflexivity.
Defined.

(** Every reply of the scenario's service carries a non-empty text. *)
Lemma stub_generates (n : nat) (model p : string) :
  exists v text,
    OllamaAPI.generate_response Json.json_loads (Scenario.stub n) model (VStr p) VNone
    = Return v
    /\ generation v text.
Proof.
  unfold OllamaAPI.generate_response, OllamaAPI.generate_response_try.
  cbn [OllamaAPI.payload truthy fold_left bind].
  unfold Scenario.stub.
  change (subscript (VDict [("model", VStr model); ("prompt", VStr p);
                            ("stream", VBool false)]) "model")
    with (Return (VStr model)).
  change (subscript (VDict [("model", VStr model); ("prompt", VStr p);
                            ("stream", VBool false)]) "prompt")
    with (Return (VStr p)).
  cbv iota beta.
  destruct (String.eqb model "llama3.2:3b");
    [|destruct (String.eqb p "Tell me about AI")].
  - exists (VDict [("response", VStr "Explain AI in depth")]), "Explain AI in depth".
    split; [vm_compute; reflexivity|].
    eexists. split; [reflexivity|]. split; [reflexivity|discriminate].
  - exists (VDict [("response", VStr Scenario.short_answer)]), Scenario.short_answer.
    split; [vm_compute; reflexivity|].
    eexists. split; [reflexivity|]. split; [reflexivity|discriminate].
  - exists (VDict [("response", VStr Scenario.long_answer)]), Scenario.long_answer.
    split; [vm_compute; reflexivity|].
    eexists. split; [reflexivity|]. split; [reflexivity|discriminate].
Qed.

Lemma render_renders (p r : string) :
  exists q : string, Scenario.render (VStr p) (VStr r) = Return (VStr q).
Proof. eexists. reflexivity. Qed.

(** The scenario's service is healthy and its template renders. *)
Lemma healthy_service_returns_witness :
  exists r w', Scenario.run Scenario.stub 3 Scenario.w0 = (Return r, w').
Proof.
  apply (OptimizationLoop_more_facts.healthy_service_returns
           Json.json_loads Scenario.stub Scenario.ticking Scenario.render
           Scenario.cfg "Tell me about AI" 3 Scenario.threshold Scenario.w0).
  - lia.
  - exact stub_generates.
  - exact render_renders.
Defined.

End Loop_runs.
